(** * Shallow embedding of [pdf_parser.py] (class [InvoiceParser])

    Python strings are sequences of Unicode code points; they are modelled
    as [list Z].  Literals of the source are written as UTF-8 Rocq strings
    and decoded by [u].  The character classes used by the code
    ([\s], [\d], [str.isdigit], [str.strip]) follow the Unicode tables of
    CPython 3.11 (Unicode 14.0).  Regular expressions are modelled by a
    backtracking matcher with the search order of Python's [re] module
    (greedy and lazy repetition, capture groups, leftmost match first). *)

From Stdlib Require Import ZArith List String Ascii Bool QArith Lia.
Import ListNotations.

Open Scope Z_scope.

(* ------------------------------------------------------------------ *)
(** ** Text *)

Definition text := list Z.

(** Decoding of a UTF-8 byte sequence into code points (used only to write
    the Cyrillic literals of the source). *)
Fixpoint utf8_decode (bs : list Z) : text :=
  match bs with
  | [] => []
  | b0 :: r =>
    if b0 <? 128 then b0 :: utf8_decode r
    else if b0 <? 224 then
      match r with
      | b1 :: r1 => (Z.land b0 31 * 64 + Z.land b1 63) :: utf8_decode r1
      | [] => []
      end
    else if b0 <? 240 then
      match r with
      | b1 :: b2 :: r2 =>
          ((Z.land b0 15 * 64 + Z.land b1 63) * 64 + Z.land b2 63) :: utf8_decode r2
      | _ => []
      end
    else
      match r with
      | b1 :: b2 :: b3 :: r3 =>
          (((Z.land b0 7 * 64 + Z.land b1 63) * 64 + Z.land b2 63) * 64
             + Z.land b3 63) :: utf8_decode r3
      | _ => []
      end
  end.

Definition u (s : string) : text :=
  utf8_decode (map (fun a => Z.of_nat (nat_of_ascii a)) (list_ascii_of_string s)).

(** First code points of the runs of ten characters of category Nd
    (the characters matched by [\d] and accepted as digits by [int()] and
    [float()]); the character [b + k] has decimal value [k]. *)
Definition nd_blocks : list Z :=
  [48; 1632; 1776; 1984; 2406; 2534; 2662; 2790; 2918; 3046; 3174; 3302;
   3430; 3558; 3664; 3792; 3872; 4160; 4240; 6112; 6160; 6470; 6608; 6784;
   6800; 6992; 7088; 7232; 7248; 42528; 43216; 43264; 43472; 43504; 43600;
   44016; 65296; 66720; 68912; 69734; 69872; 69942; 70096; 70384; 70736;
   70864; 71248; 71360; 71472; 71904; 72016; 72784; 73040; 73120; 92768;
   92864; 93008; 120782; 120792; 120802; 120812; 120822; 123200; 123632;
   125264; 130032].

Definition decimal_value (c : Z) : option Z :=
  match find (fun b => (b <=? c) && (c <? b + 10)) nd_blocks with
  | Some b => Some (c - b)
  | None => None
  end.

Definition is_decimal (c : Z) : bool :=
  match decimal_value c with Some _ => true | None => false end.

(** Characters for which [str.isdigit] holds besides the Nd ones
    (superscripts, circled digits, ...). *)
Definition other_digit_ranges : list (Z * Z) :=
  [(178, 179); (185, 185); (4969, 4977); (6618, 6618); (8304, 8304);
   (8308, 8313); (8320, 8329); (9312, 9320); (9332, 9340); (9352, 9360);
   (9450, 9450); (9461, 9469); (9471, 9471); (10102, 10110); (10112, 10120);
   (10122, 10130); (68160, 68163); (69216, 69224); (69714, 69722);
   (127232, 127242)].

Definition is_digit (c : Z) : bool :=
  is_decimal c
  || existsb (fun r => (fst r <=? c) && (c <=? snd r)) other_digit_ranges.

(** [str.isspace], also the class [\s] of [re] and what [strip()] removes. *)
Definition space_chars : list Z :=
  [9; 10; 11; 12; 13; 28; 29; 30; 31; 32; 133; 160; 5760; 8192; 8193; 8194;
   8195; 8196; 8197; 8198; 8199; 8200; 8201; 8202; 8232; 8233; 8239; 8287;
   12288].

Definition is_space (c : Z) : bool := existsb (Z.eqb c) space_chars.

Definition chr_newline : Z := 10.
Definition chr_comma : Z := 44.
Definition chr_dot : Z := 46.
Definition chr_rub : Z := 8381.   (* U+20BD, the rouble sign *)

Fixpoint lstrip (s : text) : text :=
  match s with
  | c :: r => if is_space c then lstrip r else s
  | [] => []
  end.

(** [str.strip()] *)
Definition strip (s : text) : text := rev (lstrip (rev (lstrip s))).

(** [str.split('\n')] *)
Fixpoint split_nl (s : text) : list text :=
  match s with
  | [] => [[]]
  | c :: r =>
    if c =? chr_newline then [] :: split_nl r
    else match split_nl r with
         | l :: ls => (c :: l) :: ls
         | [] => [[c]]
         end
  end.

Fixpoint prefixb (p s : text) : bool :=
  match p, s with
  | [], _ => true
  | c :: p', d :: s' => (c =? d) && prefixb p' s'
  | _ :: _, [] => false
  end.

(** [p in s] for strings *)
Fixpoint infixb (p s : text) : bool :=
  prefixb p s || match s with [] => false | _ :: s' => infixb p s' end.

(** [s.replace(',', '.')] *)
Definition replace_comma (s : text) : text :=
  map (fun c => if c =? chr_comma then chr_dot else c) s.

(** [str.isdigit()] *)
Definition py_isdigit (s : text) : bool :=
  match s with [] => false | _ => forallb is_digit s end.

(* ------------------------------------------------------------------ *)
(** ** Regular expressions *)

Inductive regex :=
| Eps
| Chr (p : Z -> bool)
| Seq (a b : regex)
| Star (greedy : bool) (a : regex)
| Group (n : nat) (a : regex).

(** Captured groups, the latest capture of a group first. *)
Definition caps := list (nat * text).

(** Repetition [a*] (greedy) or [a*?] (lazy) of a pattern whose matcher is
    [body], followed by the continuation [k].  An iteration must consume
    input (the repeated parts of the patterns of the code always do), so
    [fuel], the length of the input, bounds the iterations. *)
Fixpoint star_loop (body : text -> caps -> (text -> caps -> option caps) -> option caps)
         (greedy : bool) (k : text -> caps -> option caps)
         (fuel : nat) (s : text) (g : caps) {struct fuel} : option caps :=
  match fuel with
  | O => k s g
  | S fuel' =>
    if greedy then
      match body s g (fun s' g' =>
              if (List.length s' <? List.length s)%nat
              then star_loop body greedy k fuel' s' g' else None) with
      | Some x => Some x
      | None => k s g
      end
    else
      match k s g with
      | Some x => Some x
      | None => body s g (fun s' g' =>
              if (List.length s' <? List.length s)%nat
              then star_loop body greedy k fuel' s' g' else None)
      end
  end.

(** Backtracking matcher in continuation-passing style: [mtch r s g k] tries
    the ways [r] matches a prefix of [s] in the order of Python's engine and
    returns the first success of the continuation [k]. *)
Fixpoint mtch (r : regex) (s : text) (g : caps)
         (k : text -> caps -> option caps) {struct r} : option caps :=
  match r with
  | Eps => k s g
  | Chr p =>
    match s with
    | c :: s' => if p c then k s' g else None
    | [] => None
    end
  | Seq a b => mtch a s g (fun s' g' => mtch b s' g' k)
  | Group n a =>
    mtch a s g (fun s' g' => k s' ((n, firstn (List.length s - List.length s') s) :: g'))
  | Star greedy a => star_loop (mtch a) greedy k (List.length s) s g
  end.

Definition k_done : text -> caps -> option caps := fun _ g => Some g.

Fixpoint search_at (r : regex) (s : text) : option caps :=
  match mtch r s [] k_done with
  | Some g => Some g
  | None => match s with [] => None | _ :: s' => search_at r s' end
  end.

(** [re.search(r, s)]: group 0 is the whole match. *)
Definition re_search (r : regex) (s : text) : option caps := search_at (Group 0 r) s.

(** [re.match(r, s)]: anchored at the start of [s]. *)
Definition re_match (r : regex) (s : text) : option caps :=
  mtch (Group 0 r) s [] k_done.

(** [m.group(n)] *)
Definition group (n : nat) (g : caps) : text :=
  match find (fun p => Nat.eqb (fst p) n) g with
  | Some (_, t) => t
  | None => []
  end.

Definition lit (t : text) : regex := fold_right (fun c r => Seq (Chr (Z.eqb c)) r) Eps t.
Definition litu (s : string) : regex := lit (u s).
Definition cat (l : list regex) : regex := fold_right Seq Eps l.
Definition plus (a : regex) : regex := Seq a (Star true a).
Definition star (a : regex) : regex := Star true a.
Definition lazy_plus (a : regex) : regex := Seq a (Star false a).

(** [\s], [\d], [.] and the character sets of the patterns *)
Definition ws : regex := Chr is_space.
Definition ws_star : regex := star ws.
Definition ws_plus : regex := plus ws.
Definition dig : regex := Chr is_decimal.
Definition any : regex := Chr (fun c => negb (c =? chr_newline)).
Definition set_dig_dot : regex := Chr (fun c => is_decimal c || (c =? chr_dot)).
Definition set_dig_dot_comma : regex :=
  Chr (fun c => is_decimal c || (c =? chr_dot) || (c =? chr_comma)).
Definition set_dig_dash : regex := Chr (fun c => is_decimal c || (c =? 45)).
Definition set_not_comma : regex := Chr (fun c => negb (c =? chr_comma)).
(** [[\+\d\s\(\)-]] *)
Definition set_phone : regex :=
  Chr (fun c => (c =? 43) || is_decimal c || is_space c || (c =? 40) || (c =? 41)
                || (c =? 45)).

(* ------------------------------------------------------------------ *)
(** ** Python values, [int()] and [float()] *)

(** Value of a string of decimal digits ([Some 0] on the empty string). *)
Fixpoint digits_val_acc (acc : Z) (s : text) : option Z :=
  match s with
  | [] => Some acc
  | c :: r =>
    match decimal_value c with
    | Some v => digits_val_acc (acc * 10 + v) r
    | None => None
    end
  end.

Definition digits_val (s : text) : option Z := digits_val_acc 0 s.

(** [int(s)] on the strings the code passes it: a [\d+] capture or a string
    for which [str.isdigit()] holds (no sign, space or underscore).  It
    succeeds exactly when every character is a decimal digit. *)
Definition py_int (s : text) : option Z :=
  match s with [] => None | _ => digits_val s end.

Fixpoint split_dot (s : text) : text * option text :=
  match s with
  | [] => ([], None)
  | c :: r =>
    if c =? chr_dot then ([], Some r)
    else let (a, b) := split_dot r in (c :: a, b)
  end.

(** [float(s)] on the strings the code passes it: strings of decimal digits
    and dots (a [[\d.]+] or [[\d.,]+] capture with ',' replaced by '.').
    There Python accepts [digits], [digits.], [.digits] and [digits.digits],
    and raises [ValueError] otherwise.  The result is the exact decimal
    value, which Python then rounds to the nearest binary64 number. *)
Definition py_float (s : text) : option Q :=
  match split_dot s with
  | (ip, None) =>
    match ip with
    | [] => None
    | _ => option_map inject_Z (digits_val ip)
    end
  | (ip, Some fp) =>
    match ip, fp with
    | [], [] => None
    | _, _ =>
      match digits_val ip, digits_val fp with
      | Some a, Some b =>
          let n := Z.of_nat (List.length fp) in
          Some (inject_Z (a * 10 ^ n + b) / inject_Z (10 ^ n))%Q
      | _, _ => None
      end
    end
  end.

(** Values stored in the result dictionaries. *)
Inductive pyval :=
| PStr (t : text)
| PInt (z : Z)
| PFloat (q : Q).

(** Arguments of [_parse_number]: table cells are [None] or [str]; [int]
    covers the literal [0] of the specification. *)
Inductive pyobj :=
| ANone
| AStr (t : text)
| AInt (z : Z).

Definition py_truthy (v : pyobj) : bool :=
  match v with
  | ANone => false
  | AStr t => match t with [] => false | _ => true end
  | AInt z => negb (z =? 0)
  end.

Fixpoint pos_digits (fuel : nat) (n : Z) (acc : text) : text :=
  match fuel with
  | O => acc
  | S f =>
    let acc' := (48 + n mod 10) :: acc in
    if n <? 10 then acc' else pos_digits f (n / 10) acc'
  end.

(** [str(z)] for an integer *)
Definition int_repr (z : Z) : text :=
  if z <? 0 then 45 :: pos_digits (S (Z.to_nat (Z.log2 (- z)))) (- z) []
  else pos_digits (S (Z.to_nat (Z.log2 z))) z [].

(** [str(v)] *)
Definition py_str (v : pyobj) : text :=
  match v with
  | ANone => u "None"
  | AStr t => t
  | AInt z => int_repr z
  end.

(** [v > 0] for a number *)
Definition py_gt0 (v : pyval) : bool :=
  match v with
  | PInt z => 0 <? z
  | PFloat q => negb (Qle_bool q 0)
  | PStr _ => false
  end.

(** A Python dict: insertion-ordered, assignment overwrites in place. *)
Definition dict := list (string * pyval).

Fixpoint dset (k : string) (v : pyval) (d : dict) : dict :=
  match d with
  | [] => [(k, v)]
  | (k', v') :: r => if String.eqb k k' then (k, v) :: r else (k', v') :: dset k v r
  end.

Definition dget (k : string) (d : dict) : option pyval :=
  option_map snd (find (fun p => String.eqb (fst p) k) d).

(* ------------------------------------------------------------------ *)
(** ** Exceptions *)

Inductive exn :=
| ValueError
| OpenError.   (* [pdfplumber.open] cannot open or read the document *)

Inductive res (A : Type) :=
| Ok (a : A)
| Err (e : exn).
Arguments Ok {A} a.
Arguments Err {A} e.

Definition bind {A B} (c : res A) (f : A -> res B) : res B :=
  match c with Ok a => f a | Err e => Err e end.

Notation "'let*' x ':=' c 'in' k" := (bind c (fun x => k))
  (at level 200, x name, c at level 100, k at level 200).

Definition float_exn (s : text) : res Q :=
  match py_float s with Some q => Ok q | None => Err ValueError end.

Definition int_exn (s : text) : res Z :=
  match py_int s with Some z => Ok z | None => Err ValueError end.

(* ------------------------------------------------------------------ *)
(** ** [_parse_number] *)

(** [[\d.]+] *)
Definition re_number : regex := plus set_dig_dot.

Definition parse_number (value : pyobj) : pyval :=
  if negb (py_truthy value) then PInt 0
  else
    let str_value := strip (py_str value) in
    let str_value := filter (fun c => negb ((c =? chr_rub) || is_space c)) str_value in
    let str_value := replace_comma str_value in
    match re_search re_number str_value with
    | Some m =>
      match py_float (group 0 m) with
      | Some q => PFloat q
      | None => PInt 0
      end
    | None => PInt 0
    end.

(* ------------------------------------------------------------------ *)
(** ** The parser state [self.data] *)

Record data := mk_data {
  invoice_info : dict;
  company_info : dict;
  customer_info : dict;
  line_items : list dict;
  totals : dict;
  parsed_at : string
}.

(** [InvoiceParser.__init__]: [now] is [datetime.now().isoformat()]. *)
Definition init_data (now : string) : data := mk_data [] [] [] [] [] now.

Definition upd_invoice (f : dict -> dict) (d : data) : data :=
  mk_data (f (invoice_info d)) (company_info d) (customer_info d) (line_items d)
          (totals d) (parsed_at d).
Definition upd_company (f : dict -> dict) (d : data) : data :=
  mk_data (invoice_info d) (f (company_info d)) (customer_info d) (line_items d)
          (totals d) (parsed_at d).
Definition upd_customer (f : dict -> dict) (d : data) : data :=
  mk_data (invoice_info d) (company_info d) (f (customer_info d)) (line_items d)
          (totals d) (parsed_at d).
Definition upd_totals (f : dict -> dict) (d : data) : data :=
  mk_data (invoice_info d) (company_info d) (customer_info d) (line_items d)
          (f (totals d)) (parsed_at d).
(** [self.data['line_items'].append(item)] *)
Definition append_item (d : data) (item : dict) : data :=
  mk_data (invoice_info d) (company_info d) (customer_info d) (line_items d ++ [item])
          (totals d) (parsed_at d).

(* ------------------------------------------------------------------ *)
(** ** [_parse_header_info] *)

(** [№\s*([\d-]+)\s*от\s*([\d.]+)] *)
Definition re_invoice : regex :=
  cat [litu "№"; ws_star; Group 1 (plus set_dig_dash); ws_star; litu "от"; ws_star;
       Group 2 (plus set_dig_dot)].

(** [Исполнитель:\s*(.+?)\s*,\s*ИНН\s*(\d+)] *)
Definition re_company : regex :=
  cat [litu "Исполнитель:"; ws_star; Group 1 (lazy_plus any); ws_star; litu ",";
       ws_star; litu "ИНН"; ws_star; Group 2 (plus dig)].

(** [Заказчик:\s*(.+?)\s*,\s*ИНН\s*(\d+)] *)
Definition re_customer : regex :=
  cat [litu "Заказчик:"; ws_star; Group 1 (lazy_plus any); ws_star; litu ",";
       ws_star; litu "ИНН"; ws_star; Group 2 (plus dig)].

(** [Адрес:\s*([^,]+(?:,[^,]+)* )\s*,\s*тел\.\s*([\+\d\s\(\)-]+)]
    (no space between the star and the parenthesis in the source) *)
Definition re_address : regex :=
  cat [litu "Адрес:"; ws_star;
       Group 1 (Seq (plus set_not_comma) (star (Seq (litu ",") (plus set_not_comma))));
       ws_star; litu ","; ws_star; litu "тел."; ws_star; Group 2 (plus set_phone)].

(** One iteration of the loop of [_parse_header_info]. *)
Definition header_line (d : data) (line0 : text) : data :=
  let line := strip line0 in
  let d :=
    if infixb (u "Детализация к счету №") line then
      match re_search re_invoice line with
      | Some m =>
          upd_invoice (fun i => dset "date"%string (PStr (group 2 m))
                                  (dset "number"%string (PStr (group 1 m)) i)) d
      | None => d
      end
    else d in
  let d :=
    if infixb (u "Исполнитель:") line then
      match re_search re_company line with
      | Some m =>
          upd_company (fun i => dset "inn"%string (PStr (group 2 m))
                                  (dset "name"%string (PStr (strip (group 1 m))) i)) d
      | None => d
      end
    else d in
  if infixb (u "Заказчик:") line then
    let d :=
      match re_search re_customer line with
      | Some m =>
          upd_customer (fun i => dset "inn"%string (PStr (group 2 m))
                                   (dset "name"%string (PStr (strip (group 1 m))) i)) d
      | None => d
      end in
    match re_search re_address line with
    | Some m =>
        upd_customer (fun i => dset "phone"%string (PStr (strip (group 2 m)))
                                 (dset "address"%string (PStr (strip (group 1 m))) i)) d
    | None => d
    end
  else d.

Definition parse_header_info (d : data) (txt : text) : data :=
  fold_left header_line (split_nl txt) d.

(* ------------------------------------------------------------------ *)
(** ** [_parse_line_items] *)

(** [Хранение товаров от\s*([\d.]+)\s*до\s*([\d.]+)\s*([\d.,]+)\s*м³\s*([\d.,]+)\s*₽\s*([\d.,]+)\s*₽] *)
Definition re_storage : regex :=
  cat [litu "Хранение товаров от"; ws_star; Group 1 (plus set_dig_dot); ws_star;
       litu "до"; ws_star; Group 2 (plus set_dig_dot); ws_star;
       Group 3 (plus set_dig_dot_comma); ws_star; litu "м³"; ws_star;
       Group 4 (plus set_dig_dot_comma); ws_star; litu "₽"; ws_star;
       Group 5 (plus set_dig_dot_comma); ws_star; litu "₽"].

(** [Приемка товара на склад и размещение\s*(\d+)\s*шт\.\s*([\d.,]+)\s*₽\s*([\d.,]+)\s*₽] *)
Definition re_reception : regex :=
  cat [litu "Приемка товара на склад и размещение"; ws_star; Group 1 (plus dig);
       ws_star; litu "шт."; ws_star; Group 2 (plus set_dig_dot_comma); ws_star;
       litu "₽"; ws_star; Group 3 (plus set_dig_dot_comma); ws_star; litu "₽"].

(** [Отгрузка FBO\s*(\d+)\s*от\s*([\d.]+)] *)
Definition re_shipment : regex :=
  cat [litu "Отгрузка FBO"; ws_star; Group 1 (plus dig); ws_star; litu "от"; ws_star;
       Group 2 (plus set_dig_dot)].

(** [Приемка\s+\d+\s+от] (used with [re.match]) *)
Definition re_recop_head : regex :=
  cat [litu "Приемка"; ws_plus; plus dig; ws_plus; litu "от"].

(** [Приемка\s+(\d+)\s+от\s+([\d.]+)] *)
Definition re_recop : regex :=
  cat [litu "Приемка"; ws_plus; Group 1 (plus dig); ws_plus; litu "от"; ws_plus;
       Group 2 (plus set_dig_dot)].

Definition is_some {A} (o : option A) : bool := match o with Some _ => true | None => false end.

(** The body of the loop of [_parse_line_items] for one line: the item it
    appends, if any, or the exception raised by [float()] / [int()]. *)
Definition line_item (line0 : text) : res (option dict) :=
  let line := strip line0 in
  if infixb (u "Хранение товаров от") line then
    match re_search re_storage line with
    | Some m =>
      let* q := float_exn (replace_comma (group 3 m)) in
      let* p := float_exn (replace_comma (group 4 m)) in
      let* t := float_exn (replace_comma (group 5 m)) in
      Ok (Some [("type"%string, PStr (u "storage"));
                ("description"%string,
                  PStr (u "Хранение товаров от " ++ group 1 m ++ u " до " ++ group 2 m));
                ("from_date"%string, PStr (group 1 m));
                ("to_date"%string, PStr (group 2 m));
                ("quantity"%string, PFloat q);
                ("unit"%string, PStr (u "м³"));
                ("price_per_unit"%string, PFloat p);
                ("total_amount"%string, PFloat t)])
    | None => Ok None
    end
  else if infixb (u "Приемка товара на склад") line then
    match re_search re_reception line with
    | Some m =>
      let* q := int_exn (group 1 m) in
      let* p := float_exn (replace_comma (group 2 m)) in
      let* t := float_exn (replace_comma (group 3 m)) in
      Ok (Some [("type"%string, PStr (u "reception"));
                ("description"%string, PStr (u "Приемка товара на склад и размещение"));
                ("quantity"%string, PInt q);
                ("unit"%string, PStr (u "шт."));
                ("price_per_unit"%string, PFloat p);
                ("total_amount"%string, PFloat t)])
    | None => Ok None
    end
  else if infixb (u "Отгрузка FBO") line then
    match re_search re_shipment line with
    | Some m =>
      Ok (Some [("type"%string, PStr (u "shipment"));
                ("description"%string, PStr (u "Отгрузка FBO " ++ group 1 m));
                ("fbo_number"%string, PStr (group 1 m));
                ("date"%string, PStr (group 2 m));
                ("total_amount"%string, PInt 0)])
    | None => Ok None
    end
  else if is_some (re_match re_recop_head line) then
    match re_search re_recop line with
    | Some m =>
      Ok (Some [("type"%string, PStr (u "reception_operation"));
                ("description"%string, PStr (u "Приемка " ++ group 1 m));
                ("reception_number"%string, PStr (group 1 m));
                ("date"%string, PStr (group 2 m));
                ("total_amount"%string, PInt 0)])
    | None => Ok None
    end
  else Ok None.

Fixpoint line_items_loop (d : data) (lines : list text) : res data :=
  match lines with
  | [] => Ok d
  | l :: ls =>
    let* o := line_item l in
    line_items_loop (match o with Some it => append_item d it | None => d end) ls
  end.

Definition parse_line_items (d : data) (txt : text) : res data :=
  line_items_loop d (split_nl txt).

(* ------------------------------------------------------------------ *)
(** ** [_parse_totals] *)

(** [Итого к оплате:\s*([\d.,]+)\s*₽] *)
Definition re_total : regex :=
  cat [litu "Итого к оплате:"; ws_star; Group 1 (plus set_dig_dot_comma); ws_star;
       litu "₽"].

(** [В том числе НДС:\s*([\d.,]+)\s*₽] *)
Definition re_vat : regex :=
  cat [litu "В том числе НДС:"; ws_star; Group 1 (plus set_dig_dot_comma); ws_star;
       litu "₽"].

(** [Всего наименований\s*(\d+)\s*на сумму\s*([\d.,]+)\s*₽] *)
Definition re_items : regex :=
  cat [litu "Всего наименований"; ws_star; Group 1 (plus dig); ws_star;
       litu "на сумму"; ws_star; Group 2 (plus set_dig_dot_comma); ws_star; litu "₽"].

Definition mk_total : text := u "Итого к оплате:".
Definition mk_vat : text := u "В том числе НДС:".
Definition mk_items : text := u "Всего наименований".

(** One iteration of the loop of [_parse_totals]. *)
Definition totals_line (d : data) (line0 : text) : res data :=
  let line := strip line0 in
  if infixb mk_total line then
    match re_search re_total line with
    | Some m =>
      let* v := float_exn (replace_comma (group 1 m)) in
      Ok (upd_totals (dset "total_amount"%string (PFloat v)) d)
    | None => Ok d
    end
  else if infixb mk_vat line then
    match re_search re_vat line with
    | Some m =>
      let* v := float_exn (replace_comma (group 1 m)) in
      Ok (upd_totals (dset "vat_amount"%string (PFloat v)) d)
    | None => Ok d
    end
  else if infixb mk_items line then
    match re_search re_items line with
    | Some m =>
      let* n := int_exn (group 1 m) in
      let* v := float_exn (replace_comma (group 2 m)) in
      Ok (upd_totals (fun t => dset "total_sum"%string (PFloat v)
                                 (dset "total_items"%string (PInt n) t)) d)
    | None => Ok d
    end
  else Ok d.

Fixpoint totals_loop (d : data) (lines : list text) : res data :=
  match lines with
  | [] => Ok d
  | l :: ls => let* d' := totals_line d l in totals_loop d' ls
  end.

Definition parse_totals (d : data) (txt : text) : res data :=
  totals_loop d (split_nl txt).

(* ------------------------------------------------------------------ *)
(** ** [_parse_tables] *)

(** A cell of [page.extract_tables()] is [None] or a string. *)
Definition cell := option text.
Definition row := list cell.
Definition table := list row.

Definition cell_obj (c : cell) : pyobj :=
  match c with None => ANone | Some t => AStr t end.

(** [str(c or '')] *)
Definition cell_text (c : cell) : text :=
  match c with None => [] | Some t => t end.

Definition cell_truthy (c : cell) : bool := py_truthy (cell_obj c).

(** The body of the inner loop of [_parse_tables] for one row: the item it
    appends, if any.  [continue] and the caught [ValueError] of
    [int(row[0])] give [None]. *)
Definition row_item (r : row) : option dict :=
  let len := List.length r in
  if (5 <=? len)%nat then
    let c0 := cell_text (nth 0 r None) in
    if infixb (u "№") c0 || infixb (u "Наименование") c0 then None
    else if cell_truthy (nth 0 r None) && py_isdigit (py_str (cell_obj (nth 0 r None)))
    then
      match py_int (py_str (cell_obj (nth 0 r None))) with
      | None => None
      | Some n =>
        let item :=
          [("row_number"%string, PInt n);
           ("description"%string, PStr (strip (cell_text (nth 1 r None))));
           ("quantity"%string,
             if (2 <? len)%nat then parse_number (cell_obj (nth 2 r None)) else PInt 0);
           ("unit"%string,
             if (3 <? len)%nat then PStr (strip (cell_text (nth 3 r None))) else PStr []);
           ("price_per_unit"%string,
             if (4 <? len)%nat then parse_number (cell_obj (nth 4 r None)) else PInt 0);
           ("total_amount"%string,
             if (5 <? len)%nat then parse_number (cell_obj (nth 5 r None)) else PInt 0)] in
        let desc := strip (cell_text (nth 1 r None)) in
        let total := if (5 <? len)%nat then parse_number (cell_obj (nth 5 r None))
                     else PInt 0 in
        if negb (match desc with [] => true | _ => false end) && py_gt0 total
        then Some (dset "type"%string (PStr (u "table_item")) item)
        else None
      end
    else None
  else None.

Definition table_row (d : data) (r : row) : data :=
  match row_item r with Some it => append_item d it | None => d end.

Definition parse_tables (d : data) (tables : list table) : data :=
  fold_left (fun d t => fold_left table_row t d) tables d.

(* ------------------------------------------------------------------ *)
(** ** [parse] *)

(** A page as [pdfplumber] yields it: [extract_text()] and [extract_tables()]. *)
Record page := mk_page {
  page_text : option text;
  page_tables : list table
}.

(** [None]: [pdfplumber.open] fails on the path. *)
Definition document := option (list page).

(** The [for page in pdf.pages] loop: accumulates [full_text] and parses the
    tables of each page. *)
Fixpoint pages_loop (d : data) (full_text : text) (ps : list page) : data * text :=
  match ps with
  | [] => (d, full_text)
  | p :: ps' =>
    let full_text :=
      match page_text p with
      | Some t => match t with [] => full_text | _ => full_text ++ t ++ [chr_newline] end
      | None => full_text
      end in
    let d := match page_tables p with [] => d | ts => parse_tables d ts end in
    pages_loop d full_text ps'
  end.

(** [InvoiceParser.parse] from the state [d] (its [print] calls only write
    to standard output). *)
Definition parse (d : data) (pdf : document) : res data :=
  match pdf with
  | None => Err OpenError
  | Some ps =>
    let (d1, full_text) := pages_loop d [] ps in
    let d2 := parse_header_info d1 full_text in
    let* d3 := parse_line_items d2 full_text in
    parse_totals d3 full_text
  end.

(** [InvoiceParser(path).parse()], as [app.py] and [main] call it. *)
Definition run (now : string) (pdf : document) : res data :=
  parse (init_data now) pdf.

(* ------------------------------------------------------------------ *)
(** ** Vocabulary of the statements *)

Definition float_is (v : option pyval) (x : Q) : Prop :=
  match v with Some (PFloat q) => (q == x)%Q | _ => False end.

Definition has (k : string) (t : dict) : bool := is_some (dget k t).

Definition with_time (now : string) (d : data) : data :=
  mk_data (invoice_info d) (company_info d) (customer_info d) (line_items d)
          (totals d) now.

Definition res_map {A B} (f : A -> B) (r : res A) : res B :=
  match r with Ok a => Ok (f a) | Err e => Err e end.

(** The four text-mode tests in their order of precedence, each with the
    kind of item it stands for. *)
Definition pattern_tests : list ((text -> bool) * string) :=
  [(infixb (u "Хранение товаров от"), "storage"%string);
   (infixb (u "Приемка товара на склад"), "reception"%string);
   (infixb (u "Отгрузка FBO"), "shipment"%string);
   (fun l => is_some (re_match re_recop_head l), "reception_operation"%string)].

(** The first test the trimmed line passes. *)
Definition first_pattern (line : text) : option string :=
  option_map snd (find (fun t => fst t (strip line)) pattern_tests).

Definition item_kind (it : dict) : option pyval := dget "type" it.

Definition kind_is (it : dict) (k : string) : Prop := item_kind it = Some (PStr (u k)).

(** Table rows: the cells the statements talk about. *)
Definition row_first (r : row) : text := cell_text (nth 0 r None).
Definition row_description (r : row) : text := strip (cell_text (nth 1 r None)).
Definition row_total (r : row) : pyval :=
  if (5 <? List.length r)%nat then parse_number (cell_obj (nth 5 r None)) else PInt 0.
Definition header_marker (t : text) : bool :=
  infixb (u "№") t || infixb (u "Наименование") t.
Definition nonempty {A} (l : list A) : bool := match l with [] => false | _ => true end.

(** The emission condition with "digits" read as [str.isdigit]. *)
Definition row_condition_isdigit (r : row) : bool :=
  (5 <=? List.length r)%nat && negb (header_marker (row_first r))
  && py_isdigit (row_first r) && nonempty (row_description r) && py_gt0 (row_total r).

(** The emission condition with "digits" read as decimal digits, the
    characters [int()] accepts. *)
Definition row_condition (r : row) : bool :=
  (5 <=? List.length r)%nat && negb (header_marker (row_first r))
  && nonempty (row_first r) && forallb is_decimal (row_first r)
  && nonempty (row_description r) && py_gt0 (row_total r).

(** Russian-locale numbers: ASCII digits, a comma before the decimals. *)
Definition ascii_digits (ds : list Z) : text := map (fun d => 48 + d) ds.
Definition ru_number_text (ip : list Z) (fp : option (list Z)) : text :=
  ascii_digits ip ++ match fp with Some f => chr_comma :: ascii_digits f | None => [] end.
Definition digits_num (ds : list Z) : Z := fold_left (fun a d => a * 10 + d) ds 0.
Definition ru_value (ip : list Z) (fp : option (list Z)) : Q :=
  (inject_Z (digits_num ip)
   + match fp with
     | Some f => inject_Z (digits_num f) / inject_Z (10 ^ Z.of_nat (List.length f))
     | None => 0
     end)%Q.
(** The text with its rouble signs and whitespace taken out. *)
Definition without_rub_ws (s : text) : text :=
  filter (fun c => negb ((c =? chr_rub) || is_space c)) s.

(** Totals: whether one (trimmed) line sets a field. *)
Definition totals_keys : list string :=
  ["total_amount"; "vat_amount"; "total_items"; "total_sum"]%string.

Definition line_sets_indep (key : string) (l : text) : bool :=
  if String.eqb key "total_amount" then infixb mk_total l && is_some (re_search re_total l)
  else if String.eqb key "vat_amount" then infixb mk_vat l && is_some (re_search re_vat l)
  else infixb mk_items l && is_some (re_search re_items l).

Definition line_sets (key : string) (l : text) : bool :=
  if String.eqb key "total_amount" then infixb mk_total l && is_some (re_search re_total l)
  else if String.eqb key "vat_amount" then
    negb (infixb mk_total l) && infixb mk_vat l && is_some (re_search re_vat l)
  else
    negb (infixb mk_total l) && negb (infixb mk_vat l) && infixb mk_items l
    && is_some (re_search re_items l).

(** The items each extraction mode produces. *)
Fixpoint text_items_loop (lines : list text) : res (list dict) :=
  match lines with
  | [] => Ok []
  | l :: ls =>
    let* o := line_item l in
    let* rest := text_items_loop ls in
    Ok (match o with Some it => it :: rest | None => rest end)
  end.

Definition text_items (txt : text) : res (list dict) := text_items_loop (split_nl txt).

Definition option_list {A} (o : option A) : list A :=
  match o with Some a => [a] | None => [] end.

Definition table_items (ps : list page) : list dict :=
  flat_map (fun p => flat_map (fun t => flat_map (fun r => option_list (row_item r)) t)
                              (page_tables p)) ps.

Definition doc_text (ps : list page) : text := snd (pages_loop (init_data "") [] ps).

(** Concrete inputs of the statements. *)
Definition line_invoice : text := u "Детализация к счету № 12345-1 от 01.02.2024".
Definition line_customer : text :=
  u "Заказчик: ООО Ромашка , ИНН 7701234567 , Адрес: г. Москва, ул. Ленина 1 , тел. +7(900)123-45-67".
Definition line_storage : text :=
  u "Хранение товаров от 01.01.2024 до 31.01.2024 2,50 м³ 100,00 ₽ 250,00 ₽".
Definition row_loading : row :=
  [Some (u "1"); Some (u "Погрузка"); Some (u "3"); Some (u "шт."); Some (u "50,00");
   Some (u "150,00")].

(** Inputs and values named by the statements. *)

Definition storage_vector_item : dict :=
  match line_item line_storage with Ok (Some it) => it | _ => [] end.

Definition storage_vector_state : data :=
  match parse_line_items (init_data "") line_storage with Ok d => d | Err _ => init_data "" end.

(** A storage line whose price and total use a dot as thousands separator. *)
Definition line_storage_grouped : text :=
  u "Хранение товаров от 01.01.2024 до 31.01.2024 2,50 м³ 1.100,00 ₽ 2.750,00 ₽".

Definition doc_storage_grouped : document :=
  Some [mk_page (Some line_storage_grouped) []].

Definition row_zero_total : row :=
  [Some (u "2"); Some (u "Погрузка"); Some (u "3"); Some (u "шт."); Some (u "0,00");
   Some (u "0,00")].

(** The row numbered "²": [str.isdigit()] holds for it, [int()] rejects it. *)
Definition row_superscript : row :=
  [Some (u "²"); Some (u "Погрузка"); Some (u "3"); Some (u "шт."); Some (u "50,00");
   Some (u "150,00")].

(** Every character a match of [r] consumes satisfies [p]. *)
Fixpoint chars_within (p : Z -> bool) (r : regex) : Prop :=
  match r with
  | Eps => True
  | Chr q => forall c, q c = true -> p c = true
  | Seq a b => chars_within p a /\ chars_within p b
  | Star _ a => chars_within p a
  | Group _ a => chars_within p a
  end.

Definition consumes (p : Z -> bool)
           (body : text -> caps -> (text -> caps -> option caps) -> option caps) : Prop :=
  forall s g k x, body s g k = Some x ->
    exists pre s' g', s = pre ++ s' /\ forallb p pre = true /\ k s' g' = Some x.

Definition digit_range (d : Z) : Prop := 0 <= d <= 9.

(** A totals line carrying both the total and the VAT marker. *)
Definition line_total_vat : text :=
  u "Итого к оплате: 100,00 ₽, В том числе НДС: 20,00 ₽".

Definition totals_same_line : data :=
  Eval vm_compute in
  match parse_totals (init_data "") line_total_vat with Ok d => d | Err _ => init_data "" end.

(** A one-page document whose text holds the storage line and whose table
    holds one row for a charge. *)
Definition pages_dual : list page := [mk_page (Some line_storage) [[row_loading]]].

Definition dual_state : data :=
  Eval vm_compute in
  match run "" (Some pages_dual) with Ok d => d | Err _ => init_data "" end.

Definition dual_text_item : dict :=
  Eval vm_compute in
  match text_items (doc_text pages_dual) with Ok [it] => it | _ => [] end.

Definition dual_table_item : dict :=
  Eval vm_compute in
  match table_items pages_dual with [it] => it | _ => [] end.

(* ------------------------------------------------------------------ *)
(** ** Lines of the documents the parsers read *)

(** A Russian-locale number is well formed: a non-empty integer part and
    decimal digits. *)
Definition ru_ok (ip : list Z) (fp : option (list Z)) : Prop :=
  ip <> [] /\ Forall digit_range ip /\ Forall digit_range (match fp with Some f => f | None => [] end).

(** The characters of a Russian-locale number, of a date ([[\d.]]) and of an
    invoice number ([[\d-]]), in ASCII. *)
Definition ascii_num_char (c : Z) : bool := ((48 <=? c) && (c <=? 57)) || (c =? chr_comma).
Definition date_char (c : Z) : bool := ((48 <=? c) && (c <=? 57)) || (c =? chr_dot).
Definition number_char (c : Z) : bool := ((48 <=? c) && (c <=? 57)) || (c =? 45).

(** "Итого к оплате: <amount> ₽" *)
Definition total_text (ip : list Z) (fp : option (list Z)) : text :=
  mk_total ++ [32] ++ ru_number_text ip fp ++ [32; chr_rub].

(** "В том числе НДС: <amount> ₽" *)
Definition vat_text (ip : list Z) (fp : option (list Z)) : text :=
  mk_vat ++ [32] ++ ru_number_text ip fp ++ [32; chr_rub].

(** "Всего наименований <n> на сумму <amount> ₽" *)
Definition items_text (n ip : list Z) (fp : option (list Z)) : text :=
  mk_items ++ [32] ++ ascii_digits n ++ [32] ++ u "на сумму" ++ [32]
  ++ ru_number_text ip fp ++ [32; chr_rub].

(** "Хранение товаров от <d1> до <d2> <qty> м³ <price> ₽ <total> ₽" *)
Definition storage_text (d1 d2 : text) (qi : list Z) (qf : option (list Z)) (pi : list Z)
           (pf : option (list Z)) (ti : list Z) (tf : option (list Z)) : text :=
  u "Хранение товаров от" ++ [32] ++ d1 ++ [32] ++ u "до" ++ [32] ++ d2 ++ [32]
  ++ ru_number_text qi qf ++ [32] ++ u "м³" ++ [32] ++ ru_number_text pi pf
  ++ [32; chr_rub; 32] ++ ru_number_text ti tf ++ [32; chr_rub].

(** "Приемка товара на склад и размещение <n> шт. <price> ₽ <total> ₽" *)
Definition reception_text (n pi : list Z) (pf : option (list Z)) (ti : list Z)
           (tf : option (list Z)) : text :=
  u "Приемка товара на склад и размещение" ++ [32] ++ ascii_digits n ++ [32] ++ u "шт."
  ++ [32] ++ ru_number_text pi pf ++ [32; chr_rub; 32] ++ ru_number_text ti tf
  ++ [32; chr_rub].

(** "Отгрузка FBO <n> от <date>" *)
Definition shipment_text (n : list Z) (dt : text) : text :=
  u "Отгрузка FBO" ++ [32] ++ ascii_digits n ++ [32] ++ u "от" ++ [32] ++ dt.

(** "Приемка <n> от <date>" *)
Definition recop_text (n : list Z) (dt : text) : text :=
  u "Приемка" ++ [32] ++ ascii_digits n ++ [32] ++ u "от" ++ [32] ++ dt.

(** "Детализация к счету № <number> от <date>" *)
Definition invoice_text (num dt : text) : text :=
  u "Детализация к счету №" ++ [32] ++ num ++ [32] ++ u "от" ++ [32] ++ dt.

(** A page from which [extract_text()] gives nothing. *)
Definition no_text (p : page) : Prop := page_text p = None \/ page_text p = Some [].

(** Proof devices: the first character of a text is not whitespace; the
    first character of a text stops the repetition of a class. *)
Definition head_ok (s : text) : Prop :=
  match hd_error s with Some c => is_space c = false | None => True end.

Definition stops (p : Z -> bool) (r : text) : Prop :=
  match r with c :: _ => p c = false | [] => True end.

(* ------------------------------------------------------------------ *)
(** ** [app.py]: [allowed_file] *)

(** [str.lower()] of CPython 3.11 (Unicode 14.0).  [lower_runs] lists the
    one-character lowercase mappings as runs [(lo, hi, step, offset)]: the
    code points [lo], [lo + step], ... up to [hi] map to themselves plus
    [offset]; the others are their own lowercase.  U+0130 lowercases to two
    characters, and U+03A3 to a final or a medial sigma by its context. *)
Definition lower_runs : list (Z * Z * Z * Z) :=
  [(65, 90, 1, 32); (192, 214, 1, 32); (216, 222, 1, 32); (256, 302, 2, 1); (306, 310, 2, 1);
   (313, 327, 2, 1); (330, 374, 2, 1); (376, 376, 1, -121); (377, 381, 2, 1); (385, 385, 1, 210);
   (386, 388, 2, 1); (390, 390, 1, 206); (391, 391, 1, 1); (393, 394, 1, 205); (395, 395, 1, 1);
   (398, 398, 1, 79); (399, 399, 1, 202); (400, 400, 1, 203); (401, 401, 1, 1); (403, 403, 1, 205);
   (404, 404, 1, 207); (406, 406, 1, 211); (407, 407, 1, 209); (408, 408, 1, 1); (412, 412, 1, 211);
   (413, 413, 1, 213); (415, 415, 1, 214); (416, 420, 2, 1); (422, 422, 1, 218); (423, 423, 1, 1);
   (425, 425, 1, 218); (428, 428, 1, 1); (430, 430, 1, 218); (431, 431, 1, 1); (433, 434, 1, 217);
   (435, 437, 2, 1); (439, 439, 1, 219); (440, 440, 1, 1); (444, 444, 1, 1); (452, 452, 1, 2);
   (453, 453, 1, 1); (455, 455, 1, 2); (456, 456, 1, 1); (458, 458, 1, 2); (459, 475, 2, 1);
   (478, 494, 2, 1); (497, 497, 1, 2); (498, 500, 2, 1); (502, 502, 1, -97); (503, 503, 1, -56);
   (504, 542, 2, 1); (544, 544, 1, -130); (546, 562, 2, 1); (570, 570, 1, 10795); (571, 571, 1, 1);
   (573, 573, 1, -163); (574, 574, 1, 10792); (577, 577, 1, 1); (579, 579, 1, -195); (580, 580, 1, 69);
   (581, 581, 1, 71); (582, 590, 2, 1); (880, 882, 2, 1); (886, 886, 1, 1); (895, 895, 1, 116);
   (902, 902, 1, 38); (904, 906, 1, 37); (908, 908, 1, 64); (910, 911, 1, 63); (913, 929, 1, 32);
   (931, 939, 1, 32); (975, 975, 1, 8); (984, 1006, 2, 1); (1012, 1012, 1, -60); (1015, 1015, 1, 1);
   (1017, 1017, 1, -7); (1018, 1018, 1, 1); (1021, 1023, 1, -130); (1024, 1039, 1, 80); (1040, 1071, 1, 32);
   (1120, 1152, 2, 1); (1162, 1214, 2, 1); (1216, 1216, 1, 15); (1217, 1229, 2, 1); (1232, 1326, 2, 1);
   (1329, 1366, 1, 48); (4256, 4293, 1, 7264); (4295, 4295, 1, 7264); (4301, 4301, 1, 7264); (5024, 5103, 1, 38864);
   (5104, 5109, 1, 8); (7312, 7354, 1, -3008); (7357, 7359, 1, -3008); (7680, 7828, 2, 1); (7838, 7838, 1, -7615);
   (7840, 7934, 2, 1); (7944, 7951, 1, -8); (7960, 7965, 1, -8); (7976, 7983, 1, -8); (7992, 7999, 1, -8);
   (8008, 8013, 1, -8); (8025, 8031, 2, -8); (8040, 8047, 1, -8); (8072, 8079, 1, -8); (8088, 8095, 1, -8);
   (8104, 8111, 1, -8); (8120, 8121, 1, -8); (8122, 8123, 1, -74); (8124, 8124, 1, -9); (8136, 8139, 1, -86);
   (8140, 8140, 1, -9); (8152, 8153, 1, -8); (8154, 8155, 1, -100); (8168, 8169, 1, -8); (8170, 8171, 1, -112);
   (8172, 8172, 1, -7); (8184, 8185, 1, -128); (8186, 8187, 1, -126); (8188, 8188, 1, -9); (8486, 8486, 1, -7517);
   (8490, 8490, 1, -8383); (8491, 8491, 1, -8262); (8498, 8498, 1, 28); (8544, 8559, 1, 16); (8579, 8579, 1, 1);
   (9398, 9423, 1, 26); (11264, 11311, 1, 48); (11360, 11360, 1, 1); (11362, 11362, 1, -10743); (11363, 11363, 1, -3814);
   (11364, 11364, 1, -10727); (11367, 11371, 2, 1); (11373, 11373, 1, -10780); (11374, 11374, 1, -10749); (11375, 11375, 1, -10783);
   (11376, 11376, 1, -10782); (11378, 11378, 1, 1); (11381, 11381, 1, 1); (11390, 11391, 1, -10815); (11392, 11490, 2, 1);
   (11499, 11501, 2, 1); (11506, 11506, 1, 1); (42560, 42604, 2, 1); (42624, 42650, 2, 1); (42786, 42798, 2, 1);
   (42802, 42862, 2, 1); (42873, 42875, 2, 1); (42877, 42877, 1, -35332); (42878, 42886, 2, 1); (42891, 42891, 1, 1);
   (42893, 42893, 1, -42280); (42896, 42898, 2, 1); (42902, 42920, 2, 1); (42922, 42922, 1, -42308); (42923, 42923, 1, -42319);
   (42924, 42924, 1, -42315); (42925, 42925, 1, -42305); (42926, 42926, 1, -42308); (42928, 42928, 1, -42258); (42929, 42929, 1, -42282);
   (42930, 42930, 1, -42261); (42931, 42931, 1, 928); (42932, 42946, 2, 1); (42948, 42948, 1, -48); (42949, 42949, 1, -42307);
   (42950, 42950, 1, -35384); (42951, 42953, 2, 1); (42960, 42960, 1, 1); (42966, 42968, 2, 1); (42997, 42997, 1, 1);
   (65313, 65338, 1, 32); (66560, 66599, 1, 40); (66736, 66771, 1, 40); (66928, 66938, 1, 39); (66940, 66954, 1, 39);
   (66956, 66962, 1, 39); (66964, 66965, 1, 39); (68736, 68786, 1, 64); (71840, 71871, 1, 32); (93760, 93791, 1, 32);
   (125184, 125217, 1, 34)].

Definition case_ignorable_ranges : list (Z * Z) :=
  [(39, 39); (46, 46); (58, 58); (94, 94); (96, 96); (168, 168); (173, 173);
   (175, 175); (180, 180); (183, 184); (688, 879); (884, 885); (890, 890); (900, 901);
   (903, 903); (1155, 1161); (1369, 1369); (1375, 1375); (1425, 1469); (1471, 1471); (1473, 1474);
   (1476, 1477); (1479, 1479); (1524, 1524); (1536, 1541); (1552, 1562); (1564, 1564); (1600, 1600);
   (1611, 1631); (1648, 1648); (1750, 1757); (1759, 1768); (1770, 1773); (1807, 1807); (1809, 1809);
   (1840, 1866); (1958, 1968); (2027, 2037); (2042, 2042); (2045, 2045); (2070, 2093); (2137, 2139);
   (2184, 2184); (2192, 2193); (2200, 2207); (2249, 2306); (2362, 2362); (2364, 2364); (2369, 2376);
   (2381, 2381); (2385, 2391); (2402, 2403); (2417, 2417); (2433, 2433); (2492, 2492); (2497, 2500);
   (2509, 2509); (2530, 2531); (2558, 2558); (2561, 2562); (2620, 2620); (2625, 2626); (2631, 2632);
   (2635, 2637); (2641, 2641); (2672, 2673); (2677, 2677); (2689, 2690); (2748, 2748); (2753, 2757);
   (2759, 2760); (2765, 2765); (2786, 2787); (2810, 2815); (2817, 2817); (2876, 2876); (2879, 2879);
   (2881, 2884); (2893, 2893); (2901, 2902); (2914, 2915); (2946, 2946); (3008, 3008); (3021, 3021);
   (3072, 3072); (3076, 3076); (3132, 3132); (3134, 3136); (3142, 3144); (3146, 3149); (3157, 3158);
   (3170, 3171); (3201, 3201); (3260, 3260); (3263, 3263); (3270, 3270); (3276, 3277); (3298, 3299);
   (3328, 3329); (3387, 3388); (3393, 3396); (3405, 3405); (3426, 3427); (3457, 3457); (3530, 3530);
   (3538, 3540); (3542, 3542); (3633, 3633); (3636, 3642); (3654, 3662); (3761, 3761); (3764, 3772);
   (3782, 3782); (3784, 3789); (3864, 3865); (3893, 3893); (3895, 3895); (3897, 3897); (3953, 3966);
   (3968, 3972); (3974, 3975); (3981, 3991); (3993, 4028); (4038, 4038); (4141, 4144); (4146, 4151);
   (4153, 4154); (4157, 4158); (4184, 4185); (4190, 4192); (4209, 4212); (4226, 4226); (4229, 4230);
   (4237, 4237); (4253, 4253); (4348, 4348); (4957, 4959); (5906, 5908); (5938, 5939); (5970, 5971);
   (6002, 6003); (6068, 6069); (6071, 6077); (6086, 6086); (6089, 6099); (6103, 6103); (6109, 6109);
   (6155, 6159); (6211, 6211); (6277, 6278); (6313, 6313); (6432, 6434); (6439, 6440); (6450, 6450);
   (6457, 6459); (6679, 6680); (6683, 6683); (6742, 6742); (6744, 6750); (6752, 6752); (6754, 6754);
   (6757, 6764); (6771, 6780); (6783, 6783); (6823, 6823); (6832, 6862); (6912, 6915); (6964, 6964);
   (6966, 6970); (6972, 6972); (6978, 6978); (7019, 7027); (7040, 7041); (7074, 7077); (7080, 7081);
   (7083, 7085); (7142, 7142); (7144, 7145); (7149, 7149); (7151, 7153); (7212, 7219); (7222, 7223);
   (7288, 7293); (7376, 7378); (7380, 7392); (7394, 7400); (7405, 7405); (7412, 7412); (7416, 7417);
   (7468, 7530); (7544, 7544); (7579, 7679); (8125, 8125); (8127, 8129); (8141, 8143); (8157, 8159);
   (8173, 8175); (8189, 8190); (8203, 8207); (8216, 8217); (8228, 8228); (8231, 8231); (8234, 8238);
   (8288, 8292); (8294, 8303); (8305, 8305); (8319, 8319); (8336, 8348); (8400, 8432); (11388, 11389);
   (11503, 11505); (11631, 11631); (11647, 11647); (11744, 11775); (11823, 11823); (12293, 12293); (12330, 12333);
   (12337, 12341); (12347, 12347); (12441, 12446); (12540, 12542); (40981, 40981); (42232, 42237); (42508, 42508);
   (42607, 42610); (42612, 42621); (42623, 42623); (42652, 42655); (42736, 42737); (42752, 42785); (42864, 42864);
   (42888, 42890); (42994, 42996); (43000, 43001); (43010, 43010); (43014, 43014); (43019, 43019); (43045, 43046);
   (43052, 43052); (43204, 43205); (43232, 43249); (43263, 43263); (43302, 43309); (43335, 43345); (43392, 43394);
   (43443, 43443); (43446, 43449); (43452, 43453); (43471, 43471); (43493, 43494); (43561, 43566); (43569, 43570);
   (43573, 43574); (43587, 43587); (43596, 43596); (43632, 43632); (43644, 43644); (43696, 43696); (43698, 43700);
   (43703, 43704); (43710, 43711); (43713, 43713); (43741, 43741); (43756, 43757); (43763, 43764); (43766, 43766);
   (43867, 43871); (43881, 43883); (44005, 44005); (44008, 44008); (44013, 44013); (64286, 64286); (64434, 64450);
   (65024, 65039); (65043, 65043); (65056, 65071); (65106, 65106); (65109, 65109); (65279, 65279); (65287, 65287);
   (65294, 65294); (65306, 65306); (65342, 65342); (65344, 65344); (65392, 65392); (65438, 65439); (65507, 65507);
   (65529, 65531); (66045, 66045); (66272, 66272); (66422, 66426); (67456, 67461); (67463, 67504); (67506, 67514);
   (68097, 68099); (68101, 68102); (68108, 68111); (68152, 68154); (68159, 68159); (68325, 68326); (68900, 68903);
   (69291, 69292); (69446, 69456); (69506, 69509); (69633, 69633); (69688, 69702); (69744, 69744); (69747, 69748);
   (69759, 69761); (69811, 69814); (69817, 69818); (69821, 69821); (69826, 69826); (69837, 69837); (69888, 69890);
   (69927, 69931); (69933, 69940); (70003, 70003); (70016, 70017); (70070, 70078); (70089, 70092); (70095, 70095);
   (70191, 70193); (70196, 70196); (70198, 70199); (70206, 70206); (70367, 70367); (70371, 70378); (70400, 70401);
   (70459, 70460); (70464, 70464); (70502, 70508); (70512, 70516); (70712, 70719); (70722, 70724); (70726, 70726);
   (70750, 70750); (70835, 70840); (70842, 70842); (70847, 70848); (70850, 70851); (71090, 71093); (71100, 71101);
   (71103, 71104); (71132, 71133); (71219, 71226); (71229, 71229); (71231, 71232); (71339, 71339); (71341, 71341);
   (71344, 71349); (71351, 71351); (71453, 71455); (71458, 71461); (71463, 71467); (71727, 71735); (71737, 71738);
   (71995, 71996); (71998, 71998); (72003, 72003); (72148, 72151); (72154, 72155); (72160, 72160); (72193, 72202);
   (72243, 72248); (72251, 72254); (72263, 72263); (72273, 72278); (72281, 72283); (72330, 72342); (72344, 72345);
   (72752, 72758); (72760, 72765); (72767, 72767); (72850, 72871); (72874, 72880); (72882, 72883); (72885, 72886);
   (73009, 73014); (73018, 73018); (73020, 73021); (73023, 73029); (73031, 73031); (73104, 73105); (73109, 73109);
   (73111, 73111); (73459, 73460); (78896, 78904); (92912, 92916); (92976, 92982); (92992, 92995); (94031, 94031);
   (94095, 94111); (94176, 94177); (94179, 94180); (110576, 110579); (110581, 110587); (110589, 110590); (113821, 113822);
   (113824, 113827); (118528, 118573); (118576, 118598); (119143, 119145); (119155, 119170); (119173, 119179); (119210, 119213);
   (119362, 119364); (121344, 121398); (121403, 121452); (121461, 121461); (121476, 121476); (121499, 121503); (121505, 121519);
   (122880, 122886); (122888, 122904); (122907, 122913); (122915, 122916); (122918, 122922); (123184, 123197); (123566, 123566);
   (123628, 123631); (125136, 125142); (125252, 125259); (127995, 127999); (917505, 917505); (917536, 917631); (917760, 917999)].

Definition cased_ranges : list (Z * Z) :=
  [(65, 90); (97, 122); (170, 170); (181, 181); (186, 186); (192, 214); (216, 246);
   (248, 442); (444, 447); (452, 659); (661, 687); (880, 883); (886, 887); (891, 893);
   (895, 895); (902, 902); (904, 906); (908, 908); (910, 929); (931, 1013); (1015, 1153);
   (1162, 1327); (1329, 1366); (1376, 1416); (4256, 4293); (4295, 4295); (4301, 4301); (4304, 4346);
   (4349, 4351); (5024, 5109); (5112, 5117); (7296, 7304); (7312, 7354); (7357, 7359); (7424, 7467);
   (7531, 7543); (7545, 7578); (7680, 7957); (7960, 7965); (7968, 8005); (8008, 8013); (8016, 8023);
   (8025, 8025); (8027, 8027); (8029, 8029); (8031, 8061); (8064, 8116); (8118, 8124); (8126, 8126);
   (8130, 8132); (8134, 8140); (8144, 8147); (8150, 8155); (8160, 8172); (8178, 8180); (8182, 8188);
   (8450, 8450); (8455, 8455); (8458, 8467); (8469, 8469); (8473, 8477); (8484, 8484); (8486, 8486);
   (8488, 8488); (8490, 8493); (8495, 8500); (8505, 8505); (8508, 8511); (8517, 8521); (8526, 8526);
   (8544, 8575); (8579, 8580); (9398, 9449); (11264, 11387); (11390, 11492); (11499, 11502); (11506, 11507);
   (11520, 11557); (11559, 11559); (11565, 11565); (42560, 42605); (42624, 42651); (42786, 42863); (42865, 42887);
   (42891, 42894); (42896, 42954); (42960, 42961); (42963, 42963); (42965, 42969); (42997, 42998); (43002, 43002);
   (43824, 43866); (43872, 43880); (43888, 43967); (64256, 64262); (64275, 64279); (65313, 65338); (65345, 65370);
   (66560, 66639); (66736, 66771); (66776, 66811); (66928, 66938); (66940, 66954); (66956, 66962); (66964, 66965);
   (66967, 66977); (66979, 66993); (66995, 67001); (67003, 67004); (68736, 68786); (68800, 68850); (71840, 71903);
   (93760, 93823); (119808, 119892); (119894, 119964); (119966, 119967); (119970, 119970); (119973, 119974); (119977, 119980);
   (119982, 119993); (119995, 119995); (119997, 120003); (120005, 120069); (120071, 120074); (120077, 120084); (120086, 120092);
   (120094, 120121); (120123, 120126); (120128, 120132); (120134, 120134); (120138, 120144); (120146, 120485); (120488, 120512);
   (120514, 120538); (120540, 120570); (120572, 120596); (120598, 120628); (120630, 120654); (120656, 120686); (120688, 120712);
   (120714, 120744); (120746, 120770); (120772, 120779); (122624, 122633); (122635, 122654); (125184, 125251); (127280, 127305);
   (127312, 127337); (127344, 127369)].

Fixpoint lower_lookup (runs : list (Z * Z * Z * Z)) (c : Z) : Z :=
  match runs with
  | [] => c
  | (lo, hi, st, off) :: r =>
    if (lo <=? c) && (c <=? hi) && ((c - lo) mod st =? 0) then c + off
    else lower_lookup r c
  end.

Definition in_ranges (rs : list (Z * Z)) (c : Z) : bool :=
  existsb (fun r => (fst r <=? c) && (c <=? snd r)) rs.

(** [_PyUnicode_IsCaseIgnorable] *)
Definition is_case_ignorable (c : Z) : bool := in_ranges case_ignorable_ranges c.

(** [_PyUnicode_IsCased] on the characters it is asked about, which are not
    case-ignorable ([cased_ranges] lists the cased characters that are not
    case-ignorable). *)
Definition is_cased (c : Z) : bool := in_ranges cased_ranges c.

Fixpoint skip_ignorable (s : text) : text :=
  match s with
  | c :: r => if is_case_ignorable c then skip_ignorable r else s
  | [] => []
  end.

(** [handle_capital_sigma]: [before] holds the preceding characters, the
    nearest first, [after] the following ones. *)
Definition final_sigma (before after : text) : bool :=
  match skip_ignorable before with
  | c :: _ =>
    is_cased c && match skip_ignorable after with [] => true | c' :: _ => negb (is_cased c') end
  | [] => false
  end.

(** [lower_ucs4] *)
Definition lower_char (before : text) (c : Z) (after : text) : text :=
  if c =? 304 then [105; 775]
  else if c =? 931 then [if final_sigma before after then 962 else 963]
  else [lower_lookup lower_runs c].

Fixpoint lower_go (before s : text) : text :=
  match s with
  | [] => []
  | c :: r => lower_char before c r ++ lower_go (c :: before) r
  end.

(** [s.lower()] *)
Definition py_lower (s : text) : text := lower_go [] s.

(** [s.rsplit('.', 1)[1]] for a string [s] that holds a dot: the part after
    the last dot ([cur] collects the current part, reversed). *)
Fixpoint last_part (s cur : text) : text :=
  match s with
  | [] => rev cur
  | c :: r => if c =? chr_dot then last_part r [] else last_part r (c :: cur)
  end.

(** [==] on strings *)
Fixpoint text_eqb (a b : text) : bool :=
  match a, b with
  | [], [] => true
  | x :: a', y :: b' => (x =? y) && text_eqb a' b'
  | _, _ => false
  end.

Definition ALLOWED_EXTENSIONS : list text := [u "pdf"].

Definition allowed_file (filename : text) : bool :=
  infixb [chr_dot] filename
  && existsb (text_eqb (py_lower (last_part filename []))) ALLOWED_EXTENSIONS.

(** The code points that [lower_runs] maps to [t] by a non-trivial run. *)
Definition preimages (runs : list (Z * Z * Z * Z)) (t : Z) : list Z :=
  flat_map (fun r => match r with
                     | (lo, hi, st, off) =>
                       if (lo <=? t - off) && (t - off <=? hi) && ((t - off - lo) mod st =? 0)
                       then [t - off] else []
                     end) runs.

(* ------------------------------------------------------------------ *)
(** ** [app.py]: [parse_pdf] *)

(** The upload folder: the content of each path. *)
Definition bytes := list Z.
Definition fsys := list (text * bytes).

Fixpoint fs_get (p : text) (fs : fsys) : option bytes :=
  match fs with
  | [] => None
  | (q, b) :: r => if text_eqb p q then Some b else fs_get p r
  end.

(** [file.save(p)]: writes the content at [p], replacing an existing file. *)
Fixpoint fs_set (p : text) (b : bytes) (fs : fsys) : fsys :=
  match fs with
  | [] => [(p, b)]
  | (q, b') :: r => if text_eqb p q then (p, b) :: r else (q, b') :: fs_set p b r
  end.

(** [os.remove(p)] *)
Definition fs_del (p : text) (fs : fsys) : fsys := filter (fun e => negb (text_eqb p (fst e))) fs.

(** [os.path.join(a, b)] (POSIX) *)
Definition path_join (a b : text) : text :=
  match b with
  | 47 :: _ => b
  | _ => match rev a with
         | [] => b
         | 47 :: _ => a ++ b
         | _ => a ++ [47] ++ b
         end
  end.

(** The request: whether reading it raises [RequestEntityTooLarge], and the
    ['file'] part (its file name and content) when present. *)
Record request := mk_request {
  req_too_large : bool;
  req_file : option (text * bytes)
}.

(** The JSON bodies of [create_error_response] and [create_success_response]
    (their clock-valued ['timestamp'] and ['parsed_at'] fields of
    [parsing_info] are left out). *)
Inductive body :=
| ErrorBody (message : text)
| SuccessBody (message : text) (original_filename : text) (file_size_bytes : Z)
              (invoice_data : data).

Definition response := (Z * body)%type.

Section App.

(** The library functions and the values of the environment [parse_pdf]
    reads. *)
Variable secure_filename : text -> text.
Variable uuid_hex : text.               (* [uuid.uuid4().hex] of the request *)
Variable upload_folder : text.          (* [tempfile.gettempdir()] *)
Variable open_pdf : bytes -> document.  (* [pdfplumber.open] on the saved content *)
Variable now : string.                  (* [datetime.now().isoformat()] in [__init__] *)
Variable exn_str : exn -> text.         (* [str(parsing_error)] *)

(** [file_path] *)
Definition temp_path (filename : text) : text :=
  path_join upload_folder (uuid_hex ++ [95] ++ secure_filename filename).

(** [parse_pdf]: the response and the upload folder afterwards.  [file.save]
    is taken to succeed; the [finally] block removes the path if it
    exists. *)
Definition parse_pdf (req : request) (fs : fsys) : response * fsys :=
  if req_too_large req then ((413, ErrorBody (u "File too large. Maximum size is 16MB")), fs)
  else
  match req_file req with
  | None => ((400, ErrorBody (u "No file provided")), fs)
  | Some (fname, content) =>
    if text_eqb fname [] then ((400, ErrorBody (u "No file selected")), fs)
    else if negb (allowed_file fname) then
      ((400, ErrorBody (u "Invalid file type. Only PDF files are allowed")), fs)
    else
      let filename := secure_filename fname in
      let file_path := temp_path fname in
      let fs1 := fs_set file_path content fs in
      let resp :=
        match run now (match fs_get file_path fs1 with Some b => open_pdf b | None => None end) with
        | Ok parsed_data =>
          let size := match fs_get file_path fs1 with
                      | Some b => Z.of_nat (List.length b) | None => 0 end in
          (200, SuccessBody (u "PDF parsed successfully") filename size parsed_data)
        | Err e => (500, ErrorBody (u "Error parsing PDF: " ++ exn_str e))
        end in
      let fs2 := match fs_get file_path fs1 with Some _ => fs_del file_path fs1 | None => fs1 end in
      (resp, fs2)
  end.

End App.

(* ------------------------------------------------------------------ *)
(** * Properties *)

Lemma header_line_invoice (d : data) :
  header_line d line_invoice =
  upd_invoice (fun i => dset "date"%string (PStr (u "01.02.2024"))
                          (dset "number"%string (PStr (u "12345-1")) i)) d.
Proof. vm_compute. reflexivity. Qed.

Lemma header_line_customer (d : data) :
  header_line d line_customer =
  upd_customer (fun i =>
    dset "phone"%string (PStr (u "+7(900)123-45-67"))
      (dset "address"%string (PStr (u "г. Москва, ул. Ленина 1"))
         (dset "inn"%string (PStr (u "7701234567"))
            (dset "name"%string (PStr (u "ООО Ромашка")) i)))) d.
Proof. vm_compute. reflexivity. Qed.

Lemma dget_dset_same (k : string) (v : pyval) (t : dict) : dget k (dset k v t) = Some v.
Proof.
  unfold dget. induction t as [|[k' v'] t IH]; simpl.
  - rewrite String.eqb_refl. reflexivity.
  - destruct (String.eqb k k') eqn:E; simpl.
    + rewrite String.eqb_refl. reflexivity.
    + rewrite String.eqb_sym, E. exact IH.
Qed.

Lemma dget_dset_other (k k' : string) (v : pyval) (t : dict) :
  k <> k' -> dget k (dset k' v t) = dget k t.
Proof.
  intros Hne. induction t as [|[k1 v1] t IH]; unfold dget in *; simpl.
  - apply String.eqb_neq in Hne. rewrite String.eqb_sym, Hne. reflexivity.
  - destruct (String.eqb k' k1) eqn:E; simpl.
    + apply String.eqb_eq in E; subst k1.
      apply String.eqb_neq in Hne. rewrite String.eqb_sym, Hne. reflexivity.
    + destruct (String.eqb k1 k); [reflexivity | exact IH].
Qed.

Lemma split_nl_single (l : text) : ~ In chr_newline l -> split_nl l = [l].
Proof.
  induction l as [|c l IH]; intros H; simpl; [reflexivity|].
  assert (Hc : (c =? chr_newline) = false).
  { apply Z.eqb_neq. intros ->. apply H. left. reflexivity. }
  rewrite Hc, IH; [reflexivity|]. intros Hi. apply H. right. exact Hi.
Qed.

(** ** C5 *)

(** C5: header test vectors.  On the text "Детализация к счету № 12345-1 от
    01.02.2024", [_parse_header_info] sets the invoice number "12345-1" and
    the date "01.02.2024"; on the customer line of the specification it sets
    the customer name "ООО Ромашка", INN "7701234567", address
    "г. Москва, ул. Ленина 1" and phone "+7(900)123-45-67".  This holds from
    every prior state. *)
Theorem header_test_vectors (d : data) :
  dget "number" (invoice_info (parse_header_info d line_invoice)) = Some (PStr (u "12345-1"))
  /\ dget "date" (invoice_info (parse_header_info d line_invoice)) = Some (PStr (u "01.02.2024"))
  /\ dget "name" (customer_info (parse_header_info d line_customer)) = Some (PStr (u "ООО Ромашка"))
  /\ dget "inn" (customer_info (parse_header_info d line_customer)) = Some (PStr (u "7701234567"))
  /\ dget "address" (customer_info (parse_header_info d line_customer))
       = Some (PStr (u "г. Москва, ул. Ленина 1"))
  /\ dget "phone" (customer_info (parse_header_info d line_customer))
       = Some (PStr (u "+7(900)123-45-67")).
Proof.
  unfold parse_header_info.
  rewrite (split_nl_single line_invoice) by (vm_compute; intuition discriminate).
  rewrite (split_nl_single line_customer) by (vm_compute; intuition discriminate).
  simpl fold_left. rewrite header_line_invoice, header_line_customer. simpl.
  repeat split;
    repeat (first [ rewrite dget_dset_same; reflexivity
                  | rewrite dget_dset_other by discriminate ]).
Qed.

(** ** C4 *)

Ltac peel_bind H :=
  repeat match type of H with
         | context [bind ?c _] =>
             let e := fresh "e" in
             destruct c as [?|e]; cbn [bind] in H; [|discriminate H]
         end.

Lemma line_item_kind (l : text) (it : dict) :
  line_item l = Ok (Some it) -> exists k, first_pattern l = Some k /\ kind_is it k.
Proof.
  intros H. unfold line_item in H. unfold first_pattern, pattern_tests.
  cbn [find fst snd option_map].
  destruct (infixb (u "Хранение товаров от") (strip l)).
  { exists "storage"%string. split; [reflexivity|].
    destruct (re_search re_storage (strip l)) as [m|]; [|discriminate H].
    peel_bind H. injection H as <-. reflexivity. }
  destruct (infixb (u "Приемка товара на склад") (strip l)).
  { exists "reception"%string. split; [reflexivity|].
    destruct (re_search re_reception (strip l)) as [m|]; [|discriminate H].
    peel_bind H. injection H as <-. reflexivity. }
  destruct (infixb (u "Отгрузка FBO") (strip l)).
  { exists "shipment"%string. split; [reflexivity|].
    destruct (re_search re_shipment (strip l)) as [m|]; [|discriminate H].
    injection H as <-. reflexivity. }
  destruct (is_some (re_match re_recop_head (strip l))).
  { exists "reception_operation"%string. split; [reflexivity|].
    destruct (re_search re_recop (strip l)) as [m|]; [|discriminate H].
    injection H as <-. reflexivity. }
  discriminate H.
Qed.

(** C4: in text mode each line is tested against the storage, reception,
    shipment and reception-operation patterns in that order and yields at
    most one item, of the kind of the first test the line passes (a line
    passing an earlier test never falls through to a later pattern); and
    the line "Хранение товаров от 01.01.2024 до 31.01.2024 2,50 м³ 100,00 ₽
    250,00 ₽" yields exactly one storage item with quantity 2.5, price per
    unit 100.0 and total amount 250.0. *)
Theorem text_mode_precedence :
  (forall (d : data) (l : text) (d' : data),
      ~ In chr_newline l -> parse_line_items d l = Ok d' ->
      line_items d' = line_items d
      \/ exists it k, line_items d' = line_items d ++ [it]
                      /\ first_pattern l = Some k /\ kind_is it k)
  /\ (forall d : data, exists it,
         parse_line_items d line_storage = Ok (append_item d it)
         /\ kind_is it "storage"
         /\ float_is (dget "quantity" it) 2.5
         /\ float_is (dget "price_per_unit" it) 100
         /\ float_is (dget "total_amount" it) 250).
Proof.
  split.
  - intros d l d' Hnl H. unfold parse_line_items in H.
    rewrite split_nl_single in H by exact Hnl. cbn [line_items_loop] in H.
    destruct (line_item l) as [o|e] eqn:E; cbn [bind] in H; [|discriminate H].
    destruct o as [it|]; injection H as <-.
    + right. destruct (line_item_kind l it E) as [k [Hk Hi]].
      exists it, k. repeat split; assumption.
    + left. reflexivity.
  - intros d. exists storage_vector_item.
    repeat split; vm_compute; reflexivity.
Qed.

Lemma text_mode_precedence_witness :
  line_items storage_vector_state = line_items (init_data "")
  \/ exists it k, line_items storage_vector_state = line_items (init_data "") ++ [it]
                  /\ first_pattern line_storage = Some k /\ kind_is it k.
Proof.
  apply (proj1 text_mode_precedence (init_data "") line_storage storage_vector_state).
  - vm_compute. intuition discriminate.
  - vm_compute. reflexivity.
Defined.

(** ** C10 *)

(** C10: a table row of exactly five cells never yields a [table_item]:
    its total amount defaults to 0 and emission requires a positive total. *)
Theorem five_cell_row_never_emits (d : data) (r : row) :
  List.length r = 5%nat -> parse_tables d [[r]] = d.
Proof.
  intros Hlen. unfold parse_tables, table_row. cbn [fold_left].
  unfold row_item. rewrite Hlen. cbn -[infixb u py_isdigit py_int parse_number strip].
  destruct (infixb (u "№") _ || infixb (u "Наименование") _); [reflexivity|].
  destruct (cell_truthy _ && py_isdigit _); [|reflexivity].
  destruct (py_int _); [|reflexivity].
  rewrite andb_false_r. reflexivity.
Qed.

Lemma five_cell_row_never_emits_witness :
  List.length (firstn 5 row_loading) = 5%nat
  /\ parse_tables (init_data "") [[firstn 5 row_loading]] = init_data "".
Proof.
  split; [reflexivity|].
  apply five_cell_row_never_emits. reflexivity.
Defined.

(** ** C1 *)

(** C1 (code bug): the text-mode extractor raises on malformed content.  On a
    readable one-page document whose text is a storage line with the amounts
    "1.100,00 ₽" and "2.750,00 ₽", the capture pattern matches, [float()] is
    applied to "1.100.00" and the [ValueError] it raises is not caught:
    the whole parse fails instead of omitting the line. *)
Theorem storage_line_grouped_amount_raises (now : string) :
  run now doc_storage_grouped = Err ValueError
  /\ line_item line_storage_grouped = Err ValueError.
Proof. split; vm_compute; reflexivity. Qed.

(** ** C3 *)

Lemma digits_val_acc_defined (acc : Z) (t : text) :
  is_some (digits_val_acc acc t) = forallb is_decimal t.
Proof.
  revert acc. induction t as [|c t IH]; intros acc; simpl; [reflexivity|].
  unfold is_decimal. destruct (decimal_value c); simpl; [apply IH | reflexivity].
Qed.

Lemma py_int_defined (t : text) :
  is_some (py_int t) = nonempty t && forallb is_decimal t.
Proof. destruct t as [|c t]; [reflexivity|]. apply digits_val_acc_defined. Qed.

Lemma forallb_decimal_digit (t : text) :
  forallb is_decimal t = true -> forallb is_digit t = true.
Proof.
  induction t as [|c t IH]; simpl; [reflexivity|].
  intros H. apply andb_prop in H as [H1 H2].
  rewrite IH by exact H2. unfold is_digit. rewrite H1. reflexivity.
Qed.

Lemma row_item_spec (r : row) :
  match row_item r with
  | Some it => row_condition r = true /\ kind_is it "table_item"
               /\ dget "total_amount" it = Some (row_total r)
  | None => row_condition r = false
  end.
Proof.
  unfold row_item, row_condition, row_first, row_description, row_total, header_marker.
  destruct (5 <=? List.length r)%nat; cbn [andb]; [|reflexivity].
  destruct (infixb (u "№") (cell_text (nth 0 r None))
            || infixb (u "Наименование") (cell_text (nth 0 r None))); cbn [negb andb];
    [reflexivity|].
  destruct (nth 0 r None) as [t|]; cbn [cell_truthy cell_obj py_truthy cell_text py_str];
    [|reflexivity].
  destruct t as [|c t]; [reflexivity|]. cbn [nonempty andb].
  destruct (forallb is_decimal (c :: t)) eqn:Hdec.
  - assert (Hd : py_isdigit (c :: t) = true) by exact (forallb_decimal_digit _ Hdec).
    rewrite Hd.
    pose proof (py_int_defined (c :: t)) as Hi. rewrite Hdec in Hi.
    destruct (py_int (c :: t)) as [n|]; [|discriminate Hi].
    set (desc := strip (cell_text (nth 1 r None))).
    set (tot := if (5 <? List.length r)%nat then parse_number (cell_obj (nth 5 r None))
                else PInt 0).
    cbn [andb].
    assert (Hne : negb (match desc with [] => true | _ => false end) = nonempty desc)
      by (destruct desc; reflexivity).
    rewrite Hne. destruct (nonempty desc && py_gt0 tot); [|reflexivity].
    split; [reflexivity|]. split; [reflexivity|]. reflexivity.
  - pose proof (py_int_defined (c :: t)) as Hi. rewrite Hdec in Hi.
    destruct (py_isdigit (c :: t)); [|reflexivity].
    destruct (py_int (c :: t)); [discriminate Hi | reflexivity].
Qed.

Lemma parse_tables_single_row (d : data) (r : row) :
  parse_tables d [[r]] = match row_item r with Some it => append_item d it | None => d end.
Proof. reflexivity. Qed.

(** C3 (amended): a row yields a [table_item] exactly when it has at least
    five cells, its first cell has no header marker and is a non-empty
    string of decimal digits (the characters [int()] accepts), its trimmed
    description is non-empty and its normalised total (sixth cell, 0 when
    absent) is positive; otherwise the row adds nothing.  The row
    ["1","Погрузка","3","шт.","50,00","150,00"] yields one [table_item] with
    total 150.0, and a row whose total is 0 yields none. *)
Theorem table_row_emission :
  (forall (d : data) (r : row),
      row_condition r = true ->
      exists it, parse_tables d [[r]] = append_item d it /\ kind_is it "table_item"
                 /\ dget "total_amount" it = Some (row_total r))
  /\ (forall (d : data) (r : row), row_condition r = false -> parse_tables d [[r]] = d)
  /\ (forall (d : data) (r : row), py_gt0 (row_total r) = false -> parse_tables d [[r]] = d)
  /\ (forall d : data, exists it,
         parse_tables d [[row_loading]] = append_item d it /\ kind_is it "table_item"
         /\ float_is (dget "total_amount" it) 150).
Proof.
  split; [|split; [|split]].
  - intros d r Hc. rewrite parse_tables_single_row.
    pose proof (row_item_spec r) as Hs. destruct (row_item r) as [it|].
    + exists it. destruct Hs as [_ Hs]. split; [reflexivity | exact Hs].
    + rewrite Hs in Hc. discriminate Hc.
  - intros d r Hc. rewrite parse_tables_single_row.
    pose proof (row_item_spec r) as Hs. destruct (row_item r) as [it|]; [|reflexivity].
    destruct Hs as [Hs _]. rewrite Hs in Hc. discriminate Hc.
  - intros d r Hc. rewrite parse_tables_single_row.
    pose proof (row_item_spec r) as Hs. destruct (row_item r) as [it|]; [|reflexivity].
    destruct Hs as [Hs _]. unfold row_condition in Hs. rewrite Hc, andb_false_r in Hs.
    discriminate Hs.
  - intros d. exists (match row_item row_loading with Some it => it | None => [] end).
    repeat split; vm_compute; reflexivity.
Qed.

Lemma table_row_emission_witness :
  (exists it, parse_tables (init_data "") [[row_loading]] = append_item (init_data "") it
              /\ kind_is it "table_item"
              /\ dget "total_amount" it = Some (row_total row_loading))
  /\ parse_tables (init_data "") [[row_zero_total]] = init_data ""
  /\ parse_tables (init_data "") [[row_zero_total]] = init_data "".
Proof.
  split; [|split].
  - apply (proj1 table_row_emission). vm_compute. reflexivity.
  - apply (proj1 (proj2 table_row_emission)). vm_compute. reflexivity.
  - apply (proj1 (proj2 (proj2 table_row_emission))). vm_compute. reflexivity.
Defined.

(** C3 as stated fails: the row ["²","Погрузка","3","шт.","50,00","150,00"]
    meets every condition of the claim with "consists entirely of digits"
    read as [str.isdigit()], yet [int("²")] raises [ValueError], which the
    code catches, and no item is emitted. *)
Lemma table_row_isdigit_counterexample :
  row_condition_isdigit row_superscript = true
  /\ parse_tables (init_data "") [[row_superscript]] = init_data "".
Proof. split; vm_compute; reflexivity. Qed.

(** ** Matches consume characters of the pattern's classes *)

Lemma star_loop_consumes (p : Z -> bool) body greedy k :
  consumes p body ->
  forall fuel s g x, star_loop body greedy k fuel s g = Some x ->
    exists pre s' g', s = pre ++ s' /\ forallb p pre = true /\ k s' g' = Some x.
Proof.
  intros Hb fuel. induction fuel as [|fuel IH]; intros s g x H; simpl in H.
  - exists [], s, g. auto.
  - assert (Hit : forall y,
               body s g (fun s' g' => if (List.length s' <? List.length s)%nat
                                      then star_loop body greedy k fuel s' g' else None)
               = Some y ->
               exists pre s' g', s = pre ++ s' /\ forallb p pre = true /\ k s' g' = Some y).
    { intros y Hy. destruct (Hb _ _ _ _ Hy) as (pre1 & s1 & g1 & -> & Hp1 & Hk1).
      destruct (List.length s1 <? List.length (pre1 ++ s1))%nat; [|discriminate Hk1].
      destruct (IH _ _ _ Hk1) as (pre2 & s2 & g2 & -> & Hp2 & Hk2).
      exists (pre1 ++ pre2), s2, g2. rewrite app_assoc, forallb_app, Hp1, Hp2. auto. }
    destruct greedy.
    + destruct (body s g _) as [y|] eqn:E.
      * injection H as <-. apply Hit. reflexivity.
      * exists [], s, g. auto.
    + destruct (k s g) as [y|] eqn:E.
      * injection H as <-. exists [], s, g. auto.
      * apply Hit. exact H.
Qed.

Lemma mtch_consumes (p : Z -> bool) (r : regex) :
  chars_within p r -> consumes p (mtch r).
Proof.
  induction r as [|q|a IHa b IHb|greedy a IHa|n a IHa]; intros Hw s g k x H; simpl in H.
  - exists [], s, g. auto.
  - destruct s as [|c s]; [discriminate H|].
    destruct (q c) eqn:Hq; [|discriminate H].
    exists [c], s, g. simpl. rewrite (Hw c Hq). auto.
  - destruct Hw as [Hwa Hwb].
    destruct (IHa Hwa _ _ _ _ H) as (pre1 & s1 & g1 & -> & Hp1 & Hk1).
    destruct (IHb Hwb _ _ _ _ Hk1) as (pre2 & s2 & g2 & -> & Hp2 & Hk2).
    exists (pre1 ++ pre2), s2, g2. rewrite app_assoc, forallb_app, Hp1, Hp2. auto.
  - eapply star_loop_consumes; [|exact H]. apply IHa. exact Hw.
  - destruct (IHa Hw _ _ _ _ H) as (pre & s' & g' & -> & Hp & Hk).
    eexists pre, s', _. split; [reflexivity|]. split; [exact Hp | exact Hk].
Qed.

Lemma firstn_consumed (pre s : text) :
  firstn (List.length (pre ++ s) - List.length s) (pre ++ s) = pre.
Proof.
  rewrite length_app, Nat.add_sub. rewrite firstn_app, Nat.sub_diag, firstn_all. simpl.
  apply app_nil_r.
Qed.

Lemma mtch_group0 (p : Z -> bool) (r : regex) (s : text) (x : caps) :
  chars_within p r -> mtch (Group 0 r) s [] k_done = Some x ->
  exists m post, s = m ++ post /\ forallb p m = true /\ group 0 x = m.
Proof.
  intros Hw H. simpl in H.
  destruct (mtch_consumes p r Hw _ _ _ _ H) as (pre & s' & g' & -> & Hp & Hk).
  injection Hk as <-. exists pre, s'. split; [reflexivity|]. split; [exact Hp|].
  unfold group. simpl. rewrite firstn_consumed. reflexivity.
Qed.

Lemma search_at_eq (r : regex) (s : text) :
  search_at r s =
  match mtch r s [] k_done with
  | Some g => Some g
  | None => match s with [] => None | _ :: s' => search_at r s' end
  end.
Proof. destruct s; reflexivity. Qed.

(** What [re.search] returns as group 0 is a substring made of characters of
    the pattern's classes. *)
Lemma re_search_group0 (p : Z -> bool) (r : regex) (s : text) (x : caps) :
  chars_within p r -> re_search r s = Some x ->
  exists pre m post, s = pre ++ m ++ post /\ forallb p m = true /\ group 0 x = m.
Proof.
  intros Hw. unfold re_search. induction s as [|c s IH]; intros H; rewrite search_at_eq in H.
  - destruct (mtch (Group 0 r) [] [] k_done) as [y|] eqn:E; [|discriminate H].
    injection H as <-. destruct (mtch_group0 p r _ _ Hw E) as (m & post & Hs & Hp & Hg).
    exists [], m, post. auto.
  - destruct (mtch (Group 0 r) (c :: s) [] k_done) as [y|] eqn:E.
    + injection H as <-. destruct (mtch_group0 p r _ _ Hw E) as (m & post & Hs & Hp & Hg).
      exists [], m, post. auto.
    + destruct (IH H) as (pre & m & post & -> & Hp & Hg).
      exists (c :: pre), m, post. auto.
Qed.

(** ** C6 *)

Lemma decimal_value_range (c v : Z) : decimal_value c = Some v -> 0 <= v.
Proof.
  unfold decimal_value. destruct (find _ nd_blocks) as [b|] eqn:E; [|discriminate].
  intros H. injection H as <-. apply find_some in E as [_ E].
  apply andb_prop in E as [E _]. apply Z.leb_le in E. lia.
Qed.

Lemma digits_val_acc_nonneg (acc : Z) (t : text) (n : Z) :
  0 <= acc -> digits_val_acc acc t = Some n -> 0 <= n.
Proof.
  revert acc. induction t as [|c t IH]; intros acc Hacc H; simpl in H.
  - injection H as <-. exact Hacc.
  - destruct (decimal_value c) as [v|] eqn:Ev; [|discriminate H].
    apply (IH (acc * 10 + v)); [|exact H].
    pose proof (decimal_value_range _ _ Ev). lia.
Qed.

Lemma inject_Z_nonneg (x : Z) : 0 <= x -> (0 <= inject_Z x)%Q.
Proof. intros H. change 0%Q with (inject_Z 0). rewrite <- Zle_Qle. exact H. Qed.

Lemma Qdiv_nonneg_Z (x y : Z) : 0 <= x -> 0 <= y -> (0 <= inject_Z x / inject_Z y)%Q.
Proof.
  intros Hx Hy. unfold Qdiv. apply Qmult_le_0_compat; [|apply Qinv_le_0_compat];
    apply inject_Z_nonneg; assumption.
Qed.

Lemma py_float_nonneg (t : text) (q : Q) : py_float t = Some q -> (0 <= q)%Q.
Proof.
  unfold py_float. destruct (split_dot t) as [ip [fp|]].
  - destruct (digits_val ip) as [a|] eqn:Ea; destruct (digits_val fp) as [b|] eqn:Eb;
      destruct ip, fp; intros H; try discriminate H; injection H as <-;
      pose proof (digits_val_acc_nonneg 0 _ _ (Z.le_refl 0) Ea);
      pose proof (digits_val_acc_nonneg 0 _ _ (Z.le_refl 0) Eb);
      apply Qdiv_nonneg_Z;
      match goal with
      | |- context [Z.pow_pos 10 ?p] =>
          assert (0 <= Z.pow_pos 10 p) by (apply (Z.pow_nonneg 10 (Z.pos p)); lia)
      | |- context [10 ^ ?n] => assert (0 <= 10 ^ n) by (apply Z.pow_nonneg; lia)
      | _ => idtac
      end; nia.
  - destruct ip as [|c ip]; [discriminate|].
    destruct (digits_val (c :: ip)) as [a|] eqn:Ea; intros H; [|discriminate H].
    injection H as <-. apply inject_Z_nonneg.
    exact (digits_val_acc_nonneg 0 _ _ (Z.le_refl 0) Ea).
Qed.

Lemma split_dot_app (t ip : text) (o : option text) :
  split_dot t = (ip, o) -> t = ip ++ match o with Some fp => chr_dot :: fp | None => [] end.
Proof.
  revert ip o. induction t as [|c t IH]; intros ip o H; simpl in H.
  - injection H as <- <-. reflexivity.
  - destruct (c =? chr_dot) eqn:Ec.
    + injection H as <- <-. apply Z.eqb_eq in Ec. subst c. reflexivity.
    + destruct (split_dot t) as [a b]. injection H as <- <-.
      simpl. f_equal. apply IH. reflexivity.
Qed.

Lemma py_float_no_digit (t : text) :
  (forall c, In c t -> is_decimal c = false) -> py_float t = None.
Proof.
  intros Ht. unfold py_float. destruct (split_dot t) as [ip o] eqn:Es.
  apply split_dot_app in Es. subst t.
  assert (Hhead : forall c l, In c ip -> ip = c :: l -> digits_val ip = None).
  { intros c l Hc ->. unfold digits_val. simpl.
    assert (Hd : is_decimal c = false) by (apply Ht, in_or_app; left; left; reflexivity).
    unfold is_decimal in Hd. destruct (decimal_value c); [discriminate Hd | reflexivity]. }
  destruct o as [fp|].
  - destruct ip as [|c ip].
    + destruct fp as [|c fp]; [reflexivity|].
      assert (Hd : is_decimal c = false) by (apply Ht; right; left; reflexivity).
      unfold digits_val. simpl. unfold is_decimal in Hd.
      destruct (decimal_value c); [discriminate Hd | reflexivity].
    + rewrite (Hhead c ip (or_introl eq_refl) eq_refl). reflexivity.
  - destruct ip as [|c ip]; [reflexivity|].
    rewrite (Hhead c ip (or_introl eq_refl) eq_refl). reflexivity.
Qed.

Lemma in_lstrip (c : Z) (s : text) : In c (lstrip s) -> In c s.
Proof.
  induction s as [|d s IH]; simpl; [auto|].
  destruct (is_space d); [intros H; right; auto | auto].
Qed.

Lemma in_strip (c : Z) (s : text) : In c (strip s) -> In c s.
Proof.
  unfold strip. intros H. apply in_rev in H. apply in_lstrip in H.
  apply in_rev in H. apply in_lstrip in H. exact H.
Qed.

Lemma chars_within_number : chars_within (fun c => is_decimal c || (c =? chr_dot)) re_number.
Proof. simpl. split; auto. Qed.

(** C6: [_parse_number] never raises: on every value ([None], a string, an
    integer such as 0) it returns a non-negative number, namely the integer
    0 or a non-negative float; it returns 0 on every falsy value ([None],
    "", 0) and on every value whose text has no decimal digit. *)
Theorem parse_number_never_fails (v : pyobj) :
  (parse_number v = PInt 0 \/ exists q, parse_number v = PFloat q /\ (0 <= q)%Q)
  /\ (py_truthy v = false -> parse_number v = PInt 0)
  /\ (forallb (fun c => negb (is_decimal c)) (py_str v) = true -> parse_number v = PInt 0).
Proof.
  split; [|split].
  - unfold parse_number. destruct (py_truthy v); cbn [negb]; [|left; reflexivity].
    destruct (re_search _ _) as [m|]; [|left; reflexivity].
    destruct (py_float (group 0 m)) as [q|] eqn:Ef; [|left; reflexivity].
    right. exists q. split; [reflexivity|]. exact (py_float_nonneg _ _ Ef).
  - intros H. unfold parse_number. rewrite H. reflexivity.
  - intros Hnd. unfold parse_number. destruct (py_truthy v); cbn [negb]; [|reflexivity].
    destruct (re_search _ _) as [m|] eqn:Es; [|reflexivity].
    destruct (re_search_group0 _ _ _ _ chars_within_number Es)
      as (pre & mm & post & Hs & _ & Hg).
    rewrite Hg, py_float_no_digit; [reflexivity|].
    intros c Hc.
    assert (Hin : In c (pre ++ mm ++ post)) by (apply in_or_app; right; apply in_or_app; auto).
    rewrite <- Hs in Hin. unfold replace_comma in Hin.
    apply in_map_iff in Hin as (c0 & <- & Hc0).
    apply filter_In in Hc0 as [Hc0 _]. apply in_strip in Hc0.
    rewrite forallb_forall in Hnd. specialize (Hnd c0 Hc0).
    destruct (c0 =? chr_comma); [reflexivity|]. destruct (is_decimal c0); auto.
Qed.

Lemma parse_number_never_fails_witness :
  parse_number (AStr []) = PInt 0 /\ parse_number ANone = PInt 0
  /\ parse_number (AInt 0) = PInt 0 /\ parse_number (AStr (u "н/д")) = PInt 0.
Proof.
  split; [|split; [|split]].
  - apply (proj1 (proj2 (parse_number_never_fails (AStr [])))). reflexivity.
  - apply (proj1 (proj2 (parse_number_never_fails ANone))). reflexivity.
  - apply (proj1 (proj2 (parse_number_never_fails (AInt 0)))). reflexivity.
  - apply (proj2 (proj2 (parse_number_never_fails (AStr (u "н/д"))))). vm_compute.
    reflexivity.
Defined.

(** ** C2 *)

Lemma decimal_value_ascii (d : Z) : digit_range d -> decimal_value (48 + d) = Some d.
Proof.
  intros [H0 H9]. unfold decimal_value, nd_blocks. cbn [find].
  destruct (48 <=? 48 + d) eqn:E1; [|apply Z.leb_gt in E1; lia].
  destruct (48 + d <? 48 + 10) eqn:E2; [|apply Z.ltb_ge in E2; lia].
  cbn [andb]. f_equal. lia.
Qed.

Lemma digits_val_acc_ascii (acc : Z) (ds : list Z) :
  Forall digit_range ds ->
  digits_val_acc acc (ascii_digits ds) = Some (fold_left (fun a d => a * 10 + d) ds acc).
Proof.
  revert acc. induction ds as [|d ds IH]; intros acc H; [reflexivity|].
  inversion H as [|? ? Hd Hds]; subst. cbn [ascii_digits map digits_val_acc fold_left].
  rewrite decimal_value_ascii by exact Hd. apply IH. exact Hds.
Qed.

Lemma ascii_digit_neq (d k : Z) : digit_range d -> k < 48 -> (48 + d =? k) = false.
Proof. intros [H0 _] Hk. apply Z.eqb_neq. lia. Qed.

Lemma split_dot_ascii (ds : list Z) (rest : text) :
  Forall digit_range ds ->
  split_dot (ascii_digits ds ++ rest) =
  (ascii_digits ds ++ fst (split_dot rest), snd (split_dot rest)).
Proof.
  induction ds as [|d ds IH]; intros H.
  - cbn [ascii_digits map app]. destruct (split_dot rest); reflexivity.
  - inversion H as [|? ? Hd Hds]; subst. cbn [ascii_digits map app split_dot].
    rewrite ascii_digit_neq by (exact Hd || unfold chr_dot; lia).
    fold (ascii_digits ds). rewrite IH by exact Hds. reflexivity.
Qed.

Lemma filter_lstrip (P : Z -> bool) (s : text) :
  (forall c, is_space c = true -> P c = false) -> filter P (lstrip s) = filter P s.
Proof.
  intros HP. induction s as [|c s IH]; [reflexivity|]. simpl.
  destruct (is_space c) eqn:E; [rewrite (HP c E); exact IH | reflexivity].
Qed.

Lemma without_rub_ws_strip (s : text) : without_rub_ws (strip s) = without_rub_ws s.
Proof.
  unfold without_rub_ws, strip.
  assert (HP : forall c, is_space c = true ->
                 negb ((c =? chr_rub) || is_space c) = false)
    by (intros c H; rewrite H, orb_true_r; reflexivity).
  rewrite filter_rev, filter_lstrip, filter_rev, rev_involutive, filter_lstrip
    by exact HP.
  reflexivity.
Qed.

Lemma greedy_class_all (p : Z -> bool) body (k : text -> caps -> option caps) (y : caps) :
  (forall c s g k', body (c :: s) g k' = if p c then k' s g else None) ->
  forall s g, forallb p s = true -> k [] g = Some y ->
  star_loop body true k (List.length s) s g = Some y.
Proof.
  intros Hb. induction s as [|c s IH]; intros g Hs Hk; simpl; [exact Hk|].
  apply andb_prop in Hs as [Hc Hs]. rewrite Hb, Hc.
  assert (Hlt : (List.length s <? S (List.length s))%nat = true)
    by (apply Nat.ltb_lt; lia).
  rewrite Hlt, IH by assumption. reflexivity.
Qed.

Lemma re_search_number_all (t : text) :
  t <> [] -> forallb (fun c => is_decimal c || (c =? chr_dot)) t = true ->
  re_search re_number t = Some [(0%nat, t)].
Proof.
  intros Hne Ht. destruct t as [|c t]; [congruence|].
  unfold re_search. rewrite search_at_eq.
  cbn [forallb] in Ht. apply andb_prop in Ht as [Hc Ht].
  unfold re_number, plus, set_dig_dot. cbn [mtch]. rewrite Hc.
  rewrite (greedy_class_all (fun c => is_decimal c || (c =? chr_dot)) _ _
             [(0%nat, c :: t)]); [reflexivity | intros; reflexivity | exact Ht |].
  unfold k_done. rewrite Nat.sub_0_r, firstn_all. reflexivity.
Qed.

Lemma ascii_digits_class (ds : list Z) :
  Forall digit_range ds ->
  forallb (fun c => is_decimal c || (c =? chr_dot)) (ascii_digits ds) = true.
Proof.
  induction ds as [|d ds IH]; intros H; [reflexivity|].
  inversion H as [|? ? Hd Hds]; subst. cbn [ascii_digits map forallb].
  unfold is_decimal at 1. rewrite decimal_value_ascii by exact Hd.
  fold (ascii_digits ds). rewrite IH by exact Hds. reflexivity.
Qed.

Lemma replace_comma_ascii (ds : list Z) :
  Forall digit_range ds -> replace_comma (ascii_digits ds) = ascii_digits ds.
Proof.
  induction ds as [|d ds IH]; intros H; [reflexivity|].
  inversion H as [|? ? Hd Hds]; subst. cbn [ascii_digits map replace_comma].
  rewrite ascii_digit_neq by (exact Hd || unfold chr_comma; lia).
  unfold replace_comma, ascii_digits in IH. rewrite IH by exact Hds. reflexivity.
Qed.

Lemma Q_decimal_split (a b n : Z) :
  0 <= n ->
  (inject_Z (a * 10 ^ n + b) / inject_Z (10 ^ n) == inject_Z a + inject_Z b / inject_Z (10 ^ n))%Q.
Proof.
  intros Hn. assert (Hnz : ~ (inject_Z (10 ^ n) == 0)%Q).
  { change 0%Q with (inject_Z 0). rewrite inject_Z_injective.
    apply Z.pow_nonzero; lia. }
  rewrite inject_Z_plus, inject_Z_mult. field. exact Hnz.
Qed.

(** C2 (amended): every string that, once its rouble signs and whitespace
    are taken out, is a non-empty run of ASCII digits optionally followed by
    a comma and a run of ASCII digits (that is, thousands grouped by spaces,
    or not grouped) is normalised by [_parse_number] to the float of that
    number; for instance "1 234,56 ₽" gives 1234.56.  Thousands grouped by
    dots are not handled (see [parse_number_dot_grouping_counterexample]). *)
Theorem parse_number_ru_locale :
  (forall (s : text) (ip : list Z) (fp : option (list Z)),
      ip <> [] -> Forall digit_range ip ->
      Forall digit_range (match fp with Some f => f | None => [] end) ->
      without_rub_ws s = ru_number_text ip fp ->
      exists q, parse_number (AStr s) = PFloat q /\ (q == ru_value ip fp)%Q)
  /\ exists q, parse_number (AStr (u "1 234,56 ₽")) = PFloat q /\ (q == 1234.56)%Q.
Proof.
  split.
  2: { eexists. split; [vm_compute; reflexivity | vm_compute; reflexivity]. }
  intros s ip fp Hip Hr Hf Hs.
  destruct ip as [|d0 ip0]; [congruence|]. set (ip := d0 :: ip0) in *.
  assert (Hsne : s <> []) by (intros ->; discriminate Hs).
  unfold parse_number.
  assert (Ht : py_truthy (AStr s) = true) by (destruct s; [congruence | reflexivity]).
  rewrite Ht. cbn [negb py_str].
  change (filter _ (strip s)) with (without_rub_ws (strip s)).
  rewrite without_rub_ws_strip, Hs.
  set (tl := match fp with Some f => chr_dot :: ascii_digits f | None => [] end).
  assert (Hrc : replace_comma (ru_number_text ip fp) = ascii_digits ip ++ tl).
  { unfold ru_number_text, replace_comma. rewrite map_app.
    fold (replace_comma (ascii_digits ip)). rewrite replace_comma_ascii by exact Hr.
    f_equal. unfold tl. destruct fp as [f|]; [|reflexivity].
    cbn [map]. fold (replace_comma (ascii_digits f)).
    rewrite replace_comma_ascii by exact Hf. reflexivity. }
  rewrite Hrc.
  rewrite re_search_number_all.
  2: { destruct ip; [congruence|discriminate]. }
  2: { rewrite forallb_app, ascii_digits_class by exact Hr. cbn [andb].
       unfold tl. destruct fp as [f|]; [|reflexivity].
       cbn [forallb]. rewrite ascii_digits_class by exact Hf. reflexivity. }
  unfold group. cbn [find fst Nat.eqb].
  unfold py_float. rewrite split_dot_ascii by exact Hr.
  assert (Hsd : forall r, split_dot (chr_dot :: r) = ([], Some r)) by reflexivity.
  assert (Hne : ascii_digits ip <> []) by (unfold ip; discriminate).
  destruct fp as [f|]; unfold tl.
  - rewrite Hsd. cbn [fst snd]. rewrite app_nil_r. unfold digits_val.
    rewrite !digits_val_acc_ascii by assumption.
    destruct (ascii_digits ip) eqn:E; [congruence|].
    eexists. split; [reflexivity|].
    unfold ru_value, digits_num, ascii_digits. rewrite length_map.
    apply Q_decimal_split. lia.
  - cbn [split_dot fst snd]. rewrite app_nil_r. unfold digits_val.
    rewrite digits_val_acc_ascii by assumption.
    destruct (ascii_digits ip) eqn:E; [congruence|].
    eexists. split; [reflexivity|]. unfold ru_value, digits_num. ring.
Qed.

Lemma parse_number_ru_locale_witness :
  exists q, parse_number (AStr (u "1 234,56 ₽")) = PFloat q
            /\ (q == ru_value [1; 2; 3; 4]%Z (Some [5; 6]%Z))%Q.
Proof.
  apply (proj1 parse_number_ru_locale (u "1 234,56 ₽") [1; 2; 3; 4] (Some [5; 6])).
  - discriminate.
  - repeat constructor; unfold digit_range; lia.
  - repeat constructor; unfold digit_range; lia.
  - vm_compute. reflexivity.
Defined.

(** C2 counterexample: with thousands grouped by dots, "1.234,56 ₽" is not
    read as 1234.56: the comma becomes a second dot, [float('1.234.56')]
    raises [ValueError], and [_parse_number] returns the integer 0. *)
Lemma parse_number_dot_grouping_counterexample :
  parse_number (AStr (u "1.234,56 ₽")) = PInt 0
  /\ forall q, parse_number (AStr (u "1.234,56 ₽")) <> PFloat q.
Proof.
  assert (H : parse_number (AStr (u "1.234,56 ₽")) = PInt 0) by (vm_compute; reflexivity).
  split; [exact H | intros q; rewrite H; discriminate].
Qed.

(** ** C7 *)

Lemma has_dset (k k' : string) (v : pyval) (t : dict) :
  has k (dset k' v t) = String.eqb k k' || has k t.
Proof.
  unfold has. destruct (String.eqb k k') eqn:E.
  - apply String.eqb_eq in E; subst. rewrite dget_dset_same. reflexivity.
  - apply String.eqb_neq in E. rewrite dget_dset_other by exact E. reflexivity.
Qed.

Lemma totals_line_has (d d' : data) (l : text) (key : string) :
  In key totals_keys -> totals_line d l = Ok d' ->
  has key (totals d') = has key (totals d) || line_sets key (strip l).
Proof.
  intros Hin H. unfold totals_line in H. unfold line_sets.
  set (line := strip l) in *.
  destruct (infixb mk_total line) eqn:Et.
  - destruct (re_search re_total line) eqn:Em.
    + peel_bind H. injection H as <-. cbn [totals upd_totals].
      rewrite has_dset.
      destruct Hin as [<-|[<-|[<-|[<-|[]]]]]; cbn [andb is_some]; simpl String.eqb;
        rewrite ?orb_true_r, ?orb_false_l, ?orb_false_r; reflexivity.
    + injection H as <-.
      destruct Hin as [<-|[<-|[<-|[<-|[]]]]]; cbn [andb negb is_some]; simpl String.eqb;
        rewrite ?orb_true_r, ?orb_false_l, ?orb_false_r; reflexivity.
  - destruct (infixb mk_vat line) eqn:Ev.
    + destruct (re_search re_vat line) eqn:Em.
      * peel_bind H. injection H as <-. cbn [totals upd_totals].
        rewrite has_dset.
        destruct Hin as [<-|[<-|[<-|[<-|[]]]]]; cbn [andb negb is_some]; simpl String.eqb;
          rewrite ?orb_true_r, ?orb_false_l, ?orb_false_r; reflexivity.
      * injection H as <-.
        destruct Hin as [<-|[<-|[<-|[<-|[]]]]]; cbn [andb negb is_some]; simpl String.eqb;
          rewrite ?orb_true_r, ?orb_false_l, ?orb_false_r; reflexivity.
    + destruct (infixb mk_items line) eqn:Ei.
      * destruct (re_search re_items line) eqn:Em.
        -- peel_bind H. injection H as <-. cbn [totals upd_totals].
           rewrite !has_dset.
           destruct Hin as [<-|[<-|[<-|[<-|[]]]]]; cbn [andb negb is_some]; simpl String.eqb;
             rewrite ?orb_true_r, ?orb_false_l, ?orb_false_r; reflexivity.
        -- injection H as <-.
           destruct Hin as [<-|[<-|[<-|[<-|[]]]]]; cbn [andb negb is_some]; simpl String.eqb;
             rewrite ?orb_true_r, ?orb_false_l, ?orb_false_r; reflexivity.
      * injection H as <-.
        destruct Hin as [<-|[<-|[<-|[<-|[]]]]]; cbn [andb negb is_some]; simpl String.eqb;
          rewrite ?orb_true_r, ?orb_false_l, ?orb_false_r; reflexivity.
Qed.

Lemma totals_loop_has (lines : list text) (d d' : data) (key : string) :
  In key totals_keys -> totals_loop d lines = Ok d' ->
  (has key (totals d') = true <->
   has key (totals d) = true \/ exists l, In l lines /\ line_sets key (strip l) = true).
Proof.
  intros Hin. revert d. induction lines as [|l ls IH]; intros d H; cbn [totals_loop] in H.
  - injection H as <-. split; [auto|]. intros [Hh|[l [[] _]]]. exact Hh.
  - destruct (totals_line d l) as [d1|e] eqn:E; cbn [bind] in H; [|discriminate H].
    rewrite (IH d1 H). rewrite (totals_line_has d d1 l key Hin E), orb_true_iff.
    split.
    + intros [[Hh|Hs]|[l' [Hl' Hs']]]; [left; exact Hh| right; exists l; split; [left|]; auto|].
      right. exists l'. split; [right|]; auto.
    + intros [Hh|[l' [[<-|Hl'] Hs']]]; [left; left; exact Hh|left; right; exact Hs'|].
      right. exists l'. auto.
Qed.

(** C7 (amended): after [_parse_totals] returns, a totals field (total,
    VAT, item count, item sum) is set exactly when it was set before or
    some (trimmed) line sets it, where a line sets the total when it
    contains "Итого к оплате:" and the total pattern matches on it, sets the
    VAT when it contains "В том числе НДС:" but not the total marker and the
    VAT pattern matches on it, and sets the item count and sum when it
    contains "Всего наименований" but neither earlier marker and the items
    pattern matches on it.  Across lines the markers are independent; on one
    line the first marker present takes precedence. *)
Theorem totals_fields_settable (d d' : data) (txt : text) (key : string) :
  In key totals_keys -> parse_totals d txt = Ok d' ->
  (has key (totals d') = true <->
   has key (totals d) = true \/ exists l, In l (split_nl txt) /\ line_sets key (strip l) = true).
Proof. intros Hin H. exact (totals_loop_has (split_nl txt) d d' key Hin H). Qed.

Lemma totals_fields_settable_witness :
  In "total_amount"%string totals_keys
  /\ parse_totals (init_data "") line_total_vat = Ok totals_same_line
  /\ (has "total_amount" (totals totals_same_line) = true <->
      has "total_amount" (totals (init_data "")) = true
      \/ exists l, In l (split_nl line_total_vat) /\ line_sets "total_amount" (strip l) = true).
Proof.
  assert (Hin : In "total_amount"%string totals_keys) by (left; reflexivity).
  assert (Hp : parse_totals (init_data "") line_total_vat = Ok totals_same_line)
    by (vm_compute; reflexivity).
  split; [exact Hin | split; [exact Hp |]].
  exact (totals_fields_settable (init_data "") totals_same_line line_total_vat
           "total_amount"%string Hin Hp).
Defined.

(** C7 as stated fails: on the line
    "Итого к оплате: 100,00 ₽, В том числе НДС: 20,00 ₽" the VAT marker is present and the VAT pattern matches,
    yet only the total is set: the markers are tested in an if/elif chain,
    so the VAT branch is never reached on a line holding the total marker. *)
Lemma totals_same_line_counterexample :
  infixb mk_vat (strip line_total_vat) = true
  /\ is_some (re_search re_vat (strip line_total_vat)) = true
  /\ parse_totals (init_data "") line_total_vat = Ok totals_same_line
  /\ has "total_amount" (totals totals_same_line) = true
  /\ has "vat_amount" (totals totals_same_line) = false.
Proof. repeat split; vm_compute; reflexivity. Qed.

(** ** C8 *)

Lemma table_row_items (d : data) (r : row) :
  line_items (table_row d r) = line_items d ++ option_list (row_item r).
Proof.
  unfold table_row. destruct (row_item r); cbn [option_list]; [reflexivity|].
  rewrite app_nil_r. reflexivity.
Qed.

Lemma parse_tables_items (d : data) (ts : list table) :
  line_items (parse_tables d ts)
  = line_items d ++ flat_map (fun t => flat_map (fun r => option_list (row_item r)) t) ts.
Proof.
  unfold parse_tables. revert d. induction ts as [|t ts IH]; intros d; cbn [fold_left flat_map].
  - rewrite app_nil_r. reflexivity.
  - rewrite IH, app_assoc. f_equal.
    clear IH. revert d. induction t as [|r t IHt]; intros d; cbn [fold_left flat_map].
    + rewrite app_nil_r. reflexivity.
    + rewrite IHt, table_row_items, app_assoc. reflexivity.
Qed.

Lemma pages_loop_items (ps : list page) (d : data) (ft : text) :
  line_items (fst (pages_loop d ft ps)) = line_items d ++ table_items ps.
Proof.
  revert d ft. induction ps as [|p ps IH]; intros d ft; cbn [pages_loop table_items flat_map].
  - rewrite app_nil_r. reflexivity.
  - rewrite IH. fold (table_items ps). rewrite app_assoc. f_equal.
    destruct (page_tables p) as [|t ts] eqn:E; [rewrite app_nil_r; reflexivity|].
    rewrite parse_tables_items. reflexivity.
Qed.

Lemma pages_loop_text (ps : list page) (d d' : data) (ft : text) :
  snd (pages_loop d ft ps) = snd (pages_loop d' ft ps).
Proof.
  revert d d' ft. induction ps as [|p ps IH]; intros d d' ft; cbn [pages_loop]; [reflexivity|].
  apply IH.
Qed.

Ltac split_branches :=
  repeat match goal with
         | |- context [if ?b then _ else _] => destruct b
         | |- context [match ?m with Some _ => _ | None => _ end] => destruct m
         end.

Lemma header_line_items (d : data) (l : text) :
  line_items (header_line d l) = line_items d.
Proof. unfold header_line. cbv zeta. split_branches; reflexivity. Qed.

Lemma parse_header_info_items (d : data) (txt : text) :
  line_items (parse_header_info d txt) = line_items d.
Proof.
  unfold parse_header_info. generalize (split_nl txt) as ls. intros ls. revert d.
  induction ls as [|l ls IH]; intros d; cbn [fold_left]; [reflexivity|].
  rewrite IH. apply header_line_items.
Qed.

Lemma line_items_loop_items (lines : list text) (d d' : data) :
  line_items_loop d lines = Ok d' ->
  exists T, text_items_loop lines = Ok T /\ line_items d' = line_items d ++ T.
Proof.
  revert d. induction lines as [|l ls IH]; intros d H; cbn [line_items_loop] in H.
  - injection H as <-. exists []. rewrite app_nil_r. split; reflexivity.
  - destruct (line_item l) as [o|e] eqn:E; cbn [bind] in H; [|discriminate H].
    destruct (IH _ H) as [T [HT Hl]].
    cbn [text_items_loop]. rewrite E. cbn [bind]. rewrite HT. cbn [bind].
    destruct o as [it|].
    + exists (it :: T). split; [reflexivity|]. rewrite Hl. cbn [line_items append_item].
      rewrite <- app_assoc. reflexivity.
    + exists T. split; [reflexivity|exact Hl].
Qed.

Lemma totals_line_items (d d' : data) (l : text) :
  totals_line d l = Ok d' -> line_items d' = line_items d.
Proof.
  unfold totals_line. cbv zeta. intros H.
  repeat match type of H with
         | context [if ?b then _ else _] => destruct b
         | context [match ?m with Some _ => _ | None => _ end] => destruct m
         end;
    peel_bind H; injection H as <-; reflexivity.
Qed.

Lemma totals_loop_items (lines : list text) (d d' : data) :
  totals_loop d lines = Ok d' -> line_items d' = line_items d.
Proof.
  revert d. induction lines as [|l ls IH]; intros d H; cbn [totals_loop] in H.
  - injection H as <-. reflexivity.
  - destruct (totals_line d l) as [d1|e] eqn:E; cbn [bind] in H; [|discriminate H].
    rewrite (IH _ H). exact (totals_line_items _ _ _ E).
Qed.

(** What a successful run appends: the table items of every page, in page
    order, then the text items of the whole text, with nothing removed. *)
Lemma run_line_items (now : string) (ps : list page) (d' : data) :
  run now (Some ps) = Ok d' ->
  exists T, text_items (doc_text ps) = Ok T /\ line_items d' = table_items ps ++ T.
Proof.
  unfold run, parse. intros H.
  pose proof (pages_loop_items ps (init_data now) []) as Hi.
  pose proof (pages_loop_text ps (init_data now) (init_data "") []) as Ht.
  destruct (pages_loop (init_data now) [] ps) as [d1 ft] eqn:E.
  cbn [fst snd] in Hi, Ht.
  destruct (parse_line_items (parse_header_info d1 ft) ft) as [d3|e] eqn:E3;
    cbn [bind] in H; [|discriminate H].
  destruct (line_items_loop_items _ _ _ E3) as [T [HT Hl]].
  exists T. split.
  - unfold doc_text, text_items. rewrite <- Ht. exact HT.
  - rewrite (totals_loop_items _ _ _ H), Hl, parse_header_info_items, Hi. reflexivity.
Qed.

Lemma table_items_kind (ps : list page) (it : dict) :
  In it (table_items ps) -> kind_is it "table_item".
Proof.
  unfold table_items. intros H.
  apply in_flat_map in H as [p [_ H]]. apply in_flat_map in H as [t [_ H]].
  apply in_flat_map in H as [r [_ H]].
  pose proof (row_item_spec r) as Hs.
  destruct (row_item r) as [it'|]; cbn [option_list In] in H; [|contradiction].
  destruct H as [<-|[]]. exact (proj1 (proj2 Hs)).
Qed.

(** C8: text mode and table mode are not merged or deduplicated: when the
    text of a document yields exactly one item, a storage item, and its
    tables yield exactly one table item, a successful parse returns exactly
    two line items, the table item and then the storage item. *)
Theorem dual_source_no_dedup (now : string) (ps : list page) (d' : data) (its itt : dict) :
  text_items (doc_text ps) = Ok [its] -> kind_is its "storage" ->
  table_items ps = [itt] -> run now (Some ps) = Ok d' ->
  line_items d' = [itt; its] /\ List.length (line_items d') = 2%nat
  /\ kind_is itt "table_item" /\ kind_is its "storage".
Proof.
  intros Htx Hk Htb Hr.
  destruct (run_line_items now ps d' Hr) as [T [HT Hl]].
  rewrite Htx in HT. injection HT as <-. rewrite Htb in Hl. cbn [app] in Hl.
  rewrite Hl. split; [reflexivity|]. split; [reflexivity|]. split; [|exact Hk].
  apply (table_items_kind ps). rewrite Htb. left. reflexivity.
Qed.

Lemma dual_source_no_dedup_witness :
  line_items dual_state = [dual_table_item; dual_text_item]
  /\ List.length (line_items dual_state) = 2%nat
  /\ kind_is dual_table_item "table_item" /\ kind_is dual_text_item "storage".
Proof.
  apply (dual_source_no_dedup "" pages_dual dual_state dual_text_item dual_table_item);
    vm_compute; reflexivity.
Defined.

(** ** C9 *)

Ltac split_all_branches :=
  repeat match goal with
         | |- context [if ?b then _ else _] => destruct b
         | |- context [match ?m with Some _ => _ | None => _ end] => destruct m
         | |- context [match ?m with Ok _ => _ | Err _ => _ end] => destruct m
         end.

Lemma header_line_time (t : string) (d : data) (l : text) :
  header_line (with_time t d) l = with_time t (header_line d l).
Proof. unfold header_line. cbv zeta. split_all_branches; reflexivity. Qed.

Lemma parse_header_info_time (t : string) (d : data) (txt : text) :
  parse_header_info (with_time t d) txt = with_time t (parse_header_info d txt).
Proof.
  unfold parse_header_info. generalize (split_nl txt) as ls. intros ls. revert d.
  induction ls as [|l ls IH]; intros d; cbn [fold_left]; [reflexivity|].
  rewrite header_line_time. apply IH.
Qed.

Lemma line_items_loop_time (t : string) (lines : list text) (d : data) :
  line_items_loop (with_time t d) lines = res_map (with_time t) (line_items_loop d lines).
Proof.
  revert d. induction lines as [|l ls IH]; intros d; cbn [line_items_loop]; [reflexivity|].
  destruct (line_item l) as [[it|]|e]; cbn [bind]; [|apply IH|reflexivity].
  apply (IH (append_item d it)).
Qed.

Lemma totals_line_time (t : string) (d : data) (l : text) :
  totals_line (with_time t d) l = res_map (with_time t) (totals_line d l).
Proof. unfold totals_line, bind, float_exn, int_exn. cbv zeta. split_all_branches; reflexivity. Qed.

Lemma totals_loop_time (t : string) (lines : list text) (d : data) :
  totals_loop (with_time t d) lines = res_map (with_time t) (totals_loop d lines).
Proof.
  revert d. induction lines as [|l ls IH]; intros d; cbn [totals_loop]; [reflexivity|].
  rewrite totals_line_time. destruct (totals_line d l) as [d1|e]; cbn [bind res_map];
    [apply IH|reflexivity].
Qed.

Lemma parse_tables_time (t : string) (d : data) (ts : list table) :
  parse_tables (with_time t d) ts = with_time t (parse_tables d ts).
Proof.
  unfold parse_tables. revert d. induction ts as [|tb ts IH]; intros d; cbn [fold_left];
    [reflexivity|].
  rewrite <- IH. f_equal. clear IH. revert d.
  induction tb as [|r tb IHt]; intros d; cbn [fold_left]; [reflexivity|].
  rewrite <- IHt. f_equal. unfold table_row. destruct (row_item r); reflexivity.
Qed.

Lemma pages_loop_time (t : string) (ps : list page) (d : data) (ft : text) :
  pages_loop (with_time t d) ft ps
  = (with_time t (fst (pages_loop d ft ps)), snd (pages_loop d ft ps)).
Proof.
  revert d ft. induction ps as [|p ps IH]; intros d ft; cbn [pages_loop]; [reflexivity|].
  destruct (page_tables p) as [|tb ts]; [apply IH|].
  rewrite parse_tables_time. apply IH.
Qed.

(** C9: the pipeline is deterministic: on the same document, two runs at the
    times [now1] and [now2] either both fail with the same exception or both
    succeed with records that differ at most in [parsed_at]. *)
Theorem run_deterministic (now1 now2 : string) (pdf : document) :
  run now2 pdf = res_map (with_time now2) (run now1 pdf).
Proof.
  unfold run, parse. destruct pdf as [ps|]; [|reflexivity].
  change (init_data now2) with (with_time now2 (init_data now1)).
  rewrite pages_loop_time.
  destruct (pages_loop (init_data now1) [] ps) as [d1 ft]. cbn [fst snd].
  rewrite parse_header_info_time. unfold parse_line_items.
  rewrite line_items_loop_time.
  destruct (line_items_loop (parse_header_info d1 ft) (split_nl ft)) as [d3|e];
    cbn [res_map bind]; [|reflexivity].
  unfold parse_totals. apply totals_loop_time.
Qed.

(* ------------------------------------------------------------------ *)
(** * Further properties *)

Lemma mtch_lit_app (t s : text) g k : mtch (lit t) (t ++ s) g k = k s g.
Proof.
  revert g k. induction t as [|c t IH]; intros g k; [reflexivity|].
  cbn [lit fold_right app mtch]. rewrite Z.eqb_refl. apply IH.
Qed.

Lemma star_loop_greedy_S body k fuel (s : text) g :
  star_loop body true k (S fuel) s g =
  match body s g (fun s' g' =>
          if (List.length s' <? List.length s)%nat
          then star_loop body true k fuel s' g' else None) with
  | Some x => Some x
  | None => k s g
  end.
Proof. reflexivity. Qed.

Lemma mtch_chr_cons (p : Z -> bool) c s g k :
  mtch (Chr p) (c :: s) g k = if p c then k s g else None.
Proof. reflexivity. Qed.

Lemma star_loop_class (p : Z -> bool) k (r : text) (y : caps) :
  stops p r -> forall x fuel g, forallb p x = true -> (List.length x <= fuel)%nat ->
  k r g = Some y -> star_loop (mtch (Chr p)) true k fuel (x ++ r) g = Some y.
Proof.
  intros Hr x. induction x as [|c x IH]; intros fuel g Hx Hf Hk.
  - destruct fuel as [|fuel]; [exact Hk|]. rewrite star_loop_greedy_S. cbn [app].
    destruct r as [|c r]; [exact Hk|]. rewrite mtch_chr_cons.
    cbn in Hr. rewrite Hr. exact Hk.
  - destruct fuel as [|fuel]; [cbn in Hf; lia|]. rewrite star_loop_greedy_S.
    cbn [app]. rewrite mtch_chr_cons.
    cbn [forallb] in Hx. apply andb_prop in Hx as [Hc Hx]. rewrite Hc.
    assert (Hlt : (List.length (x ++ r) <? List.length (c :: x ++ r))%nat = true)
      by (apply Nat.ltb_lt; cbn; lia).
    rewrite Hlt. rewrite (IH fuel g Hx); [reflexivity | cbn in Hf; lia | exact Hk].
Qed.

Lemma seq_lit (t s : text) b g k y :
  mtch b s g k = Some y -> mtch (Seq (lit t) b) (t ++ s) g k = Some y.
Proof. intros H. cbn [mtch]. rewrite mtch_lit_app. exact H. Qed.

Lemma seq_star (p : Z -> bool) (x r : text) b g k y :
  forallb p x = true -> stops p r -> mtch b r g k = Some y ->
  mtch (Seq (Star true (Chr p)) b) (x ++ r) g k = Some y.
Proof.
  intros Hx Hr H. cbn [mtch]. apply star_loop_class; auto.
  rewrite length_app. lia.
Qed.

Lemma seq_group_plus (n : nat) (p : Z -> bool) (x r : text) b g k y :
  x <> [] -> forallb p x = true -> stops p r -> mtch b r ((n, x) :: g) k = Some y ->
  mtch (Seq (Group n (plus (Chr p))) b) (x ++ r) g k = Some y.
Proof.
  intros Hne Hx Hr H. destruct x as [|c x]; [congruence|].
  cbn [forallb] in Hx. apply andb_prop in Hx as [Hc Hx].
  cbn [mtch plus app]. rewrite Hc.
  apply (star_loop_class p _ r y Hr x _ g Hx); [rewrite length_app; lia|].
  replace (List.length (c :: x ++ r) - List.length r)%nat with (List.length (c :: x))
    by (cbn [List.length]; rewrite length_app; lia).
  rewrite app_comm_cons, firstn_app, firstn_all, Nat.sub_diag. cbn [firstn].
  rewrite app_nil_r. exact H.
Qed.

Lemma re_search_at0 (r : regex) (s : text) (y : caps) :
  mtch r s [] (fun s' g' => k_done s' ((0%nat, firstn (List.length s - List.length s') s) :: g'))
    = Some y -> re_search r s = Some y.
Proof. intros H. unfold re_search. rewrite search_at_eq. cbn [mtch]. rewrite H. reflexivity. Qed.

Lemma forallb_impl (p q : Z -> bool) (s : text) :
  (forall c, p c = true -> q c = true) -> forallb p s = true -> forallb q s = true.
Proof.
  intros Hpq Hs. apply forallb_forall. intros c Hc. apply Hpq.
  exact (proj1 (forallb_forall p s) Hs c Hc).
Qed.

Lemma ascii_digits_num (ds : list Z) :
  Forall digit_range ds -> forallb ascii_num_char (ascii_digits ds) = true.
Proof.
  induction ds as [|d ds IH]; intros H; [reflexivity|].
  inversion H as [|? ? [H0 H9] Hds]; subst. cbn [ascii_digits map forallb].
  fold (ascii_digits ds). rewrite IH by exact Hds. rewrite andb_true_r.
  unfold ascii_num_char. apply orb_true_intro. left.
  apply andb_true_intro. split; apply Z.leb_le; lia.
Qed.

Lemma ru_number_num (ip : list Z) (fp : option (list Z)) :
  ru_ok ip fp -> forallb ascii_num_char (ru_number_text ip fp) = true.
Proof.
  intros [_ [Hi Hf]]. unfold ru_number_text. rewrite forallb_app, ascii_digits_num by exact Hi.
  destruct fp as [f|]; [|reflexivity]. cbn [forallb]. rewrite ascii_digits_num by exact Hf.
  reflexivity.
Qed.

Lemma ascii_num_char_spec (c : Z) :
  ascii_num_char c = true -> (exists d, digit_range d /\ c = 48 + d) \/ c = chr_comma.
Proof.
  unfold ascii_num_char. intros H. apply orb_true_iff in H as [H|H].
  - left. apply andb_prop in H as [H1 H2]. apply Z.leb_le in H1, H2.
    exists (c - 48). unfold digit_range. split; lia.
  - right. apply Z.eqb_eq. exact H.
Qed.

Lemma ascii_num_char_class (c : Z) :
  ascii_num_char c = true -> (is_decimal c || (c =? chr_dot) || (c =? chr_comma)) = true.
Proof.
  intros H. destruct (ascii_num_char_spec c H) as [[d [Hd ->]] | ->]; [|reflexivity].
  unfold is_decimal. rewrite decimal_value_ascii by exact Hd. reflexivity.
Qed.

Lemma ascii_num_char_ne (c x : Z) :
  ascii_num_char x = false -> ascii_num_char c = true -> negb (c =? x) = true.
Proof.
  intros Hx Hc. destruct (c =? x) eqn:E; [|reflexivity].
  apply Z.eqb_eq in E. subst. congruence.
Qed.

Lemma ascii_num_char_space (c : Z) : ascii_num_char c = true -> is_space c = false.
Proof.
  intros Hc. unfold is_space. apply not_true_iff_false. intros H.
  apply existsb_exists in H as [x [Hx Hcx]]. apply Z.eqb_eq in Hcx. subst x.
  assert (Hall : forallb (fun s => negb (ascii_num_char s)) space_chars = true)
    by reflexivity.
  pose proof (proj1 (forallb_forall _ _) Hall c Hx) as Hn. cbv beta in Hn. rewrite Hc in Hn. discriminate.
Qed.

Lemma lstrip_keep (c : Z) (t : text) : is_space c = false -> lstrip (c :: t) = c :: t.
Proof. intros H. cbn [lstrip]. rewrite H. reflexivity. Qed.

Lemma strip_ends (s : text) :
  (forall c t, s = c :: t -> is_space c = false) ->
  (forall c t, rev s = c :: t -> is_space c = false) -> strip s = s.
Proof.
  intros H1 H2. unfold strip.
  assert (E1 : lstrip s = s) by (destruct s as [|c t]; [reflexivity|]; apply lstrip_keep; eapply H1; reflexivity).
  rewrite E1.
  assert (E2 : lstrip (rev s) = rev s)
    by (destruct (rev s) as [|c t] eqn:E; [reflexivity|]; apply lstrip_keep; eapply H2; reflexivity).
  rewrite E2. apply rev_involutive.
Qed.

Lemma prefixb_app (p s : text) : prefixb p (p ++ s) = true.
Proof.
  induction p as [|c p IH]; [destruct s; reflexivity|].
  cbn [prefixb app]. rewrite Z.eqb_refl, IH. reflexivity.
Qed.

Lemma infixb_prefix (p s : text) : infixb p (p ++ s) = true.
Proof.
  pose proof (prefixb_app p s) as H. destruct (p ++ s) as [|c t];
    cbn [infixb]; rewrite H; reflexivity.
Qed.

Lemma infixb_absent (c : Z) (p s : text) :
  forallb (fun x => negb (x =? c)) s = true -> infixb (c :: p) s = false.
Proof.
  induction s as [|x s IH]; intros H; [reflexivity|].
  cbn [forallb] in H. apply andb_prop in H as [Hx H].
  cbn [infixb prefixb]. rewrite Z.eqb_sym. destruct (x =? c); [discriminate Hx|].
  cbn [andb orb]. exact (IH H).
Qed.

Lemma not_in_forallb (c : Z) (s : text) :
  forallb (fun x => negb (x =? c)) s = true -> ~ In c s.
Proof.
  intros H Hin. pose proof (proj1 (forallb_forall _ _) H c Hin) as Hc.
  cbv beta in Hc. rewrite Z.eqb_refl in Hc. discriminate.
Qed.

Lemma py_float_ru (ip : list Z) (fp : option (list Z)) :
  ru_ok ip fp ->
  exists q, py_float (replace_comma (ru_number_text ip fp)) = Some q /\ (q == ru_value ip fp)%Q.
Proof.
  intros [Hip [Hr Hf]].
  set (tl := match fp with Some f => chr_dot :: ascii_digits f | None => [] end).
  assert (Hrc : replace_comma (ru_number_text ip fp) = ascii_digits ip ++ tl).
  { unfold ru_number_text, replace_comma. rewrite map_app.
    fold (replace_comma (ascii_digits ip)). rewrite replace_comma_ascii by exact Hr.
    f_equal. unfold tl. destruct fp as [f|]; [|reflexivity].
    cbn [map]. fold (replace_comma (ascii_digits f)).
    rewrite replace_comma_ascii by exact Hf. reflexivity. }
  rewrite Hrc. unfold py_float. rewrite split_dot_ascii by exact Hr.
  assert (Hsd : forall r, split_dot (chr_dot :: r) = ([], Some r)) by reflexivity.
  assert (Hne : ascii_digits ip <> []) by (destruct ip; [congruence|discriminate]).
  destruct fp as [f|]; unfold tl.
  - rewrite Hsd. cbn [fst snd]. rewrite app_nil_r. unfold digits_val.
    rewrite !digits_val_acc_ascii by assumption.
    destruct (ascii_digits ip) eqn:E; [congruence|].
    eexists. split; [reflexivity|].
    unfold ru_value, digits_num, ascii_digits. rewrite length_map.
    apply Q_decimal_split. lia.
  - cbn [split_dot fst snd]. rewrite app_nil_r. unfold digits_val.
    rewrite digits_val_acc_ascii by assumption.
    destruct (ascii_digits ip) eqn:E; [congruence|].
    eexists. split; [reflexivity|]. unfold ru_value, digits_num. ring.
Qed.

Lemma ru_number_cons (ip : list Z) (fp : option (list Z)) :
  ru_ok ip fp -> exists d t, ru_number_text ip fp = (48 + d) :: t /\ digit_range d.
Proof.
  intros [Hip [Hr _]]. destruct ip as [|d ip]; [congruence|].
  inversion Hr; subst. exists d. eexists. split; [reflexivity|assumption].
Qed.

Ltac chars_ok :=
  repeat rewrite forallb_app; rewrite ?andb_true_iff; repeat split;
  match goal with
  | |- forallb _ (ru_number_text ?ip ?fp) = true =>
      apply (forallb_impl ascii_num_char); [|apply ru_number_num; assumption];
      intros ? ?; apply ascii_num_char_ne; [reflexivity|assumption]
  | |- forallb _ (ascii_digits ?n) = true =>
      apply (forallb_impl ascii_num_char); [|apply ascii_digits_num; assumption];
      intros ? ?; apply ascii_num_char_ne; [reflexivity|assumption]
  | |- _ => vm_compute; reflexivity
  end.

Lemma stops_space_ru (ip : list Z) (fp : option (list Z)) (r : text) :
  ru_ok ip fp -> stops is_space (ru_number_text ip fp ++ r).
Proof.
  intros H. destruct (ru_number_cons ip fp H) as [d [t [-> Hd]]]. cbn [stops app].
  apply ascii_num_char_space. unfold ascii_num_char. destruct Hd.
  apply orb_true_intro; left; apply andb_true_intro; split; apply Z.leb_le; lia.
Qed.

Lemma litu_rub : litu "₽" = lit [chr_rub].
Proof. vm_compute. reflexivity. Qed.

Lemma litu_total : litu "Итого к оплате:" = lit mk_total.
Proof. vm_compute. reflexivity. Qed.

Lemma total_text_mtch (ip : list Z) (fp : option (list Z)) :
  ru_ok ip fp ->
  exists y, re_search re_total (total_text ip fp) = Some y
            /\ group 1 y = ru_number_text ip fp.
Proof.
  intros H. pose proof (ru_number_num ip fp H) as Hcls.
  eexists. split; [|shelve].
  apply re_search_at0. unfold re_total, cat, total_text. cbn [fold_right].
  rewrite litu_rub. rewrite litu_total.
  apply (seq_lit mk_total). apply (seq_star is_space [32]); [reflexivity| |].
  { apply stops_space_ru. exact H. }
  apply seq_group_plus.
  - destruct H as [Hip _]. destruct ip; [congruence|discriminate].
  - apply (forallb_impl ascii_num_char); [|exact Hcls]. exact ascii_num_char_class.
  - reflexivity.
  - apply (seq_star is_space [32]); [reflexivity|reflexivity|].
    apply (seq_lit [chr_rub] []). reflexivity.
  Unshelve. reflexivity.
Qed.

Lemma infixb_absent_hd (p s : text) (c : Z) :
  hd_error p = Some c -> forallb (fun x => negb (x =? c)) s = true -> infixb p s = false.
Proof.
  intros Hp Hs. destruct p as [|c' p]; [discriminate|]. injection Hp as ->.
  apply infixb_absent. exact Hs.
Qed.

Lemma infixb_vat_items (r : text) : infixb mk_vat (mk_items ++ r) = infixb mk_vat r.
Proof. vm_compute. reflexivity. Qed.

Lemma py_int_ascii (n : list Z) :
  n <> [] -> Forall digit_range n -> py_int (ascii_digits n) = Some (digits_num n).
Proof.
  intros Hne Hn. unfold py_int. destruct n as [|d n]; [congruence|].
  cbn [ascii_digits map]. fold (ascii_digits n). unfold digits_val.
  change (48 + d :: ascii_digits n) with (ascii_digits (d :: n)).
  rewrite digits_val_acc_ascii by exact Hn. reflexivity.
Qed.

Lemma ascii_digits_decimal (n : list Z) :
  Forall digit_range n -> forallb is_decimal (ascii_digits n) = true.
Proof.
  induction n as [|d n IH]; intros H; [reflexivity|].
  inversion H as [|? ? Hd Hn]; subst. cbn [ascii_digits map forallb].
  unfold is_decimal at 1. rewrite decimal_value_ascii by exact Hd.
  fold (ascii_digits n). exact (IH Hn).
Qed.

Lemma ascii_digits_cons (n : list Z) (r : text) :
  n <> [] -> Forall digit_range n ->
  exists d t, ascii_digits n ++ r = (48 + d) :: t /\ digit_range d.
Proof.
  intros Hne Hn. destruct n as [|d n]; [congruence|].
  inversion Hn; subst. exists d. eexists. split; [reflexivity|assumption].
Qed.

Lemma digit_not_space (d : Z) : digit_range d -> is_space (48 + d) = false.
Proof.
  intros [H0 H9]. apply ascii_num_char_space. unfold ascii_num_char.
  apply orb_true_intro; left; apply andb_true_intro; split; apply Z.leb_le; lia.
Qed.

Lemma head_ok_cons (s : text) : head_ok s -> forall c t, s = c :: t -> is_space c = false.
Proof. intros H c t ->. exact H. Qed.

Lemma strip_head_last (s : text) : head_ok s -> head_ok (rev s) -> strip s = s.
Proof.
  intros H1 H2. apply strip_ends; apply head_ok_cons; assumption.
Qed.

Lemma parse_totals_total_text (d : data) (ip : list Z) (fp : option (list Z)) :
  ru_ok ip fp ->
  exists q, parse_totals d (total_text ip fp)
            = Ok (upd_totals (dset "total_amount"%string (PFloat q)) d)
            /\ (q == ru_value ip fp)%Q.
Proof.
  intros H.
  unfold parse_totals. rewrite split_nl_single.
  2: { apply not_in_forallb. unfold total_text. chars_ok. }
  cbn [totals_loop]. unfold totals_line.
  rewrite (strip_head_last (total_text ip fp)).
  2: { unfold total_text. vm_compute. reflexivity. }
  2: { unfold total_text. rewrite !rev_app_distr, <- !app_assoc. vm_compute. reflexivity. }
  unfold total_text at 1. rewrite infixb_prefix. fold (total_text ip fp).
  destruct (total_text_mtch ip fp H) as [y [Hy Hg]]. rewrite Hy.
  unfold float_exn. rewrite Hg. destruct (py_float_ru ip fp H) as [q [Hq Hqe]].
  rewrite Hq. cbn [bind]. exists q. split; [reflexivity|exact Hqe].
Qed.

Lemma litu_vat : litu "В том числе НДС:" = lit mk_vat.
Proof. vm_compute. reflexivity. Qed.

Lemma litu_items : litu "Всего наименований" = lit mk_items.
Proof. vm_compute. reflexivity. Qed.

Lemma vat_text_mtch (ip : list Z) (fp : option (list Z)) :
  ru_ok ip fp ->
  exists y, re_search re_vat (vat_text ip fp) = Some y
            /\ group 1 y = ru_number_text ip fp.
Proof.
  intros H. pose proof (ru_number_num ip fp H) as Hcls.
  eexists. split; [|shelve].
  apply re_search_at0. unfold re_vat, cat, vat_text. cbn [fold_right].
  rewrite litu_rub. rewrite litu_vat.
  apply (seq_lit mk_vat). apply (seq_star is_space [32]); [reflexivity| |].
  { apply stops_space_ru. exact H. }
  apply seq_group_plus.
  - destruct H as [Hip _]. destruct ip; [congruence|discriminate].
  - apply (forallb_impl ascii_num_char); [|exact Hcls]. exact ascii_num_char_class.
  - reflexivity.
  - apply (seq_star is_space [32]); [reflexivity|reflexivity|].
    apply (seq_lit [chr_rub] []). reflexivity.
  Unshelve. reflexivity.
Qed.

Lemma hd_mk_total : hd_error mk_total = Some 1048.
Proof. vm_compute. reflexivity. Qed.

Lemma hd_mk_vat : hd_error mk_vat = Some 1042.
Proof. vm_compute. reflexivity. Qed.

(** X2. A single line "В том числе НДС: <amount> ₽" with a well-formed Russian-locale amount sets [totals['vat_amount']] to the value of the amount and changes nothing else. *)
Lemma totals_vat_text (d : data) (ip : list Z) (fp : option (list Z)) :
  ru_ok ip fp ->
  exists q, parse_totals d (vat_text ip fp)
            = Ok (upd_totals (dset "vat_amount"%string (PFloat q)) d)
            /\ (q == ru_value ip fp)%Q.
Proof.
  intros H.
  unfold parse_totals. rewrite split_nl_single.
  2: { apply not_in_forallb. unfold vat_text. chars_ok. }
  cbn [totals_loop]. unfold totals_line.
  rewrite (strip_head_last (vat_text ip fp)).
  2: { unfold vat_text. vm_compute. reflexivity. }
  2: { unfold vat_text. rewrite !rev_app_distr, <- !app_assoc. vm_compute. reflexivity. }
  rewrite (infixb_absent_hd mk_total _ 1048 hd_mk_total).
  2: { unfold vat_text. chars_ok. }
  unfold vat_text at 1. rewrite infixb_prefix. fold (vat_text ip fp).
  destruct (vat_text_mtch ip fp H) as [y [Hy Hg]]. rewrite Hy.
  unfold float_exn. rewrite Hg. destruct (py_float_ru ip fp H) as [q [Hq Hqe]].
  rewrite Hq. cbn [bind]. exists q. split; [reflexivity|exact Hqe].
Qed.

Lemma items_text_mtch (n ip : list Z) (fp : option (list Z)) :
  n <> [] -> Forall digit_range n -> ru_ok ip fp ->
  exists y, re_search re_items (items_text n ip fp) = Some y
            /\ group 1 y = ascii_digits n /\ group 2 y = ru_number_text ip fp.
Proof.
  intros Hn Hnd H. pose proof (ru_number_num ip fp H) as Hcls.
  eexists. split; [|shelve].
  apply re_search_at0. unfold re_items, cat, items_text. cbn [fold_right].
  rewrite litu_rub, litu_items. unfold litu.
  apply (seq_lit mk_items). apply (seq_star is_space [32]); [reflexivity| |].
  { match goal with |- stops _ (ascii_digits n ++ ?r) =>
      destruct (ascii_digits_cons n r Hn Hnd) as [c [t [-> Hc]]] end.
    apply digit_not_space. exact Hc. }
  apply seq_group_plus.
  - destruct n; [congruence|discriminate].
  - apply ascii_digits_decimal. exact Hnd.
  - reflexivity.
  - apply (seq_star is_space [32]); [reflexivity|vm_compute; reflexivity|].
    apply seq_lit. apply (seq_star is_space [32]); [reflexivity| |].
    { apply stops_space_ru. exact H. }
    apply seq_group_plus.
    + destruct H as [Hip _]. destruct ip; [congruence|discriminate].
    + apply (forallb_impl ascii_num_char); [|exact Hcls]. exact ascii_num_char_class.
    + reflexivity.
    + apply (seq_star is_space [32]); [reflexivity|reflexivity|].
      apply (seq_lit [chr_rub] []). reflexivity.
  Unshelve. split; reflexivity.
Qed.

(** X3. A single line "Всего наименований <n> на сумму <amount> ₽" sets [totals['total_items']] to the integer [n] and [totals['total_sum']] to the value of the amount, and changes nothing else. *)
Lemma totals_items_text (d : data) (n ip : list Z) (fp : option (list Z)) :
  n <> [] -> Forall digit_range n -> ru_ok ip fp ->
  exists q, parse_totals d (items_text n ip fp)
            = Ok (upd_totals (fun t => dset "total_sum"%string (PFloat q)
                                        (dset "total_items"%string (PInt (digits_num n)) t)) d)
            /\ (q == ru_value ip fp)%Q.
Proof.
  intros Hn Hnd H.
  unfold parse_totals. rewrite split_nl_single.
  2: { apply not_in_forallb. unfold items_text. chars_ok. }
  cbn [totals_loop]. unfold totals_line.
  rewrite (strip_head_last (items_text n ip fp)).
  2: { unfold items_text. vm_compute. reflexivity. }
  2: { unfold items_text. rewrite !rev_app_distr, <- !app_assoc. vm_compute. reflexivity. }
  rewrite (infixb_absent_hd mk_total _ 1048 hd_mk_total).
  2: { unfold items_text. chars_ok. }
  unfold items_text at 1. rewrite infixb_vat_items.
  rewrite (infixb_absent_hd mk_vat _ 1042 hd_mk_vat) by chars_ok.
  fold (items_text n ip fp).
  unfold items_text at 1. rewrite infixb_prefix. fold (items_text n ip fp).
  destruct (items_text_mtch n ip fp Hn Hnd H) as [y [Hy [Hg1 Hg2]]]. rewrite Hy.
  unfold int_exn, float_exn. rewrite Hg1, Hg2, py_int_ascii by assumption.
  destruct (py_float_ru ip fp H) as [q [Hq Hqe]].
  rewrite Hq. cbn [bind]. exists q. split; [reflexivity|exact Hqe].
Qed.

Lemma class_ne (q : Z -> bool) (c x : Z) :
  q x = false -> q c = true -> negb (c =? x) = true.
Proof.
  intros Hx Hc. destruct (c =? x) eqn:E; [|reflexivity].
  apply Z.eqb_eq in E. subst. congruence.
Qed.

Lemma date_char_class (c : Z) : date_char c = true -> (is_decimal c || (c =? chr_dot)) = true.
Proof.
  unfold date_char. intros H. apply orb_true_iff in H as [H|H].
  - apply andb_prop in H as [H1 H2]. apply Z.leb_le in H1, H2.
    replace c with (48 + (c - 48)) by lia. unfold is_decimal.
    rewrite decimal_value_ascii by (unfold digit_range; lia). reflexivity.
  - rewrite H. apply orb_true_r.
Qed.

Lemma date_char_space (c : Z) : date_char c = true -> is_space c = false.
Proof.
  intros Hc. unfold is_space. apply not_true_iff_false. intros H.
  apply existsb_exists in H as [x [Hx Hcx]]. apply Z.eqb_eq in Hcx. subst x.
  assert (Hall : forallb (fun s => negb (date_char s)) space_chars = true)
    by reflexivity.
  pose proof (proj1 (forallb_forall _ _) Hall c Hx) as Hn. cbv beta in Hn.
  rewrite Hc in Hn. discriminate.
Qed.

Lemma head_ok_class (q : Z -> bool) (s r : text) :
  (forall c, q c = true -> is_space c = false) -> forallb q s = true -> s <> [] ->
  head_ok (s ++ r).
Proof.
  intros Hq Hs Hne. destruct s as [|c s]; [congruence|]. cbn [app head_ok hd_error].
  apply Hq. cbn [forallb] in Hs. apply andb_prop in Hs as [Hc _]. exact Hc.
Qed.

Lemma head_ok_rev_class (q : Z -> bool) (x s : text) :
  (forall c, q c = true -> is_space c = false) -> forallb q s = true -> s <> [] ->
  head_ok (rev (x ++ s)).
Proof.
  intros Hq Hs Hne. rewrite rev_app_distr. apply (head_ok_class q); [exact Hq| |].
  - apply forallb_forall. intros c Hc. apply in_rev in Hc.
    exact (proj1 (forallb_forall _ _) Hs c Hc).
  - intros E. apply Hne. rewrite <- (rev_involutive s), E. reflexivity.
Qed.

Lemma stops_class (q p : Z -> bool) (s r : text) :
  (forall c, q c = true -> p c = false) -> forallb q s = true -> s <> [] ->
  stops p (s ++ r).
Proof.
  intros Hq Hs Hne. destruct s as [|c s]; [congruence|]. cbn [app stops].
  apply Hq. cbn [forallb] in Hs. apply andb_prop in Hs as [Hc _]. exact Hc.
Qed.

Lemma seq_plus (p : Z -> bool) (x r : text) b g k y :
  x <> [] -> forallb p x = true -> stops p r -> mtch b r g k = Some y ->
  mtch (Seq (plus (Chr p)) b) (x ++ r) g k = Some y.
Proof.
  intros Hne Hx Hr H. destruct x as [|c x]; [congruence|].
  cbn [forallb] in Hx. apply andb_prop in Hx as [Hc Hx].
  cbn [mtch plus app]. rewrite Hc.
  apply (star_loop_class p _ r y Hr x _ g Hx); [rewrite length_app; lia|exact H].
Qed.

Lemma stops_class_end (q p : Z -> bool) (s : text) :
  (forall c, q c = true -> p c = false) -> forallb q s = true -> s <> [] -> stops p s.
Proof. intros Hq Hs Hne. rewrite <- (app_nil_r s). exact (stops_class q p s [] Hq Hs Hne). Qed.

Lemma seq_group_plus_end (n : nat) (p : Z -> bool) (x : text) b g k y :
  x <> [] -> forallb p x = true -> mtch b [] ((n, x) :: g) k = Some y ->
  mtch (Seq (Group n (plus (Chr p))) b) x g k = Some y.
Proof.
  intros Hne Hx H. rewrite <- (app_nil_r x).
  exact (seq_group_plus n p x [] b g k y Hne Hx I H).
Qed.

Lemma re_match_at0 (r : regex) (s : text) (y : caps) :
  mtch r s [] (fun s' g' => k_done s' ((0%nat, firstn (List.length s - List.length s') s) :: g'))
    = Some y -> re_match r s = Some y.
Proof. intros H. exact H. Qed.

Ltac chars_ok2 :=
  repeat rewrite forallb_app; rewrite ?andb_true_iff; repeat split;
  match goal with
  | |- forallb _ (ru_number_text ?ip ?fp) = true =>
      apply (forallb_impl ascii_num_char); [|apply ru_number_num; assumption];
      intros ? ?; apply ascii_num_char_ne; [reflexivity|assumption]
  | |- forallb _ (ascii_digits ?n) = true =>
      apply (forallb_impl ascii_num_char); [|apply ascii_digits_num; assumption];
      intros ? ?; apply ascii_num_char_ne; [reflexivity|assumption]
  | H : forallb ?q ?x = true |- forallb _ ?x = true =>
      apply (forallb_impl q); [|exact H];
      intros ? ?; apply (class_ne q); [reflexivity|assumption]
  | |- _ => vm_compute; reflexivity
  end.

Lemma hd_storage : hd_error (u "Хранение товаров от") = Some 1061.
Proof. vm_compute. reflexivity. Qed.

Lemma hd_reception : hd_error (u "Приемка товара на склад") = Some 1055.
Proof. vm_compute. reflexivity. Qed.

Lemma litu_shipment : litu "Отгрузка FBO" = lit (u "Отгрузка FBO").
Proof. reflexivity. Qed.

Lemma shipment_mtch (n : list Z) (dt : text) :
  n <> [] -> Forall digit_range n -> dt <> [] -> forallb date_char dt = true ->
  exists y, re_search re_shipment (shipment_text n dt) = Some y
            /\ group 1 y = ascii_digits n /\ group 2 y = dt.
Proof.
  intros Hn Hnd Hdt Hd.
  eexists. split; [|shelve].
  apply re_search_at0. unfold re_shipment, cat, shipment_text. cbn [fold_right].
  unfold litu.
  apply seq_lit. apply (seq_star is_space [32]); [reflexivity| |].
  { match goal with |- stops _ (ascii_digits n ++ ?r) =>
      destruct (ascii_digits_cons n r Hn Hnd) as [c [t [-> Hc]]] end.
    apply digit_not_space. exact Hc. }
  apply seq_group_plus.
  - destruct n; [congruence|discriminate].
  - apply ascii_digits_decimal. exact Hnd.
  - reflexivity.
  - apply (seq_star is_space [32]); [reflexivity|vm_compute; reflexivity|].
    apply seq_lit. apply (seq_star is_space [32]); [reflexivity| |].
    { apply (stops_class_end date_char); auto using date_char_space. }
    apply seq_group_plus_end; [exact Hdt| |reflexivity].
    apply (forallb_impl date_char); [exact date_char_class|exact Hd].
  Unshelve. split; reflexivity.
Qed.

(** X6. A single line "Отгрузка FBO <n> от <date>" appends one shipment item carrying the FBO number, the date and a zero total, and changes nothing else. *)
Lemma line_items_shipment (d : data) (n : list Z) (dt : text) :
  n <> [] -> Forall digit_range n -> dt <> [] -> forallb date_char dt = true ->
  parse_line_items d (shipment_text n dt)
  = Ok (append_item d
          [("type"%string, PStr (u "shipment"));
           ("description"%string, PStr (u "Отгрузка FBO " ++ ascii_digits n));
           ("fbo_number"%string, PStr (ascii_digits n));
           ("date"%string, PStr dt);
           ("total_amount"%string, PInt 0)]).
Proof.
  intros Hn Hnd Hdt Hd.
  unfold parse_line_items. rewrite split_nl_single.
  2: { apply not_in_forallb. unfold shipment_text. chars_ok2. }
  cbn [line_items_loop]. unfold line_item.
  rewrite (strip_head_last (shipment_text n dt)).
  2: { unfold shipment_text. vm_compute. reflexivity. }
  2: { unfold shipment_text. rewrite !app_assoc.
       apply (head_ok_rev_class date_char); auto using date_char_space. }
  rewrite (infixb_absent_hd _ _ 1061 hd_storage) by (unfold shipment_text; chars_ok2).
  rewrite (infixb_absent_hd _ _ 1055 hd_reception) by (unfold shipment_text; chars_ok2).
  unfold shipment_text at 1. rewrite infixb_prefix. fold (shipment_text n dt).
  destruct (shipment_mtch n dt Hn Hnd Hdt Hd) as [y [Hy [Hg1 Hg2]]]. rewrite Hy.
  rewrite Hg1, Hg2. reflexivity.
Qed.

Lemma infixb_cons (p : text) (c : Z) (s : text) :
  infixb p (c :: s) = prefixb p (c :: s) || infixb p s.
Proof. destruct p; reflexivity. Qed.

Lemma prefixb_mismatch (a p s : text) (x y : Z) :
  x <> y -> prefixb (a ++ x :: p) (a ++ y :: s) = false.
Proof.
  intros Hxy. induction a as [|c a IH]; cbn [app prefixb].
  - apply Z.eqb_neq in Hxy. rewrite Hxy. reflexivity.
  - rewrite Z.eqb_refl, IH. reflexivity.
Qed.

Lemma infixb_first_mismatch (c0 x y : Z) (a p s : text) :
  x <> y -> forallb (fun z => negb (z =? c0)) (a ++ y :: s) = true ->
  infixb ((c0 :: a) ++ x :: p) ((c0 :: a) ++ y :: s) = false.
Proof.
  intros Hxy Hs. cbn [app]. rewrite infixb_cons. cbn [prefixb].
  rewrite Z.eqb_refl, prefixb_mismatch by exact Hxy. cbn [andb orb].
  apply infixb_absent. exact Hs.
Qed.

Lemma recop_split (x : text) : u "Приемка" ++ [32] ++ x = (1055 :: u "риемка" ++ [32]) ++ x.
Proof. vm_compute. reflexivity. Qed.

Lemma reception_split :
  u "Приемка товара на склад" = (1055 :: u "риемка" ++ [32]) ++ 1090 :: u "овара на склад".
Proof. vm_compute. reflexivity. Qed.

Lemma recop_text_not_reception (n : list Z) (dt : text) :
  n <> [] -> Forall digit_range n -> forallb date_char dt = true ->
  infixb (u "Приемка товара на склад") (recop_text n dt) = false.
Proof.
  intros Hn Hnd Hd. unfold recop_text.
  destruct (ascii_digits_cons n ([32] ++ u "от" ++ [32] ++ dt) Hn Hnd) as [c [t [E Hc]]].
  rewrite E, reception_split, recop_split.
  apply infixb_first_mismatch; [destruct Hc; lia|].
  rewrite forallb_app. apply andb_true_intro. split; [vm_compute; reflexivity|].
  cbn [forallb]. apply andb_true_intro.
  split; [apply negb_true_iff, Z.eqb_neq; destruct Hc; lia|].
  assert (Ht : forallb (fun z => negb (z =? 1055)) ((48 + c) :: t) = true)
    by (rewrite <- E; chars_ok2).
  cbn [forallb] in Ht. apply andb_prop in Ht as [_ Ht]. exact Ht.
Qed.

Lemma hd_shipment : hd_error (u "Отгрузка FBO") = Some 1054.
Proof. vm_compute. reflexivity. Qed.

Lemma stops_digits (p : Z -> bool) (n : list Z) (r : text) :
  (forall d, digit_range d -> p (48 + d) = false) ->
  n <> [] -> Forall digit_range n -> stops p (ascii_digits n ++ r).
Proof.
  intros Hp Hn Hnd. destruct (ascii_digits_cons n r Hn Hnd) as [c [t [-> Hc]]].
  exact (Hp c Hc).
Qed.

Lemma recop_head_mtch (n : list Z) (dt : text) :
  n <> [] -> Forall digit_range n -> dt <> [] -> forallb date_char dt = true ->
  is_some (re_match re_recop_head (recop_text n dt)) = true.
Proof.
  intros Hn Hnd Hdt Hd.
  assert (H : exists y, re_match re_recop_head (recop_text n dt) = Some y).
  { eexists. apply re_match_at0. unfold re_recop_head, cat, recop_text. cbn [fold_right].
    unfold litu. apply seq_lit. apply (seq_plus is_space [32]); [discriminate|reflexivity| |].
    { apply stops_digits; [exact digit_not_space|exact Hn|exact Hnd]. }
    apply seq_plus; [destruct n; [congruence|discriminate]|apply ascii_digits_decimal; exact Hnd
                    |reflexivity|].
    apply (seq_plus is_space [32]); [discriminate|reflexivity|vm_compute; reflexivity|].
    apply seq_lit. reflexivity. }
  destruct H as [y ->]. reflexivity.
Qed.

Lemma recop_mtch (n : list Z) (dt : text) :
  n <> [] -> Forall digit_range n -> dt <> [] -> forallb date_char dt = true ->
  exists y, re_search re_recop (recop_text n dt) = Some y
            /\ group 1 y = ascii_digits n /\ group 2 y = dt.
Proof.
  intros Hn Hnd Hdt Hd.
  eexists. split; [|shelve].
  apply re_search_at0. unfold re_recop, cat, recop_text. cbn [fold_right].
  unfold litu. apply seq_lit. apply (seq_plus is_space [32]); [discriminate|reflexivity| |].
  { apply stops_digits; [exact digit_not_space|exact Hn|exact Hnd]. }
  apply seq_group_plus.
  - destruct n; [congruence|discriminate].
  - apply ascii_digits_decimal. exact Hnd.
  - reflexivity.
  - apply (seq_plus is_space [32]); [discriminate|reflexivity|vm_compute; reflexivity|].
    apply seq_lit. apply (seq_plus is_space [32]); [discriminate|reflexivity| |].
    { apply (stops_class_end date_char); auto using date_char_space. }
    apply seq_group_plus_end; [exact Hdt| |reflexivity].
    apply (forallb_impl date_char); [exact date_char_class|exact Hd].
  Unshelve. split; reflexivity.
Qed.

(** X7. A single line "Приемка <n> от <date>" appends one reception_operation item carrying the reception number, the date and a zero total, and changes nothing else. *)
Lemma line_items_recop (d : data) (n : list Z) (dt : text) :
  n <> [] -> Forall digit_range n -> dt <> [] -> forallb date_char dt = true ->
  parse_line_items d (recop_text n dt)
  = Ok (append_item d
          [("type"%string, PStr (u "reception_operation"));
           ("description"%string, PStr (u "Приемка " ++ ascii_digits n));
           ("reception_number"%string, PStr (ascii_digits n));
           ("date"%string, PStr dt);
           ("total_amount"%string, PInt 0)]).
Proof.
  intros Hn Hnd Hdt Hd.
  unfold parse_line_items. rewrite split_nl_single.
  2: { apply not_in_forallb. unfold recop_text. chars_ok2. }
  cbn [line_items_loop]. unfold line_item.
  rewrite (strip_head_last (recop_text n dt)).
  2: { unfold recop_text. vm_compute. reflexivity. }
  2: { unfold recop_text. rewrite !app_assoc.
       apply (head_ok_rev_class date_char); auto using date_char_space. }
  rewrite (infixb_absent_hd _ _ 1061 hd_storage) by (unfold recop_text; chars_ok2).
  rewrite recop_text_not_reception by assumption.
  rewrite (infixb_absent_hd _ _ 1054 hd_shipment) by (unfold recop_text; chars_ok2).
  rewrite recop_head_mtch by assumption.
  destruct (recop_mtch n dt Hn Hnd Hdt Hd) as [y [Hy [Hg1 Hg2]]]. rewrite Hy.
  rewrite Hg1, Hg2. reflexivity.
Qed.

Lemma ru_class (ip : list Z) (fp : option (list Z)) :
  ru_ok ip fp ->
  forallb (fun c => is_decimal c || (c =? chr_dot) || (c =? chr_comma)) (ru_number_text ip fp)
  = true.
Proof.
  intros H. apply (forallb_impl ascii_num_char); [exact ascii_num_char_class|].
  apply ru_number_num. exact H.
Qed.

Lemma ru_nonempty (ip : list Z) (fp : option (list Z)) : ru_ok ip fp -> ru_number_text ip fp <> [].
Proof. intros [Hip _]. destruct ip; [congruence|discriminate]. Qed.

Lemma reception_mtch (n pi : list Z) (pf : option (list Z)) (ti : list Z) (tf : option (list Z)) :
  n <> [] -> Forall digit_range n -> ru_ok pi pf -> ru_ok ti tf ->
  exists y, re_search re_reception (reception_text n pi pf ti tf) = Some y
            /\ group 1 y = ascii_digits n /\ group 2 y = ru_number_text pi pf
            /\ group 3 y = ru_number_text ti tf.
Proof.
  intros Hn Hnd Hp Ht.
  eexists. split; [|shelve].
  apply re_search_at0. unfold re_reception, cat, reception_text. cbn [fold_right].
  rewrite litu_rub. unfold litu.
  apply seq_lit. apply (seq_star is_space [32]); [reflexivity| |].
  { apply stops_digits; [exact digit_not_space|exact Hn|exact Hnd]. }
  apply seq_group_plus; [destruct n; [congruence|discriminate]|apply ascii_digits_decimal; exact Hnd
                        |reflexivity|].
  apply (seq_star is_space [32]); [reflexivity|vm_compute; reflexivity|].
  apply seq_lit. apply (seq_star is_space [32]); [reflexivity|apply stops_space_ru; exact Hp|].
  apply seq_group_plus; [apply ru_nonempty; exact Hp|apply ru_class; exact Hp|reflexivity|].
  apply (seq_star is_space [32]); [reflexivity|reflexivity|].
  apply (seq_lit [chr_rub]). apply (seq_star is_space [32]); [reflexivity|apply stops_space_ru; exact Ht|].
  apply seq_group_plus; [apply ru_nonempty; exact Ht|apply ru_class; exact Ht|reflexivity|].
  apply (seq_star is_space [32]); [reflexivity|reflexivity|].
  apply (seq_lit [chr_rub] []). reflexivity.
  Unshelve. split; [|split]; reflexivity.
Qed.

(** X5. A single line "Приемка товара на склад и размещение <n> шт. <price> ₽ <total> ₽" appends one reception item with the integer quantity [n], the unit "шт." and the two amounts as floats. *)
Lemma line_items_reception (d : data) (n pi : list Z) (pf : option (list Z)) (ti : list Z)
      (tf : option (list Z)) :
  n <> [] -> Forall digit_range n -> ru_ok pi pf -> ru_ok ti tf ->
  exists p t,
    parse_line_items d (reception_text n pi pf ti tf)
    = Ok (append_item d
            [("type"%string, PStr (u "reception"));
             ("description"%string, PStr (u "Приемка товара на склад и размещение"));
             ("quantity"%string, PInt (digits_num n));
             ("unit"%string, PStr (u "шт."));
             ("price_per_unit"%string, PFloat p);
             ("total_amount"%string, PFloat t)])
    /\ (p == ru_value pi pf)%Q /\ (t == ru_value ti tf)%Q.
Proof.
  intros Hn Hnd Hp Ht.
  unfold parse_line_items. rewrite split_nl_single.
  2: { apply not_in_forallb. unfold reception_text. chars_ok2. }
  cbn [line_items_loop]. unfold line_item.
  rewrite (strip_head_last (reception_text n pi pf ti tf)).
  2: { unfold reception_text. vm_compute. reflexivity. }
  2: { unfold reception_text. rewrite !rev_app_distr, <- !app_assoc. vm_compute. reflexivity. }
  rewrite (infixb_absent_hd _ _ 1061 hd_storage) by (unfold reception_text; chars_ok2).
  assert (Hm : infixb (u "Приемка товара на склад") (reception_text n pi pf ti tf) = true).
  { unfold reception_text.
    replace (u "Приемка товара на склад и размещение")
      with (u "Приемка товара на склад" ++ u " и размещение") by (vm_compute; reflexivity).
    rewrite <- app_assoc. apply infixb_prefix. }
  rewrite Hm.
  destruct (reception_mtch n pi pf ti tf Hn Hnd Hp Ht) as [y [Hy [Hg1 [Hg2 Hg3]]]].
  rewrite Hy. unfold int_exn, float_exn. rewrite Hg1, Hg2, Hg3, py_int_ascii by assumption.
  destruct (py_float_ru pi pf Hp) as [p [Hp1 Hp2]]. destruct (py_float_ru ti tf Ht) as [t [Ht1 Ht2]].
  rewrite Hp1, Ht1. cbn [bind line_items_loop]. exists p, t. 
  split; [reflexivity|split; assumption].
Qed.

Lemma storage_mtch (d1 d2 : text) qi qf pi pf ti tf :
  d1 <> [] -> forallb date_char d1 = true -> d2 <> [] -> forallb date_char d2 = true ->
  ru_ok qi qf -> ru_ok pi pf -> ru_ok ti tf ->
  exists y, re_search re_storage (storage_text d1 d2 qi qf pi pf ti tf) = Some y
            /\ group 1 y = d1 /\ group 2 y = d2 /\ group 3 y = ru_number_text qi qf
            /\ group 4 y = ru_number_text pi pf /\ group 5 y = ru_number_text ti tf.
Proof.
  intros H1 Hd1 H2 Hd2 Hq Hp Ht.
  eexists. split; [|shelve].
  apply re_search_at0. unfold re_storage, cat, storage_text. cbn [fold_right].
  rewrite litu_rub. unfold litu.
  apply seq_lit. apply (seq_star is_space [32]); [reflexivity| |].
  { apply (stops_class date_char); auto using date_char_space. }
  apply seq_group_plus; [exact H1|apply (forallb_impl date_char); [exact date_char_class|exact Hd1]
                        |reflexivity|].
  apply (seq_star is_space [32]); [reflexivity|vm_compute; reflexivity|].
  apply seq_lit. apply (seq_star is_space [32]); [reflexivity| |].
  { apply (stops_class date_char); auto using date_char_space. }
  apply seq_group_plus; [exact H2|apply (forallb_impl date_char); [exact date_char_class|exact Hd2]
                        |reflexivity|].
  apply (seq_star is_space [32]); [reflexivity|apply stops_space_ru; exact Hq|].
  apply seq_group_plus; [apply ru_nonempty; exact Hq|apply ru_class; exact Hq|reflexivity|].
  apply (seq_star is_space [32]); [reflexivity|vm_compute; reflexivity|].
  apply seq_lit. apply (seq_star is_space [32]); [reflexivity|apply stops_space_ru; exact Hp|].
  apply seq_group_plus; [apply ru_nonempty; exact Hp|apply ru_class; exact Hp|reflexivity|].
  apply (seq_star is_space [32]); [reflexivity|reflexivity|].
  apply (seq_lit [chr_rub]). apply (seq_star is_space [32]); [reflexivity|apply stops_space_ru; exact Ht|].
  apply seq_group_plus; [apply ru_nonempty; exact Ht|apply ru_class; exact Ht|reflexivity|].
  apply (seq_star is_space [32]); [reflexivity|reflexivity|].
  apply (seq_lit [chr_rub] []). reflexivity.
  Unshelve. repeat split; reflexivity.
Qed.

(** X4. A single line "Хранение товаров от <d1> до <d2> <qty> м³ <price> ₽ <total> ₽" appends one storage item with both dates, the description built from them and the three amounts as floats. *)
Lemma line_items_storage (d : data) (d1 d2 : text) qi qf pi pf ti tf :
  d1 <> [] -> forallb date_char d1 = true -> d2 <> [] -> forallb date_char d2 = true ->
  ru_ok qi qf -> ru_ok pi pf -> ru_ok ti tf ->
  exists q p t,
    parse_line_items d (storage_text d1 d2 qi qf pi pf ti tf)
    = Ok (append_item d
            [("type"%string, PStr (u "storage"));
             ("description"%string, PStr (u "Хранение товаров от " ++ d1 ++ u " до " ++ d2));
             ("from_date"%string, PStr d1);
             ("to_date"%string, PStr d2);
             ("quantity"%string, PFloat q);
             ("unit"%string, PStr (u "м³"));
             ("price_per_unit"%string, PFloat p);
             ("total_amount"%string, PFloat t)])
    /\ (q == ru_value qi qf)%Q /\ (p == ru_value pi pf)%Q /\ (t == ru_value ti tf)%Q.
Proof.
  intros H1 Hd1 H2 Hd2 Hq Hp Ht.
  unfold parse_line_items. rewrite split_nl_single.
  2: { apply not_in_forallb. unfold storage_text. chars_ok2. }
  cbn [line_items_loop]. unfold line_item.
  rewrite (strip_head_last (storage_text d1 d2 qi qf pi pf ti tf)).
  2: { unfold storage_text. vm_compute. reflexivity. }
  2: { unfold storage_text. rewrite !rev_app_distr, <- !app_assoc. vm_compute. reflexivity. }
  unfold storage_text at 1. rewrite infixb_prefix.
  fold (storage_text d1 d2 qi qf pi pf ti tf).
  destruct (storage_mtch d1 d2 qi qf pi pf ti tf H1 Hd1 H2 Hd2 Hq Hp Ht)
    as [y [Hy [Hg1 [Hg2 [Hg3 [Hg4 Hg5]]]]]].
  rewrite Hy. unfold float_exn. rewrite Hg1, Hg2, Hg3, Hg4, Hg5.
  destruct (py_float_ru qi qf Hq) as [q [Hq1 Hq2]].
  destruct (py_float_ru pi pf Hp) as [p [Hp1 Hp2]].
  destruct (py_float_ru ti tf Ht) as [t [Ht1 Ht2]].
  rewrite Hq1, Hp1, Ht1. cbn [bind line_items_loop]. exists q, p, t.
  split; [reflexivity|split; [|split]; assumption].
Qed.

Lemma number_char_class (c : Z) : number_char c = true -> (is_decimal c || (c =? 45)) = true.
Proof.
  unfold number_char. intros H. apply orb_true_iff in H as [H|H].
  - apply andb_prop in H as [H1 H2]. apply Z.leb_le in H1, H2.
    replace c with (48 + (c - 48)) by lia. unfold is_decimal.
    rewrite decimal_value_ascii by (unfold digit_range; lia). reflexivity.
  - rewrite H. apply orb_true_r.
Qed.

Lemma number_char_space (c : Z) : number_char c = true -> is_space c = false.
Proof.
  intros Hc. unfold is_space. apply not_true_iff_false. intros H.
  apply existsb_exists in H as [x [Hx Hcx]]. apply Z.eqb_eq in Hcx. subst x.
  assert (Hall : forallb (fun s => negb (number_char s)) space_chars = true)
    by reflexivity.
  pose proof (proj1 (forallb_forall _ _) Hall c Hx) as Hn. cbv beta in Hn.
  rewrite Hc in Hn. discriminate.
Qed.

Lemma re_search_skip (c : Z) (b : regex) (pre s : text) :
  forallb (fun x => negb (x =? c)) pre = true ->
  re_search (Seq (Seq (Chr (Z.eqb c)) Eps) b) (pre ++ s)
  = re_search (Seq (Seq (Chr (Z.eqb c)) Eps) b) s.
Proof.
  unfold re_search. induction pre as [|x pre IH]; intros H; [reflexivity|].
  cbn [forallb] in H. apply andb_prop in H as [Hx H].
  cbn [app]. rewrite search_at_eq. cbn [mtch]. rewrite Z.eqb_sym.
  destruct (x =? c); [discriminate Hx|]. exact (IH H).
Qed.

Lemma litu_numero : litu "№" = Seq (Chr (Z.eqb 8470)) Eps.
Proof. vm_compute. reflexivity. Qed.

Lemma invoice_split : u "Детализация к счету №" = u "Детализация к счету " ++ [8470].
Proof. vm_compute. reflexivity. Qed.

Lemma invoice_mtch (num dt : text) :
  num <> [] -> forallb number_char num = true -> dt <> [] -> forallb date_char dt = true ->
  exists y, re_search re_invoice (invoice_text num dt) = Some y
            /\ group 1 y = num /\ group 2 y = dt.
Proof.
  intros Hn Hnc Hdt Hd.
  eexists. split; [|shelve].
  unfold re_invoice, cat, invoice_text. cbn [fold_right]. rewrite litu_numero.
  rewrite invoice_split, <- app_assoc, re_search_skip by (vm_compute; reflexivity).
  apply re_search_at0. unfold litu.
  apply (seq_lit [8470]). apply (seq_star is_space [32]); [reflexivity| |].
  { apply (stops_class number_char); auto using number_char_space. }
  apply seq_group_plus; [exact Hn|apply (forallb_impl number_char); [exact number_char_class|exact Hnc]
                        |reflexivity|].
  apply (seq_star is_space [32]); [reflexivity|vm_compute; reflexivity|].
  apply seq_lit. apply (seq_star is_space [32]); [reflexivity| |].
  { apply (stops_class_end date_char); auto using date_char_space. }
  apply seq_group_plus_end; [exact Hdt| |reflexivity].
  apply (forallb_impl date_char); [exact date_char_class|exact Hd].
  Unshelve. split; reflexivity.
Qed.

Lemma hd_company : hd_error (u "Исполнитель:") = Some 1048.
Proof. vm_compute. reflexivity. Qed.

Lemma hd_customer : hd_error (u "Заказчик:") = Some 1047.
Proof. vm_compute. reflexivity. Qed.

(** X8. A single line "Детализация к счету № <number> от <date>" sets [invoice_info['number']] and [invoice_info['date']] to the two groups and changes nothing else. *)
Lemma header_invoice (d : data) (num dt : text) :
  num <> [] -> forallb number_char num = true -> dt <> [] -> forallb date_char dt = true ->
  parse_header_info d (invoice_text num dt)
  = upd_invoice (fun i => dset "date"%string (PStr dt) (dset "number"%string (PStr num) i)) d.
Proof.
  intros Hn Hnc Hdt Hd.
  unfold parse_header_info. rewrite split_nl_single.
  2: { apply not_in_forallb. unfold invoice_text. chars_ok2. }
  cbn [fold_left]. unfold header_line.
  rewrite (strip_head_last (invoice_text num dt)).
  2: { unfold invoice_text. vm_compute. reflexivity. }
  2: { unfold invoice_text. rewrite !app_assoc.
       apply (head_ok_rev_class date_char); auto using date_char_space. }
  rewrite (infixb_absent_hd _ _ 1048 hd_company) by (unfold invoice_text; chars_ok2).
  rewrite (infixb_absent_hd _ _ 1047 hd_customer) by (unfold invoice_text; chars_ok2).
  unfold invoice_text at 1. rewrite infixb_prefix. fold (invoice_text num dt).
  destruct (invoice_mtch num dt Hn Hnc Hdt Hd) as [y [Hy [Hg1 Hg2]]]. rewrite Hy.
  rewrite Hg1, Hg2. reflexivity.
Qed.

Lemma split_nl_nonempty (s : text) : split_nl s <> [].
Proof.
  induction s as [|c s IH]; cbn [split_nl]; [discriminate|].
  destruct (c =? chr_newline); [discriminate|]. destruct (split_nl s); discriminate.
Qed.

Lemma split_nl_app (a b : text) : split_nl (a ++ chr_newline :: b) = split_nl a ++ split_nl b.
Proof.
  induction a as [|c a IH]; [reflexivity|].
  cbn [app split_nl]. rewrite IH. destruct (c =? chr_newline); [reflexivity|].
  pose proof (split_nl_nonempty a) as Hne.
  destruct (split_nl a) as [|l ls]; [congruence|]. reflexivity.
Qed.

(** X9. [_parse_header_info] of two texts joined by a newline is [_parse_header_info] of the first followed by [_parse_header_info] of the second. *)
Lemma header_compose (d : data) (a b : text) :
  parse_header_info d (a ++ chr_newline :: b) = parse_header_info (parse_header_info d a) b.
Proof. unfold parse_header_info. rewrite split_nl_app, fold_left_app. reflexivity. Qed.

Lemma totals_loop_app (d : data) (l1 l2 : list text) :
  totals_loop d (l1 ++ l2) = bind (totals_loop d l1) (fun d' => totals_loop d' l2).
Proof.
  revert d. induction l1 as [|l l1 IH]; intros d; [reflexivity|].
  cbn [app totals_loop]. destruct (totals_line d l); cbn [bind]; [apply IH|reflexivity].
Qed.

(** X10. [_parse_totals] of two texts joined by a newline runs on the first and then, if that did not raise, on the second. *)
Lemma totals_compose (d : data) (a b : text) :
  parse_totals d (a ++ chr_newline :: b) = bind (parse_totals d a) (fun d' => parse_totals d' b).
Proof. unfold parse_totals. rewrite split_nl_app. apply totals_loop_app. Qed.

Lemma line_items_loop_app (d : data) (l1 l2 : list text) :
  line_items_loop d (l1 ++ l2) = bind (line_items_loop d l1) (fun d' => line_items_loop d' l2).
Proof.
  revert d. induction l1 as [|l l1 IH]; intros d; [reflexivity|].
  cbn [app line_items_loop]. destruct (line_item l); cbn [bind]; [apply IH|reflexivity].
Qed.

(** X11. [_parse_line_items] of two texts joined by a newline runs on the first and then, if that did not raise, on the second. *)
Lemma line_items_compose (d : data) (a b : text) :
  parse_line_items d (a ++ chr_newline :: b)
  = bind (parse_line_items d a) (fun d' => parse_line_items d' b).
Proof. unfold parse_line_items. rewrite split_nl_app. apply line_items_loop_app. Qed.

Lemma header_line_frame (d : data) (l : text) :
  line_items (header_line d l) = line_items d /\ totals (header_line d l) = totals d
  /\ parsed_at (header_line d l) = parsed_at d.
Proof. unfold header_line. cbv zeta. split_branches; repeat split; reflexivity. Qed.

(** X12. [_parse_header_info] never changes the line items, the totals or [parsed_at]. *)
Lemma header_frame (d : data) (txt : text) :
  line_items (parse_header_info d txt) = line_items d
  /\ totals (parse_header_info d txt) = totals d
  /\ parsed_at (parse_header_info d txt) = parsed_at d.
Proof.
  unfold parse_header_info. generalize (split_nl txt) as ls. intros ls. revert d.
  induction ls as [|l ls IH]; intros d; cbn [fold_left]; [repeat split; reflexivity|].
  destruct (IH (header_line d l)) as [H1 [H2 H3]].
  destruct (header_line_frame d l) as [E1 [E2 E3]].
  rewrite H1, H2, H3, E1, E2, E3. repeat split; reflexivity.
Qed.

(** X13. When [_parse_line_items] returns, it has only appended items to [line_items]: the other fields are unchanged. *)
Lemma line_items_frame (d d' : data) (txt : text) :
  parse_line_items d txt = Ok d' ->
  invoice_info d' = invoice_info d /\ company_info d' = company_info d
  /\ customer_info d' = customer_info d /\ totals d' = totals d /\ parsed_at d' = parsed_at d
  /\ exists T, line_items d' = line_items d ++ T.
Proof.
  unfold parse_line_items. intros H.
  destruct (line_items_loop_items _ _ _ H) as [T [_ HT]].
  assert (Hf : invoice_info d' = invoice_info d /\ company_info d' = company_info d
               /\ customer_info d' = customer_info d /\ totals d' = totals d
               /\ parsed_at d' = parsed_at d).
  { clear HT. revert d H. generalize (split_nl txt) as ls. intros ls.
    induction ls as [|l ls IH]; intros d H; cbn [line_items_loop] in H.
    - injection H as <-. repeat split; reflexivity.
    - destruct (line_item l) as [[it|]|e]; cbn [bind] in H; [| |discriminate H];
        apply IH in H; exact H. }
  destruct Hf as [H1 [H2 [H3 [H4 H5]]]]. repeat split; try assumption. exists T. exact HT.
Qed.

Lemma totals_line_frame (d d' : data) (l : text) :
  totals_line d l = Ok d' ->
  invoice_info d' = invoice_info d /\ company_info d' = company_info d
  /\ customer_info d' = customer_info d /\ line_items d' = line_items d
  /\ parsed_at d' = parsed_at d.
Proof.
  unfold totals_line. cbv zeta. intros H.
  repeat match type of H with
         | context [if ?b then _ else _] => destruct b
         | context [match ?m with Some _ => _ | None => _ end] => destruct m
         end;
    peel_bind H; injection H as <-; repeat split; reflexivity.
Qed.

(** X14. When [_parse_totals] returns, only [totals] has changed. *)
Lemma totals_frame (d d' : data) (txt : text) :
  parse_totals d txt = Ok d' ->
  invoice_info d' = invoice_info d /\ company_info d' = company_info d
  /\ customer_info d' = customer_info d /\ line_items d' = line_items d
  /\ parsed_at d' = parsed_at d.
Proof.
  unfold parse_totals. generalize (split_nl txt) as ls. intros ls. revert d.
  induction ls as [|l ls IH]; intros d H; cbn [totals_loop] in H.
  - injection H as <-. repeat split; reflexivity.
  - destruct (totals_line d l) as [d1|e] eqn:E; cbn [bind] in H; [|discriminate H].
    destruct (IH _ H) as [H1 [H2 [H3 [H4 H5]]]].
    destruct (totals_line_frame _ _ _ E) as [E1 [E2 [E3 [E4 E5]]]].
    rewrite H1, H2, H3, H4, H5, E1, E2, E3, E4, E5. repeat split; reflexivity.
Qed.

Lemma table_row_frame (d : data) (r : row) :
  invoice_info (table_row d r) = invoice_info d /\ company_info (table_row d r) = company_info d
  /\ customer_info (table_row d r) = customer_info d /\ totals (table_row d r) = totals d
  /\ parsed_at (table_row d r) = parsed_at d.
Proof. unfold table_row. destruct (row_item r); repeat split; reflexivity. Qed.

Lemma parse_tables_frame (d : data) (ts : list table) :
  invoice_info (parse_tables d ts) = invoice_info d
  /\ company_info (parse_tables d ts) = company_info d
  /\ customer_info (parse_tables d ts) = customer_info d
  /\ totals (parse_tables d ts) = totals d /\ parsed_at (parse_tables d ts) = parsed_at d.
Proof.
  unfold parse_tables. revert d. induction ts as [|t ts IH]; intros d; cbn [fold_left].
  - repeat split; reflexivity.
  - destruct (IH (fold_left table_row t d)) as [H1 [H2 [H3 [H4 H5]]]].
    rewrite H1, H2, H3, H4, H5. clear. revert d.
    induction t as [|r t IHt]; intros d; cbn [fold_left]; [repeat split; reflexivity|].
    destruct (IHt (table_row d r)) as [H1 [H2 [H3 [H4 H5]]]].
    destruct (table_row_frame d r) as [E1 [E2 [E3 [E4 E5]]]].
    rewrite H1, H2, H3, H4, H5, E1, E2, E3, E4, E5. repeat split; reflexivity.
Qed.

Lemma parse_tables_shape (d : data) (ts : list table) :
  parse_tables d ts
  = mk_data (invoice_info d) (company_info d) (customer_info d)
            (line_items d ++ flat_map (fun t => flat_map (fun r => option_list (row_item r)) t) ts)
            (totals d) (parsed_at d).
Proof.
  rewrite <- parse_tables_items.
  destruct (parse_tables_frame d ts) as [H1 [H2 [H3 [H4 H5]]]].
  rewrite <- H1, <- H2, <- H3, <- H4, <- H5. destruct (parse_tables d ts). reflexivity.
Qed.

Lemma pages_loop_no_text (d : data) (ft : text) (ps : list page) :
  Forall no_text ps ->
  pages_loop d ft ps
  = (mk_data (invoice_info d) (company_info d) (customer_info d)
             (line_items d ++ table_items ps) (totals d) (parsed_at d), ft).
Proof.
  revert d. induction ps as [|p ps IH]; intros d H.
  - cbn [pages_loop table_items flat_map]. rewrite app_nil_r. destruct d; reflexivity.
  - inversion H as [|? ? Hp Hps]; subst. cbn [pages_loop].
    assert (Ht : match page_text p with
                 | Some t => match t with [] => ft | _ => ft ++ t ++ [chr_newline] end
                 | None => ft end = ft)
      by (destruct Hp as [-> | ->]; reflexivity).
    rewrite Ht, IH by exact Hps. cbn [table_items flat_map]. fold (table_items ps).
    destruct (page_tables p) as [|t ts] eqn:E.
    + reflexivity.
    + rewrite parse_tables_shape. cbn [invoice_info company_info customer_info line_items totals
                                 parsed_at]. rewrite <- !app_assoc. reflexivity.
Qed.

Lemma header_line_empty (d : data) : header_line d [] = d.
Proof. destruct d. vm_compute. reflexivity. Qed.

Lemma line_item_empty : line_item [] = Ok None.
Proof. vm_compute. reflexivity. Qed.

Lemma totals_line_empty (d : data) : totals_line d [] = Ok d.
Proof. destruct d. vm_compute. reflexivity. Qed.

(** X16. When no page of the document gives text, [parse] returns empty header dictionaries and totals, and exactly the items of the tables. *)
Lemma run_no_text (now : string) (ps : list page) :
  Forall no_text ps -> run now (Some ps) = Ok (mk_data [] [] [] (table_items ps) [] now).
Proof.
  intros H. unfold run, parse. rewrite pages_loop_no_text by exact H.
  unfold parse_header_info, parse_line_items, parse_totals. cbn [split_nl fold_left].
  rewrite header_line_empty. cbn [line_items_loop]. rewrite line_item_empty. cbn [bind].
  cbn [totals_loop]. rewrite totals_line_empty. reflexivity.
Qed.

Lemma re_search_number_cons (c : Z) (t : text) :
  (is_decimal c || (c =? chr_dot)) = false -> re_search re_number (c :: t) = re_search re_number t.
Proof.
  intros Hc. unfold re_search. rewrite search_at_eq. cbn [mtch re_number plus set_dig_dot].
  rewrite Hc. reflexivity.
Qed.

(** X17. [_parse_number] skips a leading character of a string that is no digit, dot, comma, ruble sign or whitespace. *)
Lemma parse_number_skip (c : Z) (s : text) :
  is_decimal c = false -> c <> chr_dot -> c <> chr_comma -> c <> chr_rub -> is_space c = false ->
  parse_number (AStr (c :: s)) = parse_number (AStr s).
Proof.
  intros Hd Hdot Hcom Hrub Hsp. unfold parse_number. cbn [py_truthy py_str negb].
  fold (without_rub_ws (strip (c :: s))). fold (without_rub_ws (strip s)).
  rewrite !without_rub_ws_strip.
  assert (E : without_rub_ws (c :: s) = c :: without_rub_ws s).
  { unfold without_rub_ws. cbn [filter]. apply Z.eqb_neq in Hrub. rewrite Hrub, Hsp. reflexivity. }
  rewrite E. unfold replace_comma at 1. cbn [map].
  apply Z.eqb_neq in Hcom. rewrite Hcom. fold (replace_comma (without_rub_ws s)).
  rewrite re_search_number_cons by (apply Z.eqb_neq in Hdot; rewrite Hd, Hdot; reflexivity).
  destruct s as [|x s]; [reflexivity|]. reflexivity.
Qed.

Lemma lower_lookup_inv (runs : list (Z * Z * Z * Z)) (c : Z) :
  lower_lookup runs c = c \/ In c (preimages runs (lower_lookup runs c)).
Proof.
  induction runs as [|[[[lo hi] st] off] r IH]; [left; reflexivity|].
  cbn [lower_lookup preimages flat_map]. fold (preimages r).
  destruct ((lo <=? c) && (c <=? hi) && ((c - lo) mod st =? 0)) eqn:E.
  - right. apply in_or_app. left. replace (c + off - off) with c by lia. rewrite E. left. reflexivity.
  - destruct IH as [IH|IH]; [left; exact IH|right; apply in_or_app; right; exact IH].
Qed.

Lemma last_part_nodot (w cur : text) : ~ In chr_dot w -> last_part w cur = rev cur ++ w.
Proof.
  revert cur. induction w as [|c w IH]; intros cur H; cbn [last_part].
  - rewrite app_nil_r. reflexivity.
  - assert (Hc : (c =? chr_dot) = false) by (apply Z.eqb_neq; intros ->; apply H; left; reflexivity).
    rewrite Hc, IH by (intros Hi; apply H; right; exact Hi). cbn [rev]. rewrite <- app_assoc. reflexivity.
Qed.

Lemma last_part_dot (pre w cur : text) : ~ In chr_dot w -> last_part (pre ++ chr_dot :: w) cur = w.
Proof.
  intros Hw. revert cur. induction pre as [|c pre IH]; intros cur; cbn [app last_part].
  - rewrite Z.eqb_refl, last_part_nodot by exact Hw. reflexivity.
  - destruct (c =? chr_dot); apply IH.
Qed.

Lemma last_part_inv (f cur : text) :
  In chr_dot f -> exists pre, f = pre ++ chr_dot :: last_part f cur /\ ~ In chr_dot (last_part f cur).
Proof.
  revert cur. induction f as [|c f IH]; intros cur H; [destruct H|]. cbn [last_part].
  destruct (c =? chr_dot) eqn:E.
  - apply Z.eqb_eq in E. subst c.
    destruct (in_dec Z.eq_dec chr_dot f) as [Hin|Hno].
    + destruct (IH [] Hin) as [pre [Hf Hn]]. exists (chr_dot :: pre).
      split; [rewrite Hf at 1; reflexivity|exact Hn].
    + exists []. rewrite last_part_nodot by exact Hno. split; [reflexivity|exact Hno].
  - assert (Hin : In chr_dot f).
    { destruct H as [H|H]; [subst c; rewrite Z.eqb_refl in E; discriminate|exact H]. }
    destruct (IH (c :: cur) Hin) as [pre [Hf Hn]]. exists (c :: pre).
    split; [rewrite Hf at 1; reflexivity|exact Hn].
Qed.

Lemma infixb_single (c : Z) (s : text) : infixb [c] s = true <-> In c s.
Proof.
  induction s as [|x s IH]; [split; [intros H; discriminate H|intros []]|].
  cbn [infixb prefixb]. rewrite andb_true_r, orb_true_iff, IH, Z.eqb_eq.
  split; intros [H|H]; [left; congruence|right; exact H|left; congruence|right; exact H].
Qed.

Lemma lower_char_ne (b r : text) (c : Z) : lower_char b c r <> [].
Proof. unfold lower_char. destruct (c =? 304); [discriminate|]. destruct (c =? 931); discriminate. Qed.

Lemma lower_go_nil (b s : text) : lower_go b s = [] -> s = [].
Proof.
  destruct s as [|c s]; [reflexivity|]. cbn [lower_go]. intros H.
  apply app_eq_nil in H as [H _]. exfalso. exact (lower_char_ne _ _ _ H).
Qed.

Lemma lower_go_cons (b s : text) (t : Z) (ts : text) :
  lower_go b s = t :: ts -> t <> 105 -> t <> 962 -> t <> 963 ->
  exists c s', s = c :: s' /\ lower_lookup lower_runs c = t /\ lower_go (c :: b) s' = ts.
Proof.
  intros H H1 H2 H3. destruct s as [|c s]; [discriminate|]. cbn [lower_go] in H.
  exists c, s. split; [reflexivity|]. unfold lower_char in H.
  destruct (c =? 304); [injection H; intros; congruence|].
  destruct (c =? 931); [destruct (final_sigma b s); injection H; intros; congruence|].
  cbn [app] in H. injection H as <- <-. split; reflexivity.
Qed.

Lemma lower_lookup_to (c t : Z) :
  lower_lookup lower_runs c = t -> c = t \/ In c (preimages lower_runs t).
Proof.
  intros <-. destruct (lower_lookup_inv lower_runs c) as [H|H]; [left; symmetry; exact H|right; exact H].
Qed.

Lemma preimages_p : preimages lower_runs 112 = [80].
Proof. vm_compute. reflexivity. Qed.

Lemma preimages_d : preimages lower_runs 100 = [68].
Proof. vm_compute. reflexivity. Qed.

Lemma preimages_f : preimages lower_runs 102 = [70].
Proof. vm_compute. reflexivity. Qed.

(** X18. [allowed_file] accepts a file name exactly when it ends in a dot followed by the three letters p, d, f, each in either case. *)
Lemma allowed_file_iff (filename : text) :
  allowed_file filename = true
  <-> exists pre x y z, filename = pre ++ [chr_dot; x; y; z]
      /\ (x = 112 \/ x = 80) /\ (y = 100 \/ y = 68) /\ (z = 102 \/ z = 70).
Proof.
  split.
  - unfold allowed_file. intros H. apply andb_prop in H as [Hd He].
    apply infixb_single in Hd. destruct (last_part_inv filename [] Hd) as [pre [Hf Hn]].
    set (w := last_part filename []) in *.
    assert (Hl : py_lower w = [112; 100; 102]).
    { cbn [ALLOWED_EXTENSIONS existsb] in He. rewrite orb_false_r in He.
      assert (Ht : forall a b, text_eqb a b = true -> a = b).
      { induction a as [|x a IH]; intros [|y b] E; try discriminate; [reflexivity|].
        cbn [text_eqb] in E. apply andb_prop in E as [E1 E2]. apply Z.eqb_eq in E1.
        rewrite E1, (IH b E2). reflexivity. }
      rewrite (Ht _ _ He). vm_compute. reflexivity. }
    unfold py_lower in Hl.
    destruct (lower_go_cons _ _ _ _ Hl) as [x [w1 [Ew [Hx Hl1]]]]; try discriminate.
    destruct (lower_go_cons _ _ _ _ Hl1) as [y [w2 [Ew1 [Hy Hl2]]]]; try discriminate.
    destruct (lower_go_cons _ _ _ _ Hl2) as [z [w3 [Ew2 [Hz Hl3]]]]; try discriminate.
    apply lower_go_nil in Hl3. subst w3 w2 w1.
    exists pre, x, y, z. rewrite Hf, Ew. split; [reflexivity|].
    apply lower_lookup_to in Hx, Hy, Hz. rewrite preimages_p in Hx. rewrite preimages_d in Hy.
    rewrite preimages_f in Hz. cbn [In] in Hx, Hy, Hz.
    split; [|split]; [destruct Hx as [|[|[]]]|destruct Hy as [|[|[]]]|destruct Hz as [|[|[]]]];
      auto.
  - intros (pre & x & y & z & -> & Hx & Hy & Hz). unfold allowed_file.
    assert (Hnd : ~ In chr_dot [x; y; z])
      by (cbn [In]; unfold chr_dot; intuition lia).
    rewrite last_part_dot by exact Hnd.
    assert (Hi : infixb [chr_dot] (pre ++ [chr_dot; x; y; z]) = true)
      by (apply infixb_single; apply in_or_app; right; left; reflexivity).
    rewrite Hi. cbn [andb].
    destruct Hx as [->| ->]; destruct Hy as [->| ->]; destruct Hz as [->| ->];
      vm_compute; reflexivity.
Qed.

Lemma text_eqb_eq (a b : text) : text_eqb a b = true <-> a = b.
Proof.
  revert b. induction a as [|x a IH]; intros [|y b]; cbn [text_eqb];
    try (split; intros H; discriminate H); [split; reflexivity|].
  rewrite andb_true_iff, Z.eqb_eq, IH. split; [intros [-> ->]; reflexivity|].
  intros H; injection H as -> ->. split; reflexivity.
Qed.

Lemma text_eqb_refl (a : text) : text_eqb a a = true.
Proof. apply text_eqb_eq. reflexivity. Qed.

Lemma fs_get_set_same (p : text) (b : bytes) (fs : fsys) : fs_get p (fs_set p b fs) = Some b.
Proof.
  induction fs as [|[q b'] r IH]; cbn [fs_set fs_get]; [rewrite text_eqb_refl; reflexivity|].
  destruct (text_eqb p q) eqn:E; cbn [fs_get]; [rewrite text_eqb_refl; reflexivity|].
  rewrite E. exact IH.
Qed.

Lemma fs_get_set_other (p q : text) (b : bytes) (fs : fsys) :
  p <> q -> fs_get q (fs_set p b fs) = fs_get q fs.
Proof.
  intros Hne. induction fs as [|[k b'] r IH]; cbn [fs_set fs_get].
  - destruct (text_eqb q p) eqn:E; [apply text_eqb_eq in E; congruence|reflexivity].
  - destruct (text_eqb p k) eqn:E; cbn [fs_get].
    + apply text_eqb_eq in E. subst k.
      destruct (text_eqb q p) eqn:E2; [apply text_eqb_eq in E2; congruence|reflexivity].
    + destruct (text_eqb q k); [reflexivity|exact IH].
Qed.

Lemma fs_get_del (p q : text) (fs : fsys) :
  fs_get q (fs_del p fs) = if text_eqb q p then None else fs_get q fs.
Proof.
  induction fs as [|[k b] r IH]; cbn [fs_del filter fs_get fst].
  - destruct (text_eqb q p); reflexivity.
  - fold (fs_del p r). destruct (text_eqb p k) eqn:E; cbn [negb fs_get].
    + apply text_eqb_eq in E. subst k. rewrite IH.
      destruct (text_eqb q p); reflexivity.
    + rewrite IH. destruct (text_eqb q p) eqn:E2; [|reflexivity].
      apply text_eqb_eq in E2. subst q. rewrite E. reflexivity.
Qed.

Lemma parse_pdf_accepted_eq sf uh uf op now es (req : request) (fs : fsys) fname content :
  req_too_large req = false -> req_file req = Some (fname, content) -> fname <> [] ->
  allowed_file fname = true ->
  parse_pdf sf uh uf op now es req fs
  = (match run now (op content) with
     | Ok d => (200, SuccessBody (u "PDF parsed successfully") (sf fname)
                                 (Z.of_nat (List.length content)) d)
     | Err e => (500, ErrorBody (u "Error parsing PDF: " ++ es e))
     end,
     fs_del (temp_path sf uh uf fname) (fs_set (temp_path sf uh uf fname) content fs)).
Proof.
  intros Ht Hf Hn Ha. unfold parse_pdf. rewrite Ht, Hf, Ha.
  assert (He : text_eqb fname [] = false) by (destruct fname; [congruence|reflexivity]).
  rewrite He. cbv zeta. rewrite fs_get_set_same. cbn [negb].
  destruct (run now (op content)); reflexivity.
Qed.

(** X19. For a request that passes the checks, [parse_pdf] answers 200 with the parsed data, the secured file name and the content size when parsing succeeds, and 500 with the error text when it raises. *)
Theorem parse_pdf_response sf uh uf op now es (req : request) (fs : fsys) fname content :
  req_too_large req = false -> req_file req = Some (fname, content) -> fname <> [] ->
  allowed_file fname = true ->
  fst (parse_pdf sf uh uf op now es req fs)
  = match run now (op content) with
    | Ok d => (200, SuccessBody (u "PDF parsed successfully") (sf fname)
                                (Z.of_nat (List.length content)) d)
    | Err e => (500, ErrorBody (u "Error parsing PDF: " ++ es e))
    end.
Proof. intros Ht Hf Hn Ha. rewrite (parse_pdf_accepted_eq _ _ _ _ _ _ req fs fname content Ht Hf Hn Ha). reflexivity. Qed.

(** X20. For a request that passes the checks, [parse_pdf] leaves the upload folder as it was, except that the temporary path no longer exists. *)
Theorem parse_pdf_cleanup sf uh uf op now es (req : request) (fs : fsys) fname content :
  req_too_large req = false -> req_file req = Some (fname, content) -> fname <> [] ->
  allowed_file fname = true ->
  forall q, fs_get q (snd (parse_pdf sf uh uf op now es req fs))
            = if text_eqb q (temp_path sf uh uf fname) then None else fs_get q fs.
Proof.
  intros Ht Hf Hn Ha q. rewrite (parse_pdf_accepted_eq _ _ _ _ _ _ req fs fname content Ht Hf Hn Ha).
  cbn [snd]. rewrite fs_get_del. destruct (text_eqb q (temp_path sf uh uf fname)) eqn:E; [reflexivity|].
  apply fs_get_set_other. intros <-. rewrite text_eqb_refl in E. discriminate.
Qed.

(** [dset] of the same key twice keeps the later value. *)
Lemma dset_dset (k : string) (v v' : pyval) (t : dict) : dset k v (dset k v' t) = dset k v t.
Proof.
  induction t as [|[k1 v1] t IH]; cbn [dset].
  - rewrite String.eqb_refl. reflexivity.
  - destruct (String.eqb k k1) eqn:E; cbn [dset].
    + rewrite String.eqb_refl. reflexivity.
    + rewrite E, IH. reflexivity.
Qed.

(** X1. A single line "Итого к оплате: <amount> ₽" with a well-formed
    Russian-locale amount sets [totals['total_amount']] to the value of the
    amount, the comma read as the decimal point, and changes nothing else. *)
Lemma totals_total_text (d : data) (ip : list Z) (fp : option (list Z)) :
  ru_ok ip fp ->
  exists q, parse_totals d (total_text ip fp)
            = Ok (upd_totals (dset "total_amount"%string (PFloat q)) d)
            /\ (q == ru_value ip fp)%Q.
Proof. intros H. exact (parse_totals_total_text d ip fp H). Qed.

(** X15. [_parse_tables] appends to [line_items] exactly the items of the
    qualifying rows, table by table and row by row, and changes nothing
    else. *)
Lemma tables_frame (d : data) (ts : list table) :
  parse_tables d ts
  = mk_data (invoice_info d) (company_info d) (customer_info d)
            (line_items d ++ flat_map (fun t => flat_map (fun r => option_list (row_item r)) t) ts)
            (totals d) (parsed_at d).
Proof. exact (parse_tables_shape d ts). Qed.

(** X21. Of two total lines, the later one decides: [_parse_totals] of
    "Итого к оплате: <a1> ₽" and "Итого к оплате: <a2> ₽" on two lines sets
    [totals['total_amount']] to the value of [a2] only. *)
Lemma totals_last_total (d : data) ip1 fp1 ip2 fp2 :
  ru_ok ip1 fp1 -> ru_ok ip2 fp2 ->
  exists q, parse_totals d (total_text ip1 fp1 ++ chr_newline :: total_text ip2 fp2)
            = Ok (upd_totals (dset "total_amount"%string (PFloat q)) d)
            /\ (q == ru_value ip2 fp2)%Q.
Proof.
  intros H1 H2. unfold parse_totals. rewrite split_nl_app, totals_loop_app.
  fold (parse_totals d (total_text ip1 fp1)).
  destruct (parse_totals_total_text d ip1 fp1 H1) as [q1 [E1 _]]. rewrite E1. cbn [bind].
  fold (parse_totals (upd_totals (dset "total_amount"%string (PFloat q1)) d) (total_text ip2 fp2)).
  destruct (parse_totals_total_text (upd_totals (dset "total_amount"%string (PFloat q1)) d)
              ip2 fp2 H2) as [q2 [E2 Hq2]].
  rewrite E2. exists q2. split; [|exact Hq2].
  unfold upd_totals. cbn [invoice_info company_info customer_info line_items totals parsed_at].
  rewrite dset_dset. reflexivity.
Qed.

(** X22. Whatever the request, [parse_pdf] changes no path of the upload
    folder other than the temporary path of the uploaded file name: a
    rejected request changes nothing, an accepted one at most removes its
    temporary file. *)
Theorem parse_pdf_other_paths sf uh uf op now es (req : request) (fs : fsys) (q : text) :
  (forall fname content, req_file req = Some (fname, content) ->
                         text_eqb q (temp_path sf uh uf fname) = false) ->
  fs_get q (snd (parse_pdf sf uh uf op now es req fs)) = fs_get q fs.
Proof.
  intros Hq. destruct (req_too_large req) eqn:Ht.
  { unfold parse_pdf. rewrite Ht. reflexivity. }
  destruct (req_file req) as [[fname content]|] eqn:Hf.
  2: { unfold parse_pdf. rewrite Ht, Hf. reflexivity. }
  destruct (text_eqb fname []) eqn:He.
  { unfold parse_pdf. rewrite Ht, Hf, He. reflexivity. }
  destruct (allowed_file fname) eqn:Ha.
  2: { unfold parse_pdf. rewrite Ht, Hf, He, Ha. reflexivity. }
  assert (Hn : fname <> []) by (intros ->; discriminate He).
  rewrite (parse_pdf_accepted_eq _ _ _ _ _ _ req fs fname content Ht Hf Hn Ha).
  cbn [snd]. specialize (Hq fname content eq_refl).
  rewrite fs_get_del, Hq. apply fs_get_set_other.
  intros <-. rewrite text_eqb_refl in Hq. discriminate Hq.
Qed.

(** ** Witnesses *)

Ltac ru_ok_tac := split; [discriminate|split; repeat constructor; unfold digit_range; lia].

Lemma totals_total_text_witness :
  ru_ok [1; 2] (Some [5; 0])
  /\ exists q, parse_totals (init_data "") (total_text [1; 2] (Some [5; 0]))
               = Ok (upd_totals (dset "total_amount"%string (PFloat q)) (init_data ""))
               /\ Qeq q (ru_value [1; 2] (Some [5; 0])).
Proof. split; [ru_ok_tac|apply totals_total_text; ru_ok_tac]. Defined.

Lemma totals_vat_text_witness :
  ru_ok [3] (Some [7])
  /\ exists q, parse_totals (init_data "") (vat_text [3] (Some [7]))
               = Ok (upd_totals (dset "vat_amount"%string (PFloat q)) (init_data ""))
               /\ Qeq q (ru_value [3] (Some [7])).
Proof. split; [ru_ok_tac|apply totals_vat_text; ru_ok_tac]. Defined.

Lemma totals_items_text_witness :
  [4; 2] <> [] /\ Forall digit_range [4; 2] /\ ru_ok [1; 0; 0] None
  /\ exists q, parse_totals (init_data "") (items_text [4; 2] [1; 0; 0] None)
               = Ok (upd_totals (fun t => dset "total_sum"%string (PFloat q)
                                   (dset "total_items"%string (PInt (digits_num [4; 2])) t))
                               (init_data ""))
               /\ Qeq q (ru_value [1; 0; 0] None).
Proof.
  assert (Hn : [4; 2] <> []) by discriminate.
  assert (Hd : Forall digit_range [4; 2]) by (repeat constructor; unfold digit_range; lia).
  split; [exact Hn|split; [exact Hd|split; [ru_ok_tac|]]].
  apply totals_items_text; [exact Hn|exact Hd|ru_ok_tac].
Defined.

Lemma line_items_storage_witness :
  u "01.01.2024" <> [] /\ forallb date_char (u "01.01.2024") = true
  /\ u "31.01.2024" <> [] /\ forallb date_char (u "31.01.2024") = true
  /\ ru_ok [2] (Some [5; 0]) /\ ru_ok [1; 1; 0] (Some [0; 0]) /\ ru_ok [2; 7; 5] None
  /\ exists q p t,
    parse_line_items (init_data "")
      (storage_text (u "01.01.2024") (u "31.01.2024") [2] (Some [5; 0]) [1; 1; 0] (Some [0; 0])
                    [2; 7; 5] None)
    = Ok (append_item (init_data "")
            [("type"%string, PStr (u "storage"));
             ("description"%string,
              PStr (u "Хранение товаров от " ++ u "01.01.2024" ++ u " до " ++ u "31.01.2024"));
             ("from_date"%string, PStr (u "01.01.2024"));
             ("to_date"%string, PStr (u "31.01.2024"));
             ("quantity"%string, PFloat q);
             ("unit"%string, PStr (u "м³"));
             ("price_per_unit"%string, PFloat p);
             ("total_amount"%string, PFloat t)])
    /\ Qeq q (ru_value [2] (Some [5; 0])) /\ Qeq p (ru_value [1; 1; 0] (Some [0; 0]))
    /\ Qeq t (ru_value [2; 7; 5] None).
Proof.
  assert (H1 : u "01.01.2024" <> []) by (vm_compute; discriminate).
  assert (H2 : forallb date_char (u "01.01.2024") = true) by (vm_compute; reflexivity).
  assert (H3 : u "31.01.2024" <> []) by (vm_compute; discriminate).
  assert (H4 : forallb date_char (u "31.01.2024") = true) by (vm_compute; reflexivity).
  split; [exact H1|split; [exact H2|split; [exact H3|split; [exact H4|]]]].
  split; [ru_ok_tac|split; [ru_ok_tac|split; [ru_ok_tac|]]].
  apply line_items_storage; [exact H1|exact H2|exact H3|exact H4|ru_ok_tac..].
Defined.

Lemma line_items_reception_witness :
  [1; 2] <> [] /\ Forall digit_range [1; 2] /\ ru_ok [5; 0] (Some [0; 0]) /\ ru_ok [6; 0; 0] None
  /\ exists p t,
    parse_line_items (init_data "") (reception_text [1; 2] [5; 0] (Some [0; 0]) [6; 0; 0] None)
    = Ok (append_item (init_data "")
            [("type"%string, PStr (u "reception"));
             ("description"%string, PStr (u "Приемка товара на склад и размещение"));
             ("quantity"%string, PInt (digits_num [1; 2]));
             ("unit"%string, PStr (u "шт."));
             ("price_per_unit"%string, PFloat p);
             ("total_amount"%string, PFloat t)])
    /\ Qeq p (ru_value [5; 0] (Some [0; 0])) /\ Qeq t (ru_value [6; 0; 0] None).
Proof.
  assert (Hn : [1; 2] <> []) by discriminate.
  assert (Hd : Forall digit_range [1; 2]) by (repeat constructor; unfold digit_range; lia).
  split; [exact Hn|split; [exact Hd|split; [ru_ok_tac|split; [ru_ok_tac|]]]].
  apply line_items_reception; [exact Hn|exact Hd|ru_ok_tac|ru_ok_tac].
Defined.

Lemma line_items_shipment_witness :
  [7; 7] <> [] /\ Forall digit_range [7; 7] /\ u "05.02.2024" <> []
  /\ forallb date_char (u "05.02.2024") = true
  /\ parse_line_items (init_data "") (shipment_text [7; 7] (u "05.02.2024"))
     = Ok (append_item (init_data "")
             [("type"%string, PStr (u "shipment"));
              ("description"%string, PStr (u "Отгрузка FBO " ++ ascii_digits [7; 7]));
              ("fbo_number"%string, PStr (ascii_digits [7; 7]));
              ("date"%string, PStr (u "05.02.2024"));
              ("total_amount"%string, PInt 0)]).
Proof.
  assert (Hn : [7; 7] <> []) by discriminate.
  assert (Hd : Forall digit_range [7; 7]) by (repeat constructor; unfold digit_range; lia).
  assert (H1 : u "05.02.2024" <> []) by (vm_compute; discriminate).
  assert (H2 : forallb date_char (u "05.02.2024") = true) by (vm_compute; reflexivity).
  split; [exact Hn|split; [exact Hd|split; [exact H1|split; [exact H2|]]]].
  apply line_items_shipment; assumption.
Defined.

Lemma line_items_recop_witness :
  [9] <> [] /\ Forall digit_range [9] /\ u "05.02.2024" <> []
  /\ forallb date_char (u "05.02.2024") = true
  /\ parse_line_items (init_data "") (recop_text [9] (u "05.02.2024"))
     = Ok (append_item (init_data "")
             [("type"%string, PStr (u "reception_operation"));
              ("description"%string, PStr (u "Приемка " ++ ascii_digits [9]));
              ("reception_number"%string, PStr (ascii_digits [9]));
              ("date"%string, PStr (u "05.02.2024"));
              ("total_amount"%string, PInt 0)]).
Proof.
  assert (Hn : [9] <> []) by discriminate.
  assert (Hd : Forall digit_range [9]) by (repeat constructor; unfold digit_range; lia).
  assert (H1 : u "05.02.2024" <> []) by (vm_compute; discriminate).
  assert (H2 : forallb date_char (u "05.02.2024") = true) by (vm_compute; reflexivity).
  split; [exact Hn|split; [exact Hd|split; [exact H1|split; [exact H2|]]]].
  apply line_items_recop; assumption.
Defined.

Lemma header_invoice_witness :
  u "12345-1" <> [] /\ forallb number_char (u "12345-1") = true
  /\ u "01.02.2024" <> [] /\ forallb date_char (u "01.02.2024") = true
  /\ parse_header_info (init_data "") (invoice_text (u "12345-1") (u "01.02.2024"))
     = upd_invoice (fun i => dset "date"%string (PStr (u "01.02.2024"))
                               (dset "number"%string (PStr (u "12345-1")) i)) (init_data "").
Proof.
  assert (H1 : u "12345-1" <> []) by (vm_compute; discriminate).
  assert (H2 : forallb number_char (u "12345-1") = true) by (vm_compute; reflexivity).
  assert (H3 : u "01.02.2024" <> []) by (vm_compute; discriminate).
  assert (H4 : forallb date_char (u "01.02.2024") = true) by (vm_compute; reflexivity).
  split; [exact H1|split; [exact H2|split; [exact H3|split; [exact H4|]]]].
  apply header_invoice; assumption.
Defined.

Lemma line_items_frame_witness :
  parse_line_items (init_data "") line_storage = Ok storage_vector_state
  /\ invoice_info storage_vector_state = invoice_info (init_data "")
  /\ company_info storage_vector_state = company_info (init_data "")
  /\ customer_info storage_vector_state = customer_info (init_data "")
  /\ totals storage_vector_state = totals (init_data "")
  /\ parsed_at storage_vector_state = parsed_at (init_data "")
  /\ exists T, line_items storage_vector_state = line_items (init_data "") ++ T.
Proof.
  assert (H : parse_line_items (init_data "") line_storage = Ok storage_vector_state)
    by (vm_compute; reflexivity).
  split; [exact H|]. exact (line_items_frame (init_data "") storage_vector_state line_storage H).
Defined.

Lemma totals_frame_witness :
  exists d', parse_totals (init_data "") (total_text [1; 2] (Some [5; 0])) = Ok d'
             /\ invoice_info d' = invoice_info (init_data "")
             /\ company_info d' = company_info (init_data "")
             /\ customer_info d' = customer_info (init_data "")
             /\ line_items d' = line_items (init_data "")
             /\ parsed_at d' = parsed_at (init_data "").
Proof.
  assert (Hr : ru_ok [1; 2] (Some [5; 0])) by ru_ok_tac.
  destruct (parse_totals_total_text (init_data "") [1; 2] (Some [5; 0]) Hr) as [q [E _]].
  exists (upd_totals (dset "total_amount"%string (PFloat q)) (init_data "")).
  split; [exact E|exact (totals_frame _ _ _ E)].
Defined.

Lemma run_no_text_witness :
  Forall no_text [mk_page None [[row_loading]]; mk_page (Some []) []]
  /\ run "" (Some [mk_page None [[row_loading]]; mk_page (Some []) []])
     = Ok (mk_data [] [] [] (table_items [mk_page None [[row_loading]]; mk_page (Some []) []]) [] "").
Proof.
  assert (H : Forall no_text [mk_page None [[row_loading]]; mk_page (Some []) []])
    by (constructor; [left; reflexivity|constructor; [right; reflexivity|constructor]]).
  split; [exact H|apply run_no_text; exact H].
Defined.

Lemma parse_number_skip_witness :
  parse_number (AStr (45 :: u "5")) = parse_number (AStr (u "5")).
Proof.
  apply parse_number_skip; [reflexivity|discriminate..|reflexivity].
Defined.

Lemma parse_pdf_response_witness :
  fst (parse_pdf (fun x => x) (u "abc") (u "/tmp") (fun _ => Some []) "" (fun _ => [])
                 (mk_request false (Some (u "a.pdf", [1; 2]))) [])
  = match run "" (Some []) with
    | Ok d => (200, SuccessBody (u "PDF parsed successfully") (u "a.pdf") 2 d)
    | Err e => (500, ErrorBody (u "Error parsing PDF: " ++ []))
    end.
Proof.
  apply (parse_pdf_response (fun x => x) (u "abc") (u "/tmp") (fun _ => Some []) "" (fun _ => [])
           (mk_request false (Some (u "a.pdf", [1; 2]))) [] (u "a.pdf") [1; 2]);
    [reflexivity|reflexivity|vm_compute; discriminate|vm_compute; reflexivity].
Defined.

Lemma parse_pdf_cleanup_witness :
  fs_get (u "/tmp/abc_a.pdf")
    (snd (parse_pdf (fun x => x) (u "abc") (u "/tmp") (fun _ => Some []) "" (fun _ => [])
                    (mk_request false (Some (u "a.pdf", [1; 2]))) [(u "/tmp/x", [3])])) = None.
Proof.
  rewrite (parse_pdf_cleanup (fun x => x) (u "abc") (u "/tmp") (fun _ => Some []) "" (fun _ => [])
             (mk_request false (Some (u "a.pdf", [1; 2]))) [(u "/tmp/x", [3])] (u "a.pdf") [1; 2]);
    [vm_compute; reflexivity|reflexivity|reflexivity|discriminate|vm_compute; reflexivity].
Defined.

Lemma parse_pdf_other_paths_witness :
  fs_get (u "/tmp/x")
    (snd (parse_pdf (fun x => x) (u "abc") (u "/tmp") (fun _ => Some []) "" (fun _ => [])
                    (mk_request false (Some (u "a.pdf", [1; 2]))) [(u "/tmp/x", [3])]))
  = Some [3].
Proof.
  apply (parse_pdf_other_paths (fun x => x) (u "abc") (u "/tmp") (fun _ => Some []) "" (fun _ => [])
           (mk_request false (Some (u "a.pdf", [1; 2]))) [(u "/tmp/x", [3])] (u "/tmp/x")).
  intros fname content H. injection H as <- <-. vm_compute. reflexivity.
Defined.

Lemma totals_last_total_witness :
  ru_ok [1] None /\ ru_ok [2] (Some [5])
  /\ exists q, parse_totals (init_data "") (total_text [1] None ++ chr_newline :: total_text [2] (Some [5]))
               = Ok (upd_totals (dset "total_amount"%string (PFloat q)) (init_data ""))
               /\ Qeq q (ru_value [2] (Some [5])).
Proof.
  split; [ru_ok_tac|split; [ru_ok_tac|]].
  apply totals_last_total; ru_ok_tac.
Defined.
